(** * Camino MCP adapter: tool dispatch, request translation and upstream client

    A shallow embedding of the TypeScript sources
      - [services/camino-api.ts]  (class [CaminoApiService], the upstream client),
      - [utils/logger.ts]         (class [Logger], the diagnostic sink),
      - [server.ts]               (class [CaminoMCPServer], the stdio-bound server),
      - [index.ts]                ([createStatelessServer], the session factory),
    together with the properties the specification states about them.

    JavaScript values are a first-order datatype; an [async] function is a
    computation that records, in order, the upstream calls and the writes it
    performs, and that completes normally or by throwing. *)

From Stdlib Require Import PrimFloat String Ascii List Bool PeanoNat Lia.
Import ListNotations.

Set Warnings "-register-all".
Set Implicit Arguments.
Open Scope string_scope.

(* ================================================================== *)
(** ** JavaScript values *)

(** Numbers are IEEE doubles, as in the language; an [Error] instance keeps
    the name of its constructor next to its properties, so that
    [instanceof Error] can be answered. *)
Inductive JsValue : Type :=
| JUndefined
| JNull
| JBool (b : bool)
| JNum (x : float)
| JStr (s : string)
| JArr (items : list JsValue)
| JObj (fields : list (string * JsValue))
| JErr (cls : string) (fields : list (string * JsValue)).

Arguments JNum x%_float.

(** The line feed character, as a string. *)
Definition newline : string := String (ascii_of_nat 10) EmptyString.

(** First binding of key [k] in a property list, [undefined] when absent. *)
Fixpoint assoc (k : string) (fs : list (string * JsValue)) : JsValue :=
  match fs with
  | [] => JUndefined
  | (k', v) :: rest => if String.eqb k k' then v else assoc k rest
  end.

(** [v.k] for a receiver that is neither [null] nor [undefined]: objects and
    errors answer from their properties, primitives have no such property. *)
Definition get (v : JsValue) (k : string) : JsValue :=
  match v with
  | JObj fs | JErr _ fs => assoc k fs
  | _ => JUndefined
  end.

(** [v?.k]. *)
Definition optget (v : JsValue) (k : string) : JsValue :=
  match v with
  | JUndefined | JNull => JUndefined
  | _ => get v k
  end.

(** ToBoolean: [undefined], [null], [false], [0], [-0], [NaN] and the empty
    string are falsy, everything else is truthy. *)
Definition truthy (v : JsValue) : bool :=
  match v with
  | JUndefined | JNull => false
  | JBool b => b
  | JNum x => negb (PrimFloat.eqb x 0 || negb (PrimFloat.eqb x x))
  | JStr s => negb (String.eqb s "")
  | JArr _ | JObj _ | JErr _ _ => true
  end.

Definition falsy (v : JsValue) : bool := negb (truthy v).

(** [a || b]. *)
Definition js_or (a b : JsValue) : JsValue := if truthy a then a else b.

(** [v !== false]. *)
Definition not_false (v : JsValue) : bool :=
  match v with
  | JBool false => false
  | _ => true
  end.

(** [v instanceof Error]. *)
Definition instanceof_Error (v : JsValue) : bool :=
  match v with
  | JErr _ _ => true
  | _ => false
  end.

Definition new_Error (cls message : string) : JsValue :=
  JErr cls [("message", JStr message)].

(* ================================================================== *)
(** ** Upstream transport (axios) *)

Inductive HttpMethod := GET | POST.

(** One outbound call as axios sends it: the instance defaults (base URL,
    timeout, headers) merged with the per-call path, query parameters and
    body.  [req_params] and [req_data] are the values handed to axios, before
    it serialises them. *)
Record HttpRequest := {
  req_method : HttpMethod;
  req_baseURL : string;
  req_url : string;
  req_params : JsValue;
  req_data : JsValue;
  req_headers : list (string * string);
  req_timeout : float
}.

(** How a call ends: a 2xx response carrying a body; no response at all
    (network error, timeout), where the rejection has a message only; or a
    non-2xx response, where the rejection also carries the response body. *)
Inductive AxiosOutcome :=
| Fulfilled (body : JsValue)
| NoResponse (message : string)
| BadStatus (message : string) (body : JsValue).

Definition failing (o : AxiosOutcome) : bool :=
  match o with
  | Fulfilled _ => false
  | NoResponse _ | BadStatus _ _ => true
  end.

(** The value axios rejects with. *)
Definition axios_error (o : AxiosOutcome) : JsValue :=
  match o with
  | Fulfilled _ => JUndefined
  | NoResponse m => JErr "AxiosError" [("message", JStr m)]
  | BadStatus m body =>
      JErr "AxiosError" [("message", JStr m); ("response", JObj [("data", body)])]
  end.

(* ================================================================== *)
(** ** Effects: ordered trace of calls and writes, normal or abrupt completion *)

Inductive Channel := Stdout | Stderr | LogFile.

Inductive Event :=
| EvHttp (r : HttpRequest)
| EvWrite (c : Channel) (text : string).

Inductive Completion (A : Type) : Type :=
| Normal (a : A)
| Throw (e : JsValue).

Arguments Normal {A} a.
Arguments Throw {A} e.

Definition Eff (A : Type) : Type := (list Event * Completion A)%type.

Definition ret {A} (a : A) : Eff A := ([], Normal a).

Definition throw {A} (e : JsValue) : Eff A := ([], Throw e).

Definition bind {A B} (m : Eff A) (k : A -> Eff B) : Eff B :=
  match m with
  | (t, Normal a) => let (t', r) := k a in ((t ++ t')%list, r)
  | (t, Throw e) => (t, Throw e)
  end.

(** [try { body } catch (e) { handler e }]. *)
Definition try_catch {A} (body : Eff A) (handler : JsValue -> Eff A) : Eff A :=
  match body with
  | (t, Normal a) => (t, Normal a)
  | (t, Throw e) => let (t', r) := handler e in ((t ++ t')%list, r)
  end.

Definition emit (e : Event) : Eff unit := ([e], Normal tt).

Declare Scope eff_scope.
Delimit Scope eff_scope with eff.
Notation "x <- m ;; k" := (bind m (fun x => k))
  (at level 100, m at next level, right associativity) : eff_scope.
Notation "m ;;; k" := (bind m (fun _ => k))
  (at level 100, right associativity) : eff_scope.
Open Scope eff_scope.

Definition trace {A} (m : Eff A) : list Event := fst m.
Definition outcome {A} (m : Eff A) : Completion A := snd m.

Definition throws {A} (m : Eff A) : bool :=
  match outcome m with
  | Normal _ => false
  | Throw _ => true
  end.

Fixpoint mapM {A B} (f : A -> Eff B) (l : list A) : Eff (list B) :=
  match l with
  | [] => ret []
  | a :: rest => b <- f a ;; bs <- mapM f rest ;; ret (b :: bs)
  end.

(** The upstream calls issued, in order. *)
Fixpoint http_calls (t : list Event) : list HttpRequest :=
  match t with
  | [] => []
  | EvHttp r :: rest => r :: http_calls rest
  | EvWrite _ _ :: rest => http_calls rest
  end.

(** The text written to one channel, in order. *)
Fixpoint written (c : Channel) (t : list Event) : list string :=
  match t with
  | [] => []
  | EvWrite c' s :: rest =>
      match c, c' with
      | Stdout, Stdout | Stderr, Stderr | LogFile, LogFile => s :: written c rest
      | _, _ => written c rest
      end
  | EvHttp _ :: rest => written c rest
  end.

(* ================================================================== *)
(** ** The environment a process runs in *)

Record World := {
  (** the remote service: how the call carrying a given request ends *)
  upstream : HttpRequest -> AxiosOutcome;
  (** [Logger.debugMode]: NODE_ENV is development or MCP_DEBUG is true *)
  debugMode : bool;
  (** [new Date().toISOString()] *)
  now_iso : string;
  (** whether [fs.appendFileSync] on the log file succeeds *)
  append_ok : bool;
  (** JSON text of a value; the flag selects the two-space indented form *)
  render : bool -> JsValue -> string;
  (** [String(v)] for a value that is not a string *)
  to_text : JsValue -> string;
  (** [util.inspect(v)] for a value that is not a string *)
  inspect : JsValue -> string
}.

(** [JSON.stringify(v)] and [JSON.stringify(v, null, 2)]: [undefined] has no
    JSON text. *)
Definition JSON_stringify (w : World) (pretty : bool) (v : JsValue) : JsValue :=
  match v with
  | JUndefined => JUndefined
  | _ => JStr (render w pretty v)
  end.

(** String conversion inside a template literal or by [String(v)]. *)
Definition js_String (w : World) (v : JsValue) : string :=
  match v with
  | JStr s => s
  | _ => to_text w v
  end.

(** [console.error(a, b)]: the arguments separated by a space, strings
    verbatim, and a newline, on the standard error stream. *)
Definition console_error (w : World) (label : string) (arg : JsValue) : Eff unit :=
  emit (EvWrite Stderr
          (label ++ " " ++ match arg with JStr s => s | _ => inspect w arg end
                 ++ newline)).

(** Evaluating identifier [name] in a module whose top-level bindings are
    [scope]: an unbound identifier throws a ReferenceError. *)
Definition ident (scope : list string) (name : string) : Eff unit :=
  if existsb (String.eqb name) scope then ret tt
  else throw (new_Error "ReferenceError" (name ++ " is not defined")).

(* ================================================================== *)
(** ** utils/logger.ts *)

Module Logger.
Section Sink.
Variable w : World.

(** The append is wrapped in a [try] whose [catch] is empty. *)
Definition writeToFile (level message : string) (data : JsValue) : Eff unit :=
  let logEntry :=
    JObj [("timestamp", JStr (now_iso w));
          ("level", JStr level);
          ("message", JStr message);
          ("data", js_or data JUndefined)] in
  try_catch
    (if append_ok w
     then emit (EvWrite LogFile (render w false logEntry ++ newline))
     else throw (new_Error "Error" "append failed"))
    (fun _ => ret tt).

Definition debug (message : string) (data : JsValue) : Eff unit :=
  if debugMode w then writeToFile "DEBUG" message data else ret tt.

Definition info (message : string) (data : JsValue) : Eff unit :=
  writeToFile "INFO" message data.

Definition error (message : string) (err : JsValue) : Eff unit :=
  writeToFile "ERROR" message err ;;;
  if debugMode w && truthy err
  then emit (EvWrite Stderr
               ("[MCP Error] " ++ message ++ ": "
                ++ (if instanceof_Error err
                    then js_String w (get err "message")
                    else js_String w err)
                ++ newline))
  else ret tt.
End Sink.
End Logger.

(* ================================================================== *)
(** ** services/camino-api.ts *)

Record CaminoApiConfig := {
  baseUrl : string;
  apiKey : string;
  timeout : option float
}.

(** What [axios.create] keeps: the defaults merged into every call. *)
Record AxiosInstance := {
  defaults_baseURL : string;
  defaults_timeout : float;
  defaults_headers : list (string * string)
}.

Module CaminoApiService.

Record t := {
  client : AxiosInstance;
  this_apiKey : string
}.

(** The identifiers bound at the top level of [camino-api.ts]: its two
    import statements and the class it declares. *)
Definition module_scope : list string :=
  ["axios"; "AxiosInstance";
   "QueryRequest"; "SearchRequest"; "SpatialRelationshipRequest";
   "PlaceContextRequest"; "JourneyPlanningRequest"; "RoutePlanningRequest";
   "ApiResponse"; "CaminoApiConfig";
   "CaminoApiService"].

(** [config.timeout || 30000]. *)
Definition timeout_or_default (config : CaminoApiConfig) : float :=
  match timeout config with
  | Some ms => if truthy (JNum ms) then ms else 30000%float
  | None => 30000%float
  end.

Definition new (config : CaminoApiConfig) : t :=
  {| this_apiKey := apiKey config;
     client :=
       {| defaults_baseURL := baseUrl config;
          defaults_timeout := timeout_or_default config;
          defaults_headers :=
            [("Content-Type", "application/json");
             ("Accept", "application/json");
             ("X-API-Key", apiKey config)] |} |}.

Section Operations.
Variable w : World.
Variable this : t.

(** Awaiting one call of the axios instance: the call is issued, then it
    resolves with the response object or rejects with the error. *)
Definition send (m : HttpMethod) (path : string) (params data : JsValue)
  : Eff JsValue :=
  let r := {| req_method := m;
              req_baseURL := defaults_baseURL (client this);
              req_url := path;
              req_params := params;
              req_data := data;
              req_headers := defaults_headers (client this);
              req_timeout := defaults_timeout (client this) |} in
  emit (EvHttp r) ;;;
  match upstream w r with
  | Fulfilled body => ret (JObj [("data", body)])
  | o => throw (axios_error o)
  end.

(** [this.client.get(path, { params })]. *)
Definition client_get (path : string) (params : JsValue) : Eff JsValue :=
  send GET path params JUndefined.

(** [this.client.post(path, data, { params })]. *)
Definition client_post (path : string) (data params : JsValue) : Eff JsValue :=
  send POST path params data.

(** [error.response?.data?.detail || error.message]. *)
Definition error_text (error : JsValue) : JsValue :=
  js_or (optget (optget (get error "response") "data") "detail")
        (get error "message").

(** [{ success: true, data: response.data }], the value every operation
    returns after its call resolved. *)
Definition success_envelope (response : JsValue) : JsValue :=
  JObj [("success", JBool true); ("data", get response "data")].

(** [{ success: false, error: <error text>, data: <fallback> }], the value
    every [catch] block returns; the fallback differs per operation. *)
Definition failure_envelope (error fallback : JsValue) : JsValue :=
  JObj [("success", JBool false);
        ("error", error_text error);
        ("data", fallback)].

(** [Logger.error(...)] as written in this module. *)
Definition Logger_error (message : string) (err : JsValue) : Eff unit :=
  ident module_scope "Logger" ;;;
  Logger.error w message err.

Definition executeQuery (request : JsValue) : Eff JsValue :=
  try_catch
    (response <- client_get "/query"
                   (JObj [("q", get request "query");
                          ("lat", get request "latitude");
                          ("lon", get request "longitude");
                          ("radius", get request "radius");
                          ("rank", get request "rank");
                          ("limit", get request "limit");
                          ("answer", get request "generate_answer")]) ;;
     ret (success_envelope response))
    (fun error =>
       console_error w "Query execution failed:" (get error "message") ;;;
       ret (failure_envelope error
              (JObj [("query", get request "query");
                     ("results", JArr []);
                     ("total_found", JNum 0);
                     ("ai_ranked", JBool false)]))).

Definition executeSearch (request : JsValue) : Eff JsValue :=
  try_catch
    (response <- client_post "/search" JNull
                   (JObj [("q", get request "query")]) ;;
     ret (success_envelope response))
    (fun error =>
       console_error w "Search execution failed:" (get error "message") ;;;
       ret (failure_envelope error
              (JObj [("query", get request "query");
                     ("results", JArr []);
                     ("total_found", JNum 0);
                     ("source", JStr "nominatim")]))).

Definition calculateSpatialRelationship (request : JsValue) : Eff JsValue :=
  try_catch
    (let requestBody :=
       JObj [("start", JObj [("lat", get request "start_latitude");
                             ("lon", get request "start_longitude")]);
             ("end", JObj [("lat", get request "end_latitude");
                           ("lon", get request "end_longitude")]);
             ("include", get request "include")] in
     response <- client_post "/relationship" requestBody JUndefined ;;
     ret (success_envelope response))
    (fun error =>
       console_error w "Spatial relationship calculation failed:"
                     (get error "message") ;;;
       ret (failure_envelope error
              (JObj [("start_location",
                      JObj [("lat", get request "start_latitude");
                            ("lon", get request "start_longitude")]);
                     ("end_location",
                      JObj [("lat", get request "end_latitude");
                            ("lon", get request "end_longitude")])]))).

Definition getPlaceContext (request : JsValue) : Eff JsValue :=
  try_catch
    (let requestBody :=
       JObj [("location", JObj [("lat", get request "latitude");
                                ("lon", get request "longitude")]);
             ("radius", get request "radius");
             ("context", get request "context")] in
     response <- client_post "/context" requestBody JUndefined ;;
     ret (success_envelope response))
    (fun error =>
       Logger_error "Place context retrieval failed" error ;;;
       ret (failure_envelope error
              (JObj [("location",
                      JObj [("lat", get request "latitude");
                            ("lon", get request "longitude")]);
                     ("relevant_places", JObj []);
                     ("total_places_found", JNum 0)]))).

(** The arrow function given to [map]: reading a property of [null] or
    [undefined] throws a TypeError. *)
Definition wire_waypoint (wp : JsValue) : Eff JsValue :=
  match wp with
  | JUndefined | JNull =>
      throw (new_Error "TypeError" "Cannot read properties of undefined (reading 'lat')")
  | _ =>
      ret (JObj [("lat", get wp "lat");
                 ("lon", get wp "lon");
                 ("purpose", get wp "purpose")])
  end.

(** [v.map(f)]: defined on arrays; a TypeError on anything else. *)
Definition array_map (f : JsValue -> Eff JsValue) (v : JsValue) : Eff JsValue :=
  match v with
  | JArr items => items' <- mapM f items ;; ret (JArr items')
  | JUndefined | JNull =>
      throw (new_Error "TypeError" "Cannot read properties of undefined (reading 'map')")
  | _ => throw (new_Error "TypeError" "request.waypoints.map is not a function")
  end.

Definition planJourney (request : JsValue) : Eff JsValue :=
  try_catch
    (waypoints <- array_map wire_waypoint (get request "waypoints") ;;
     let requestBody :=
       JObj [("waypoints", waypoints);
             ("constraints",
              JObj [("transport",
                     js_or (get request "transport_mode") (JStr "walking"));
                    ("time_budget", get request "time_budget")])] in
     response <- client_post "/journey" requestBody JUndefined ;;
     ret (success_envelope response))
    (fun error =>
       Logger_error "Journey planning failed" error ;;;
       ret (failure_envelope error
              (JObj [("waypoints", get request "waypoints");
                     ("feasible", JBool false)]))).

Definition planRoute (request : JsValue) : Eff JsValue :=
  try_catch
    (response <- client_get "/route"
                   (JObj [("start_lat", get request "start_latitude");
                          ("start_lon", get request "start_longitude");
                          ("end_lat", get request "end_latitude");
                          ("end_lon", get request "end_longitude");
                          ("mode", get request "mode");
                          ("include_geometry", get request "include_geometry")]) ;;
     ret (success_envelope response))
    (fun error =>
       Logger_error "Route planning failed" error ;;;
       ret (failure_envelope error
              (JObj [("start_location",
                      JObj [("lat", get request "start_latitude");
                            ("lon", get request "start_longitude")]);
                     ("end_location",
                      JObj [("lat", get request "end_latitude");
                            ("lon", get request "end_longitude")]);
                     ("mode", js_or (get request "mode") (JStr "car"))]))).
End Operations.
End CaminoApiService.

(* ================================================================== *)
(** ** MCP error values *)

(** [ErrorCode.InternalError] and [ErrorCode.InvalidParams] of the protocol. *)
Definition InternalError : float := (-32603)%float.
Definition InvalidParams : float := (-32602)%float.

(** [new McpError(code, message)], kept as the two constructor arguments. *)
Definition McpError (code : float) (message : string) : JsValue :=
  JErr "McpError" [("code", JNum code); ("message", JStr message)].

(** The tool result every handler hands to the host: one text block. *)
Definition text_content (text : JsValue) : JsValue :=
  JObj [("content", JArr [JObj [("type", JStr "text"); ("text", text)]])].

(** [response.success ? response.data : response]. *)
Definition unwrap (response : JsValue) : JsValue :=
  if truthy (get response "success") then get response "data" else response.

(* ================================================================== *)
(** ** server.ts: the stdio-bound server *)

(** A tool descriptor.  The human-readable [description] texts of the tools
    and of their properties are left out; names, types, bounds, enumerations
    and required fields are as declared. *)
Record Tool := {
  name : string;
  inputSchema : JsValue
}.

Definition schema_type (ty : string) : JsValue := JObj [("type", JStr ty)].

Definition schema_object (properties : list (string * JsValue))
                         (required : list string) : JsValue :=
  JObj [("type", JStr "object");
        ("properties", JObj properties);
        ("required", JArr (map JStr required))].

Module CaminoMCPServer.

Record t := {
  caminoApi : CaminoApiService.t
}.

(** The identifiers bound at the top level of [server.ts]. *)
Definition module_scope : list string :=
  ["Server"; "StdioServerTransport";
   "CallToolRequestSchema"; "ErrorCode"; "ListToolsRequestSchema"; "McpError";
   "z"; "CaminoApiService"; "Tool"; "Logger";
   "CaminoMCPServer"].

Definition new (apiBaseUrl apiKey : string) : t :=
  {| caminoApi :=
       CaminoApiService.new
         {| baseUrl := apiBaseUrl; apiKey := apiKey; timeout := None |} |}.

Definition getTools : list Tool :=
  [ {| name := "camino_query";
       inputSchema :=
         schema_object
           [("query", schema_type "string");
            ("latitude", schema_type "number");
            ("longitude", schema_type "number");
            ("radius", JObj [("type", JStr "integer");
                             ("minimum", JNum 100);
                             ("maximum", JNum 50000)]);
            ("limit", JObj [("type", JStr "integer");
                            ("minimum", JNum 1);
                            ("maximum", JNum 100)]);
            ("rank", schema_type "boolean");
            ("generate_answer", schema_type "boolean")]
           ["query"] |};
    {| name := "camino_search";
       inputSchema :=
         schema_object [("query", schema_type "string")] ["query"] |};
    {| name := "camino_spatial_relationship";
       inputSchema :=
         schema_object
           [("start_latitude", schema_type "number");
            ("start_longitude", schema_type "number");
            ("end_latitude", schema_type "number");
            ("end_longitude", schema_type "number");
            ("include",
             JObj [("type", JStr "array");
                   ("items",
                    JObj [("type", JStr "string");
                          ("enum", JArr [JStr "distance"; JStr "direction";
                                         JStr "travel_time"; JStr "description"])])])]
           ["start_latitude"; "start_longitude"; "end_latitude"; "end_longitude"] |};
    {| name := "camino_place_context";
       inputSchema :=
         schema_object
           [("latitude", schema_type "number");
            ("longitude", schema_type "number");
            ("radius", schema_type "string");
            ("context", schema_type "string")]
           ["latitude"; "longitude"] |};
    {| name := "camino_journey_planning";
       inputSchema :=
         schema_object
           [("waypoints",
             JObj [("type", JStr "array");
                   ("items",
                    schema_object
                      [("latitude", schema_type "number");
                       ("longitude", schema_type "number");
                       ("purpose", schema_type "string")]
                      ["latitude"; "longitude"; "purpose"]);
                   ("minItems", JNum 2)]);
            ("transport_mode",
             JObj [("type", JStr "string");
                   ("enum", JArr [JStr "walking"; JStr "driving"; JStr "cycling"])]);
            ("time_budget", schema_type "string")]
           ["waypoints"] |};
    {| name := "camino_route_planning";
       inputSchema :=
         schema_object
           [("start_latitude", schema_type "number");
            ("start_longitude", schema_type "number");
            ("end_latitude", schema_type "number");
            ("end_longitude", schema_type "number");
            ("mode",
             JObj [("type", JStr "string");
                   ("enum", JArr [JStr "car"; JStr "bike"; JStr "foot"])]);
            ("include_geometry", schema_type "boolean")]
           ["start_latitude"; "start_longitude"; "end_latitude"; "end_longitude"] |} ].

Section Handlers.
Variable w : World.
Variable this : t.

Definition queryRequest (args : JsValue) : JsValue :=
  JObj [("query", get args "query");
        ("latitude", get args "latitude");
        ("longitude", get args "longitude");
        ("radius", js_or (get args "radius") (JNum 1000));
        ("rank", JBool (not_false (get args "rank")));
        ("limit", js_or (get args "limit") (JNum 20));
        ("generate_answer", JBool (not_false (get args "generate_answer")))].

Definition executeQueryTool (args : JsValue) : Eff JsValue :=
  let request := queryRequest args in
  response <- CaminoApiService.executeQuery w (caminoApi this) request ;;
  ret (unwrap response).

Definition searchRequest (args : JsValue) : JsValue :=
  JObj [("query", get args "query")].

Definition executeSearchTool (args : JsValue) : Eff JsValue :=
  let request := searchRequest args in
  response <- CaminoApiService.executeSearch w (caminoApi this) request ;;
  ret (unwrap response).

Definition spatialRelationshipRequest (args : JsValue) : JsValue :=
  JObj [("start_latitude", get args "start_latitude");
        ("start_longitude", get args "start_longitude");
        ("end_latitude", get args "end_latitude");
        ("end_longitude", get args "end_longitude");
        ("include",
         js_or (get args "include")
               (JArr [JStr "distance"; JStr "direction";
                      JStr "travel_time"; JStr "description"]))].

Definition executeSpatialRelationshipTool (args : JsValue) : Eff JsValue :=
  let request := spatialRelationshipRequest args in
  response <- CaminoApiService.calculateSpatialRelationship w (caminoApi this) request ;;
  ret (unwrap response).

Definition placeContextRequest (args : JsValue) : JsValue :=
  JObj [("latitude", get args "latitude");
        ("longitude", get args "longitude");
        ("radius", js_or (get args "radius") (JStr "500m"));
        ("context", get args "context")].

Definition executePlaceContextTool (args : JsValue) : Eff JsValue :=
  let request := placeContextRequest args in
  response <- CaminoApiService.getPlaceContext w (caminoApi this) request ;;
  ret (unwrap response).

Definition journeyPlanningRequest (args : JsValue) : JsValue :=
  JObj [("waypoints", get args "waypoints");
        ("transport_mode", js_or (get args "transport_mode") (JStr "walking"));
        ("time_budget", get args "time_budget")].

Definition executeJourneyPlanningTool (args : JsValue) : Eff JsValue :=
  let request := journeyPlanningRequest args in
  response <- CaminoApiService.planJourney w (caminoApi this) request ;;
  ret (unwrap response).

Definition routePlanningRequest (args : JsValue) : JsValue :=
  JObj [("start_latitude", get args "start_latitude");
        ("start_longitude", get args "start_longitude");
        ("end_latitude", get args "end_latitude");
        ("end_longitude", get args "end_longitude");
        ("mode", js_or (get args "mode") (JStr "car"));
        ("include_geometry", js_or (get args "include_geometry") (JBool false))].

Definition executeRoutePlanningTool (args : JsValue) : Eff JsValue :=
  let request := routePlanningRequest args in
  response <- CaminoApiService.planRoute w (caminoApi this) request ;;
  ret (unwrap response).

(** [Logger.debug(...)] as written in this module. *)
Definition Logger_debug (message : string) (data : JsValue) : Eff unit :=
  ident module_scope "Logger" ;;;
  Logger.debug w message data.

(** The [switch] compares [name] with each label by strict equality. *)
Definition executeTool (name : string) (args : JsValue) : Eff JsValue :=
  Logger_debug "Executing tool" (JObj [("name", JStr name); ("args", args)]) ;;;
  if String.eqb name "camino_query" then executeQueryTool args
  else if String.eqb name "camino_search" then executeSearchTool args
  else if String.eqb name "camino_spatial_relationship"
       then executeSpatialRelationshipTool args
  else if String.eqb name "camino_place_context" then executePlaceContextTool args
  else if String.eqb name "camino_journey_planning"
       then executeJourneyPlanningTool args
  else if String.eqb name "camino_route_planning" then executeRoutePlanningTool args
  else throw (new_Error "Error" ("Unknown tool: " ++ name)).

(** The handler registered for [CallToolRequestSchema]; [name] and [args]
    are [request.params.name] and [request.params.arguments].  Nothing
    between the arrival of the request and [executeTool] looks at the
    declared [inputSchema]. *)
Definition callTool (name : string) (args : JsValue) : Eff JsValue :=
  try_catch
    (result <- executeTool name (js_or args (JObj [])) ;;
     ret (text_content (JSON_stringify w true result)))
    (fun error =>
       let errorMessage :=
         if instanceof_Error error then get error "message"
         else JStr (js_String w error) in
       throw (McpError InternalError
                ("Tool execution failed: " ++ js_String w errorMessage))).
(** The handler registered for [ListToolsRequestSchema]. *)
Definition listTools : list Tool := getTools.

(** [Logger.error(...)] and [Logger.info(...)] as written in this module. *)
Definition Logger_error (message : string) (err : JsValue) : Eff unit :=
  ident module_scope "Logger" ;;;
  Logger.error w message err.

Definition Logger_info (message : string) (data : JsValue) : Eff unit :=
  ident module_scope "Logger" ;;;
  Logger.info w message data.

(** [this.server.onerror], as [setupErrorHandler] installs it. *)
Definition onerror (error : JsValue) : Eff unit :=
  Logger_error "MCP Server Error" error.

(** [run()]; [connect] is the SDK's [this.server.connect(transport)], which
    resolves or rejects. *)
Definition run (connect : Eff unit) : Eff unit :=
  connect ;;;
  Logger_info "Camino MCP Server started" JUndefined.
End Handlers.
End CaminoMCPServer.

(* ================================================================== *)
(** ** Parameter schemas (zod) and the high-level server of the protocol SDK *)

(** The schema combinators [index.ts] uses. *)
Inductive ZodType : Type :=
| z_string
| z_number (minimum maximum : option float)
| z_boolean
| z_enum (values : list string)
| z_array (item : ZodType) (min_items : nat)
| z_object (shape : list (string * ZodType))
| z_optional (inner : ZodType)
| z_default (inner : ZodType) (value : JsValue).

Definition at_least (bound : option float) (x : float) : bool :=
  match bound with
  | Some lo => PrimFloat.leb lo x
  | None => true
  end.

Definition at_most (bound : option float) (x : float) : bool :=
  match bound with
  | Some hi => PrimFloat.leb x hi
  | None => true
  end.

(** [schema.safeParse(v)]: the parsed value, defaults filled in and unknown
    keys of objects dropped, or [None] when [v] does not conform. *)
Fixpoint safeParse (s : ZodType) (v : JsValue) : option JsValue :=
  match s with
  | z_string => match v with JStr _ => Some v | _ => None end
  | z_number lo hi =>
      match v with
      | JNum x =>
          if PrimFloat.eqb x x && at_least lo x && at_most hi x
          then Some v else None
      | _ => None
      end
  | z_boolean => match v with JBool _ => Some v | _ => None end
  | z_enum values =>
      match v with
      | JStr x => if existsb (String.eqb x) values then Some v else None
      | _ => None
      end
  | z_array item min_items =>
      match v with
      | JArr items =>
          let parsed :=
            (fix each (l : list JsValue) : option (list JsValue) :=
               match l with
               | [] => Some []
               | x :: rest =>
                   match safeParse item x, each rest with
                   | Some x', Some rest' => Some (x' :: rest')
                   | _, _ => None
                   end
               end) items in
          match parsed with
          | Some items' =>
              if Nat.leb min_items (length items) then Some (JArr items') else None
          | None => None
          end
      | _ => None
      end
  | z_object shape =>
      match v with
      | JObj fs =>
          let parsed :=
            (fix each (sh : list (string * ZodType))
               : option (list (string * JsValue)) :=
               match sh with
               | [] => Some []
               | (k, s') :: rest =>
                   match safeParse s' (assoc k fs), each rest with
                   | Some JUndefined, Some rest' => Some rest'
                   | Some x, Some rest' => Some ((k, x) :: rest')
                   | _, _ => None
                   end
               end) shape in
          match parsed with
          | Some fs' => Some (JObj fs')
          | None => None
          end
      | _ => None
      end
  | z_optional inner =>
      match v with
      | JUndefined => Some JUndefined
      | _ => safeParse inner v
      end
  | z_default inner value =>
      match v with
      | JUndefined => Some value
      | _ => safeParse inner v
      end
  end.

(** One [server.tool(name, description, paramsSchema, cb)] registration. *)
Record RegisteredTool := {
  tool_name : string;
  paramsSchema : list (string * ZodType);
  callback : JsValue -> Eff JsValue
}.

(** What the SDK's server does with a [tools/call] request. *)
Inductive Dispatch :=
| NoSuchTool
| InvalidArguments
| Handled (run : Eff JsValue).

Fixpoint find_tool (tools : list RegisteredTool) (name : string)
  : option RegisteredTool :=
  match tools with
  | [] => None
  | tl :: rest => if String.eqb name (tool_name tl) then Some tl else find_tool rest name
  end.

(** The SDK looks the tool up by name, parses the arguments against the
    registered parameter schema, and only then runs the callback on the
    parsed arguments. *)
Definition tools_call (tools : list RegisteredTool) (name : string) (args : JsValue)
  : Dispatch :=
  match find_tool tools name with
  | None => NoSuchTool
  | Some tl =>
      match safeParse (z_object (paramsSchema tl)) args with
      | None => InvalidArguments
      | Some parsed => Handled (callback tl parsed)
      end
  end.

(* ================================================================== *)
(** ** index.ts: the session factory *)

Record SessionConfig := {
  cfg_apiKey : string;
  cfg_baseUrl : string;
  cfg_debug : bool
}.

Module StatelessServer.
Section Factory.
Variable w : World.
Variable config : SessionConfig.

Definition caminoApi : CaminoApiService.t :=
  CaminoApiService.new
    {| baseUrl := cfg_baseUrl config; apiKey := cfg_apiKey config; timeout := None |}.

Definition reply (response : JsValue) : JsValue :=
  let result := unwrap response in
  text_content (JSON_stringify w true result).

Definition camino_query : RegisteredTool :=
  {| tool_name := "camino_query";
     paramsSchema :=
       [("query", z_string);
        ("latitude", z_optional (z_number None None));
        ("longitude", z_optional (z_number None None));
        ("radius", z_default (z_number (Some 100%float) (Some 50000%float)) (JNum 1000));
        ("limit", z_default (z_number (Some 1%float) (Some 100%float)) (JNum 20));
        ("rank", z_default z_boolean (JBool true));
        ("generate_answer", z_default z_boolean (JBool true))];
     callback := fun args =>
       let request :=
         JObj [("query", get args "query");
               ("latitude", get args "latitude");
               ("longitude", get args "longitude");
               ("radius", get args "radius");
               ("rank", get args "rank");
               ("limit", get args "limit");
               ("generate_answer", get args "generate_answer")] in
       response <- CaminoApiService.executeQuery w caminoApi request ;;
       ret (reply response) |}.

Definition camino_search : RegisteredTool :=
  {| tool_name := "camino_search";
     paramsSchema := [("query", z_string)];
     callback := fun args =>
       let request := JObj [("query", get args "query")] in
       response <- CaminoApiService.executeSearch w caminoApi request ;;
       ret (reply response) |}.

Definition camino_spatial_relationship : RegisteredTool :=
  {| tool_name := "camino_spatial_relationship";
     paramsSchema :=
       [("start_latitude", z_number None None);
        ("start_longitude", z_number None None);
        ("end_latitude", z_number None None);
        ("end_longitude", z_number None None);
        ("include",
         z_default
           (z_array (z_enum ["distance"; "direction"; "travel_time"; "description"]) 0)
           (JArr [JStr "distance"; JStr "direction";
                  JStr "travel_time"; JStr "description"]))];
     callback := fun args =>
       let request :=
         JObj [("start_latitude", get args "start_latitude");
               ("start_longitude", get args "start_longitude");
               ("end_latitude", get args "end_latitude");
               ("end_longitude", get args "end_longitude");
               ("include", get args "include")] in
       response <- CaminoApiService.calculateSpatialRelationship w caminoApi request ;;
       ret (reply response) |}.

Definition camino_place_context : RegisteredTool :=
  {| tool_name := "camino_place_context";
     paramsSchema :=
       [("latitude", z_number None None);
        ("longitude", z_number None None);
        ("radius", z_default z_string (JStr "500m"));
        ("context", z_optional z_string)];
     callback := fun args =>
       let request :=
         JObj [("latitude", get args "latitude");
               ("longitude", get args "longitude");
               ("radius", get args "radius");
               ("context", get args "context")] in
       response <- CaminoApiService.getPlaceContext w caminoApi request ;;
       ret (reply response) |}.

Definition camino_journey_planning : RegisteredTool :=
  {| tool_name := "camino_journey_planning";
     paramsSchema :=
       [("waypoints",
         z_array (z_object [("lat", z_number None None);
                            ("lon", z_number None None);
                            ("purpose", z_string)]) 2);
        ("transport_mode",
         z_default (z_enum ["walking"; "driving"; "cycling"]) (JStr "walking"));
        ("time_budget", z_optional z_string)];
     callback := fun args =>
       let request :=
         JObj [("waypoints", get args "waypoints");
               ("transport_mode", get args "transport_mode");
               ("time_budget", get args "time_budget")] in
       response <- CaminoApiService.planJourney w caminoApi request ;;
       ret (reply response) |}.

Definition camino_route_planning : RegisteredTool :=
  {| tool_name := "camino_route_planning";
     paramsSchema :=
       [("start_latitude", z_number None None);
        ("start_longitude", z_number None None);
        ("end_latitude", z_number None None);
        ("end_longitude", z_number None None);
        ("mode", z_default (z_enum ["car"; "bike"; "foot"]) (JStr "car"));
        ("include_geometry", z_default z_boolean (JBool false))];
     callback := fun args =>
       let request :=
         JObj [("start_latitude", get args "start_latitude");
               ("start_longitude", get args "start_longitude");
               ("end_latitude", get args "end_latitude");
               ("end_longitude", get args "end_longitude");
               ("mode", get args "mode");
               ("include_geometry", get args "include_geometry")] in
       response <- CaminoApiService.planRoute w caminoApi request ;;
       ret (reply response) |}.

(** The six registrations, in source order. *)
Definition createStatelessServer : list RegisteredTool :=
  [camino_query; camino_search; camino_spatial_relationship;
   camino_place_context; camino_journey_planning; camino_route_planning].

Definition invoke (name : string) (args : JsValue) : Dispatch :=
  tools_call createStatelessServer name args.
End Factory.
End StatelessServer.

(* ================================================================== *)
(** ** Process entry points *)

(** How a start-up ends: [process.exit(code)], or a server attached to its
    transport. *)
Inductive Process (S : Type) : Type :=
| Exited (code : nat)
| Serving (server : S).

Arguments Exited {S} code.
Arguments Serving {S} server.

(** [process.env.NAME || fallback]: an unset or empty variable gives the
    fallback. *)
Definition env_or (value : option string) (fallback : string) : string :=
  match value with
  | Some s => if String.eqb s "" then fallback else s
  | None => fallback
  end.

(** [process.stderr.write(text)]. *)
Definition stderr_write (text : string) : Eff unit := emit (EvWrite Stderr text).

(** The entry point of the stdio-bound server (the file that imports
    [./server.js] and [./utils/logger.js]). *)
Module StdioEntry.

(** The identifiers bound at the top level of the file. *)
Definition module_scope : list string :=
  ["config"; "CaminoMCPServer"; "Logger"; "main"].

Section Main.
Variable w : World.
(** [process.env], after [dotenv] has loaded the [.env] file. *)
Variable env : string -> option string.
(** The SDK's [server.connect(transport)]. *)
Variable connect : Eff unit.

Definition Logger_info (message : string) (data : JsValue) : Eff unit :=
  ident module_scope "Logger" ;;;
  Logger.info w message data.

Definition Logger_error (message : string) (err : JsValue) : Eff unit :=
  ident module_scope "Logger" ;;;
  Logger.error w message err.

Definition main : Eff (Process CaminoMCPServer.t) :=
  let apiBaseUrl := env_or (env "CAMINO_API_BASE_URL") "https://api.getcamino.ai" in
  let apiKey := env_or (env "CAMINO_API_KEY") "" in
  if String.eqb apiKey ""
  then
    stderr_write ("CAMINO_API_KEY environment variable is required" ++ newline) ;;;
    stderr_write ("Set it in your .env file or environment: CAMINO_API_KEY=your_api_key_here"
                  ++ newline) ;;;
    ret (Exited 1)
  else
    Logger_info "Starting Camino MCP Server"
      (JObj [("apiBaseUrl", JStr apiBaseUrl);
             ("apiKeyPrefix", JStr (substring 0 8 apiKey))]) ;;;
    try_catch
      (let server := CaminoMCPServer.new apiBaseUrl apiKey in
       CaminoMCPServer.run w connect ;;;
       ret (Serving server))
      (fun error =>
         Logger_error "Failed to start server" error ;;;
         ret (Exited 1)).

(** [main().catch(...)], the last statement of the file. *)
Definition start : Eff (Process CaminoMCPServer.t) :=
  try_catch main
    (fun error =>
       Logger_error "Unhandled error" error ;;;
       ret (Exited 1)).

(** The SIGINT and SIGTERM handlers. *)
Definition on_signal (signal : string) : Eff (Process CaminoMCPServer.t) :=
  Logger_info ("Shutting down Camino MCP Server (" ++ signal ++ ")") JUndefined ;;;
  ret (Exited 0).
End Main.
End StdioEntry.

(** [configSchema] of the session factory. *)
Definition configSchema : ZodType :=
  z_object [("apiKey", z_string);
            ("baseUrl", z_default z_string (JStr "https://api.getcamino.ai"));
            ("debug", z_default z_boolean (JBool false))].

(** The typed view of a value [configSchema] produced. *)
Definition config_of (parsed : JsValue) : SessionConfig :=
  {| cfg_apiKey := match get parsed "apiKey" with JStr s => s | _ => "" end;
     cfg_baseUrl := match get parsed "baseUrl" with JStr s => s | _ => "" end;
     cfg_debug := match get parsed "debug" with JBool b => b | _ => false end |}.

(** [src/docker-entry.ts]. *)
Module DockerEntry.
Section Main.
Variable w : World.
Variable env : string -> option string.
(** The SDK's [server.connect(transport)]. *)
Variable connect : Eff unit.

(** [process.env.DEBUG === 'true']. *)
Definition debug_flag : bool :=
  match env "DEBUG" with
  | Some s => String.eqb s "true"
  | None => false
  end.

Definition main : Eff (Process (list RegisteredTool)) :=
  let apiKey := env_or (env "CAMINO_API_KEY") "" in
  let baseUrl := env_or (env "CAMINO_API_BASE_URL") "https://api.getcamino.ai" in
  let debug := debug_flag in
  if String.eqb apiKey ""
  then
    stderr_write ("CAMINO_API_KEY environment variable is required" ++ newline) ;;;
    ret (Exited 1)
  else
    try_catch
      (config <- match safeParse configSchema
                         (JObj [("apiKey", JStr apiKey);
                                ("baseUrl", JStr baseUrl);
                                ("debug", JBool debug)]) with
                 | Some parsed => ret (config_of parsed)
                 | None => throw (new_Error "ZodError" "invalid configuration")
                 end ;;
       let server := StatelessServer.createStatelessServer w config in
       connect ;;;
       (if debug
        then stderr_write ("Camino MCP Server running in Docker" ++ newline)
        else ret tt) ;;;
       ret (Serving server))
      (fun error =>
         console_error w "Failed to start server:" error ;;;
         ret (Exited 1)).

(** [main().catch(...)], the last statement of the file. *)
Definition start : Eff (Process (list RegisteredTool)) :=
  try_catch main
    (fun error =>
       console_error w "Unhandled error:" error ;;;
       ret (Exited 1)).
End Main.
End DockerEntry.

(* ================================================================== *)
(** * Properties *)

Unset Implicit Arguments.

(** ** Sample environments and inputs *)

(** A stand-in for the JSON printer: the keys of an object, in order. *)
Definition sample_render (pretty : bool) (v : JsValue) : string :=
  match v with
  | JObj fs => "{" ++ String.concat "," (map fst fs) ++ "}"
  | JArr _ => "[...]"
  | JStr s => s
  | _ => "?"
  end.

(** The remote service is unreachable; debugging is off. *)
Definition offline : World :=
  {| upstream := fun _ => NoResponse "Network Error";
     debugMode := false;
     now_iso := "2025-01-01T00:00:00.000Z";
     append_ok := true;
     render := sample_render;
     to_text := fun _ => "[object Object]";
     inspect := fun _ => "{}" |}.

(** The remote service answers every call with [body]; debugging is off. *)
Definition online (body : JsValue) : World :=
  {| upstream := fun _ => Fulfilled body;
     debugMode := false;
     now_iso := "2025-01-01T00:00:00.000Z";
     append_ok := true;
     render := sample_render;
     to_text := fun _ => "[object Object]";
     inspect := fun _ => "{}" |}.

Definition sample_api : CaminoApiService.t :=
  CaminoApiService.new
    {| baseUrl := "https://api.getcamino.ai"; apiKey := "k-123"; timeout := None |}.

Definition sample_server : CaminoMCPServer.t :=
  CaminoMCPServer.new "https://api.getcamino.ai" "k-123".

Definition sample_config : SessionConfig :=
  {| cfg_apiKey := "k-123"; cfg_baseUrl := "https://api.getcamino.ai"; cfg_debug := false |}.

(** A waypoint as the tool surface of the stdio-bound server declares it. *)
Definition surface_waypoint (p : float * float * string) : JsValue :=
  let '(latitude, longitude, purpose) := p in
  JObj [("latitude", JNum latitude);
        ("longitude", JNum longitude);
        ("purpose", JStr purpose)].

(** A waypoint as the upstream wire format has it. *)
Definition upstream_waypoint (p : float * float * string) : JsValue :=
  let '(latitude, longitude, purpose) := p in
  JObj [("lat", JNum latitude);
        ("lon", JNum longitude);
        ("purpose", JStr purpose)].

(* ------------------------------------------------------------------ *)
(** ** Vocabulary of the statements *)

(** The call an operation of the client issues for a path, parameters and
    body: what [send] hands to the transport. *)
Definition issued (this : CaminoApiService.t) (m : HttpMethod) (path : string)
                  (params data : JsValue) : HttpRequest :=
  {| req_method := m;
     req_baseURL := defaults_baseURL (CaminoApiService.client this);
     req_url := path;
     req_params := params;
     req_data := data;
     req_headers := defaults_headers (CaminoApiService.client this);
     req_timeout := defaults_timeout (CaminoApiService.client this) |}.

(** The six operations of the upstream client, in source order. *)
Definition operations : list (World -> CaminoApiService.t -> JsValue -> Eff JsValue) :=
  [CaminoApiService.executeQuery;
   CaminoApiService.executeSearch;
   CaminoApiService.calculateSpatialRelationship;
   CaminoApiService.getPlaceContext;
   CaminoApiService.planJourney;
   CaminoApiService.planRoute].

(** Where a call goes and what it carries besides its headers: method, URL
    (base, path, query parameters) and body. *)
Definition url_and_body (r : HttpRequest)
  : HttpMethod * string * string * JsValue * JsValue :=
  (req_method r, req_baseURL r, req_url r, req_params r, req_data r).

(** The names the stdio-bound server advertises. *)
Definition registered_names : list string := map name CaminoMCPServer.getTools.

(** Every call of the remote service fails. *)
Definition unreachable (w : World) : Prop :=
  forall r, failing (upstream w r) = true.

(** The body [planJourney] posts once its waypoints are mapped. *)
Definition journey_body (request waypoints : JsValue) : JsValue :=
  JObj [("waypoints", waypoints);
        ("constraints",
         JObj [("transport", js_or (get request "transport_mode") (JStr "walking"));
               ("time_budget", get request "time_budget")])].

(** The envelope behind an invocation of the stdio-bound server: the
    operation of the client the handler of [name] awaits, on the request the
    handler builds from the arguments; [None] for a name without handler. *)
Definition stdio_envelope (w : World) (this : CaminoMCPServer.t)
                          (name : string) (args : JsValue) : option (Eff JsValue) :=
  let api := CaminoMCPServer.caminoApi this in
  if String.eqb name "camino_query"
  then Some (CaminoApiService.executeQuery w api (CaminoMCPServer.queryRequest args))
  else if String.eqb name "camino_search"
  then Some (CaminoApiService.executeSearch w api (CaminoMCPServer.searchRequest args))
  else if String.eqb name "camino_spatial_relationship"
  then Some (CaminoApiService.calculateSpatialRelationship w api
               (CaminoMCPServer.spatialRelationshipRequest args))
  else if String.eqb name "camino_place_context"
  then Some (CaminoApiService.getPlaceContext w api
               (CaminoMCPServer.placeContextRequest args))
  else if String.eqb name "camino_journey_planning"
  then Some (CaminoApiService.planJourney w api
               (CaminoMCPServer.journeyPlanningRequest args))
  else if String.eqb name "camino_route_planning"
  then Some (CaminoApiService.planRoute w api
               (CaminoMCPServer.routePlanningRequest args))
  else None.

(** The request a callback of the session factory builds: the listed
    properties of the parsed arguments, under the same names. *)
Definition copy_fields (keys : list string) (args : JsValue) : JsValue :=
  JObj (map (fun k => (k, get args k)) keys).

(** The envelope behind an invocation of the session factory's server, for
    arguments that passed the parameter schema. *)
Definition session_envelope (w : World) (config : SessionConfig)
                            (name : string) (parsed : JsValue) : option (Eff JsValue) :=
  let api := StatelessServer.caminoApi config in
  if String.eqb name "camino_query"
  then Some (CaminoApiService.executeQuery w api
               (copy_fields ["query"; "latitude"; "longitude"; "radius"; "rank";
                             "limit"; "generate_answer"] parsed))
  else if String.eqb name "camino_search"
  then Some (CaminoApiService.executeSearch w api (copy_fields ["query"] parsed))
  else if String.eqb name "camino_spatial_relationship"
  then Some (CaminoApiService.calculateSpatialRelationship w api
               (copy_fields ["start_latitude"; "start_longitude"; "end_latitude";
                             "end_longitude"; "include"] parsed))
  else if String.eqb name "camino_place_context"
  then Some (CaminoApiService.getPlaceContext w api
               (copy_fields ["latitude"; "longitude"; "radius"; "context"] parsed))
  else if String.eqb name "camino_journey_planning"
  then Some (CaminoApiService.planJourney w api
               (copy_fields ["waypoints"; "transport_mode"; "time_budget"] parsed))
  else if String.eqb name "camino_route_planning"
  then Some (CaminoApiService.planRoute w api
               (copy_fields ["start_latitude"; "start_longitude"; "end_latitude";
                             "end_longitude"; "mode"; "include_geometry"] parsed))
  else None.

(** The upstream calls of a dispatched invocation; [None] when the SDK
    turned the invocation away before any callback ran. *)
Definition handled_calls (d : Dispatch) : option (list HttpRequest) :=
  match d with
  | Handled run => Some (http_calls (trace run))
  | NoSuchTool | InvalidArguments => None
  end.

(** The result of a dispatched invocation. *)
Definition handled_outcome (d : Dispatch) : option (Completion JsValue) :=
  match d with
  | Handled run => Some (outcome run)
  | NoSuchTool | InvalidArguments => None
  end.

(** What the host receives for a tool result [v]. *)
Definition host_result (w : World) (v : JsValue) : JsValue :=
  text_content (JSON_stringify w true v).

(** What [planJourney] makes of a waypoint of the tool surface: it reads
    [lat] and [lon], which such a waypoint does not have. *)
Definition coordinate_less_waypoint (p : float * float * string) : JsValue :=
  let '(_, _, purpose) := p in
  JObj [("lat", JUndefined);
        ("lon", JUndefined);
        ("purpose", JStr purpose)].

(** The arguments of a journey invocation. *)
Definition journey_args (waypoints : list JsValue) (transport_mode time_budget : JsValue)
  : JsValue :=
  JObj [("waypoints", JArr waypoints);
        ("transport_mode", transport_mode);
        ("time_budget", time_budget)].

(** A computation writes nothing to channel [c]. *)
Definition quiet (c : Channel) {A} (m : Eff A) : Prop :=
  written c (trace m) = [].

(** The properties of an object parsed one by one against a shape: the
    inner loop of [safeParse] on [z_object]. *)
Fixpoint parse_fields (fs : list (string * JsValue)) (shape : list (string * ZodType))
  : option (list (string * JsValue)) :=
  match shape with
  | [] => Some []
  | (k, s) :: rest =>
      match safeParse s (assoc k fs), parse_fields fs rest with
      | Some JUndefined, Some rest' => Some rest'
      | Some x, Some rest' => Some ((k, x) :: rest')
      | _, _ => None
      end
  end.

(** The items of an array parsed one by one: the inner loop of [safeParse]
    on [z_array]. *)
Fixpoint parse_items (item : ZodType) (l : list JsValue) : option (list JsValue) :=
  match l with
  | [] => Some []
  | x :: rest =>
      match safeParse item x, parse_items item rest with
      | Some x', Some rest' => Some (x' :: rest')
      | _, _ => None
      end
  end.

(** The message of the rejection a failing call ends with. *)
Definition failure_message (o : AxiosOutcome) : string :=
  match o with
  | Fulfilled _ => ""
  | NoResponse m | BadStatus m _ => m
  end.

(** The three operations whose [catch] block reports through
    [console.error]. *)
Definition console_operations
  : list (World -> CaminoApiService.t -> JsValue -> Eff JsValue) :=
  [CaminoApiService.executeQuery;
   CaminoApiService.executeSearch;
   CaminoApiService.calculateSpatialRelationship].

(** The schema of one waypoint in the session factory. *)
Definition waypoint_schema : ZodType :=
  z_object [("lat", z_number None None);
            ("lon", z_number None None);
            ("purpose", z_string)].

(** What the descriptor of [tool] in [getTools] declares under [key] for its
    property [prop]; [undefined] when there is no such tool, property or
    key. *)
Definition declared (tool prop key : string) : JsValue :=
  match find (fun d => String.eqb (name d) tool) CaminoMCPServer.getTools with
  | Some d => get (get (get (inputSchema d) "properties") prop) key
  | None => JUndefined
  end.

(** The error [Logger.error] raises inside [camino-api.ts], where no
    binding of [Logger] exists. *)
Definition Logger_unbound : JsValue :=
  new_Error "ReferenceError" "Logger is not defined".

(* ------------------------------------------------------------------ *)
(** ** Generic facts about computations *)

Lemma http_calls_app t1 t2 :
  http_calls (t1 ++ t2) = (http_calls t1 ++ http_calls t2)%list.
Proof.
  induction t1 as [|[r|c s] t1 IH]; simpl; [reflexivity| |assumption].
  now rewrite IH.
Qed.

Lemma written_app c t1 t2 :
  written c (t1 ++ t2) = (written c t1 ++ written c t2)%list.
Proof.
  induction t1 as [|[r|c' s] t1 IH]; simpl; [reflexivity|assumption|].
  destruct c, c'; simpl; now rewrite IH.
Qed.

(** The logger never throws, whatever the file system does. *)
Lemma writeToFile_normal w level message data :
  outcome (Logger.writeToFile w level message data) = Normal tt.
Proof. unfold Logger.writeToFile. now destruct (append_ok w). Qed.

Lemma Logger_error_normal w message err :
  outcome (Logger.error w message err) = Normal tt.
Proof.
  unfold Logger.error.
  destruct (Logger.writeToFile w "ERROR" message err) as [t [[]|e]] eqn:E.
  - simpl. now destruct (debugMode w && truthy err).
  - pose proof (writeToFile_normal w "ERROR" message err) as H.
    rewrite E in H. discriminate.
Qed.

Lemma Logger_debug_normal w message data :
  outcome (Logger.debug w message data) = Normal tt.
Proof.
  unfold Logger.debug. destruct (debugMode w); [apply writeToFile_normal|reflexivity].
Qed.

(* ------------------------------------------------------------------ *)
(** ** The upstream client on a failing call *)

Section ClientFailure.
Variable w : World.
Variable this : CaminoApiService.t.

Import CaminoApiService.

(** A handler that starts with this module's [Logger.error] never gets to
    build an envelope. *)
Lemma catch_with_unbound_Logger (body : Eff JsValue) message k :
  throws body = true ->
  outcome (try_catch body (fun error => Logger_error w message error ;;; k error))
  = Throw Logger_unbound.
Proof.
  destruct body as [t [a|e]]; unfold throws; simpl; [discriminate|reflexivity].
Qed.

Lemma send_failing m path params data :
  (forall r, failing (upstream w r) = true) ->
  throws (send w this m path params data) = true.
Proof.
  intros H. unfold send, throws.
  match goal with |- context [upstream w ?r] => specialize (H r); destruct (upstream w r) end;
    simpl in *; [discriminate|reflexivity|reflexivity].
Qed.

Lemma throws_bind_l {A B} (m : Eff A) (k : A -> Eff B) :
  throws m = true -> throws (bind m k) = true.
Proof. destruct m as [t [a|e]]; unfold throws; simpl; [discriminate|reflexivity]. Qed.

Lemma throws_bind_r {A B} (m : Eff A) (k : A -> Eff B) :
  (forall a, throws (k a) = true) -> throws (bind m k) = true.
Proof.
  intros H. destruct m as [t [a|e]]; unfold throws; simpl; [|reflexivity].
  specialize (H a). unfold throws in H. now destruct (k a).
Qed.
End ClientFailure.

(* ------------------------------------------------------------------ *)
(** ** What each operation of the client does *)

Section ClientRuns.
Variable w : World.
Variable this : CaminoApiService.t.

(** Unfolds an operation down to the answer of the remote service. *)
Ltac run_operation :=
  unfold CaminoApiService.executeQuery, CaminoApiService.executeSearch,
         CaminoApiService.calculateSpatialRelationship,
         CaminoApiService.getPlaceContext, CaminoApiService.planRoute,
         CaminoApiService.client_get, CaminoApiService.client_post,
         CaminoApiService.send, console_error, issued;
  cbn [bind emit try_catch ret app];
  match goal with
  | |- context [upstream w ?r] => destruct (upstream w r) eqn:?
  end;
  cbn.

Lemma executeQuery_calls request :
  http_calls (trace (CaminoApiService.executeQuery w this request))
  = [issued this GET "/query"
       (JObj [("q", get request "query");
              ("lat", get request "latitude");
              ("lon", get request "longitude");
              ("radius", get request "radius");
              ("rank", get request "rank");
              ("limit", get request "limit");
              ("answer", get request "generate_answer")])
       JUndefined].
Proof. run_operation; reflexivity. Qed.

Lemma executeSearch_calls request :
  http_calls (trace (CaminoApiService.executeSearch w this request))
  = [issued this POST "/search" (JObj [("q", get request "query")]) JNull].
Proof. run_operation; reflexivity. Qed.

Lemma calculateSpatialRelationship_calls request :
  http_calls (trace (CaminoApiService.calculateSpatialRelationship w this request))
  = [issued this POST "/relationship" JUndefined
       (JObj [("start", JObj [("lat", get request "start_latitude");
                              ("lon", get request "start_longitude")]);
              ("end", JObj [("lat", get request "end_latitude");
                            ("lon", get request "end_longitude")]);
              ("include", get request "include")])].
Proof. run_operation; reflexivity. Qed.

Lemma getPlaceContext_calls request :
  http_calls (trace (CaminoApiService.getPlaceContext w this request))
  = [issued this POST "/context" JUndefined
       (JObj [("location", JObj [("lat", get request "latitude");
                                 ("lon", get request "longitude")]);
              ("radius", get request "radius");
              ("context", get request "context")])].
Proof. run_operation; reflexivity. Qed.

Lemma planRoute_calls request :
  http_calls (trace (CaminoApiService.planRoute w this request))
  = [issued this GET "/route"
       (JObj [("start_lat", get request "start_latitude");
              ("start_lon", get request "start_longitude");
              ("end_lat", get request "end_latitude");
              ("end_lon", get request "end_longitude");
              ("mode", get request "mode");
              ("include_geometry", get request "include_geometry")])
       JUndefined].
Proof. run_operation; reflexivity. Qed.

(** [planJourney] issues no call when mapping the waypoints throws, and
    one call, carrying the mapped waypoints, otherwise. *)
Lemma planJourney_calls request :
  http_calls (trace (CaminoApiService.planJourney w this request))
  = match CaminoApiService.array_map CaminoApiService.wire_waypoint
            (get request "waypoints") with
    | (_, Normal waypoints) =>
        [issued this POST "/journey" JUndefined (journey_body request waypoints)]
    | (_, Throw _) => []
    end.
Proof.
  assert (Hmap : forall l, trace (mapM CaminoApiService.wire_waypoint l) = []).
  { induction l as [|wp l IH]; [reflexivity|].
    cbn [mapM]. unfold trace in *.
    destruct wp; cbn;
      try (destruct (mapM CaminoApiService.wire_waypoint l) as [t [bs|e]];
           cbn in *; subst; reflexivity);
      reflexivity. }
  assert (Harr : forall v, trace (CaminoApiService.array_map
                                    CaminoApiService.wire_waypoint v) = []).
  { intros v. destruct v; try reflexivity. cbn.
    specialize (Hmap items). unfold trace in *.
    destruct (mapM CaminoApiService.wire_waypoint items) as [t [bs|e]];
      cbn in *; subst; reflexivity. }
  unfold CaminoApiService.planJourney.
  specialize (Harr (get request "waypoints")). unfold trace in Harr.
  destruct (CaminoApiService.array_map CaminoApiService.wire_waypoint
              (get request "waypoints")) as [t [wps|e]]; cbn in Harr; subst t.
  - unfold CaminoApiService.client_post, CaminoApiService.send, issued, journey_body.
    cbn [bind emit try_catch ret app].
    match goal with
    | |- context [upstream w ?r] => destruct (upstream w r)
    end; reflexivity.
  - reflexivity.
Qed.
End ClientRuns.

(* ------------------------------------------------------------------ *)
(** ** Failure paths of the client *)

Section ClientFailurePaths.
Variable w : World.
Variable this : CaminoApiService.t.

(** Unfolds an operation and splits on the answer of the remote service,
    keeping the answer as an equation. *)
Ltac split_on_answer :=
  unfold CaminoApiService.executeQuery, CaminoApiService.executeSearch,
         CaminoApiService.calculateSpatialRelationship,
         CaminoApiService.getPlaceContext, CaminoApiService.planRoute,
         CaminoApiService.client_get, CaminoApiService.client_post,
         CaminoApiService.send, console_error, throws, outcome;
  cbn [bind emit try_catch ret app];
  match goal with
  | |- context [upstream w ?r] => destruct (upstream w r) eqn:?
  end.

(** The three operations that report through [console.error] complete
    normally whatever the remote service does. *)
Lemma executeQuery_never_throws request :
  throws (CaminoApiService.executeQuery w this request) = false.
Proof. split_on_answer; reflexivity. Qed.

Lemma executeSearch_never_throws request :
  throws (CaminoApiService.executeSearch w this request) = false.
Proof. split_on_answer; reflexivity. Qed.

Lemma calculateSpatialRelationship_never_throws request :
  throws (CaminoApiService.calculateSpatialRelationship w this request) = false.
Proof. split_on_answer; reflexivity. Qed.

(** On a failing call [executeQuery] returns the failure envelope: the
    error is the [detail] of the response body when that is truthy, the
    transport message otherwise; the data echo the query. *)
Lemma executeQuery_failure_envelope request :
  let r := issued this GET "/query"
             (JObj [("q", get request "query");
                    ("lat", get request "latitude");
                    ("lon", get request "longitude");
                    ("radius", get request "radius");
                    ("rank", get request "rank");
                    ("limit", get request "limit");
                    ("answer", get request "generate_answer")])
             JUndefined in
  failing (upstream w r) = true ->
  outcome (CaminoApiService.executeQuery w this request)
  = Normal
      (JObj [("success", JBool false);
             ("error",
              match upstream w r with
              | BadStatus m body => js_or (optget body "detail") (JStr m)
              | NoResponse m => JStr m
              | Fulfilled _ => JUndefined
              end);
             ("data", JObj [("query", get request "query");
                            ("results", JArr []);
                            ("total_found", JNum 0);
                            ("ai_ranked", JBool false)])]).
Proof.
  intros r. subst r. unfold issued.
  split_on_answer; cbn; intros Hf; [discriminate|reflexivity|reflexivity].
Qed.

(** Likewise for [executeSearch] and [calculateSpatialRelationship]. *)
Lemma executeSearch_failure_envelope request :
  let r := issued this POST "/search" (JObj [("q", get request "query")]) JNull in
  failing (upstream w r) = true ->
  outcome (CaminoApiService.executeSearch w this request)
  = Normal
      (JObj [("success", JBool false);
             ("error",
              match upstream w r with
              | BadStatus m body => js_or (optget body "detail") (JStr m)
              | NoResponse m => JStr m
              | Fulfilled _ => JUndefined
              end);
             ("data", JObj [("query", get request "query");
                            ("results", JArr []);
                            ("total_found", JNum 0);
                            ("source", JStr "nominatim")])]).
Proof.
  intros r. subst r. unfold issued.
  split_on_answer; cbn; intros Hf; [discriminate|reflexivity|reflexivity].
Qed.

Lemma calculateSpatialRelationship_failure_envelope request :
  let r := issued this POST "/relationship" JUndefined
             (JObj [("start", JObj [("lat", get request "start_latitude");
                                    ("lon", get request "start_longitude")]);
                    ("end", JObj [("lat", get request "end_latitude");
                                  ("lon", get request "end_longitude")]);
                    ("include", get request "include")]) in
  failing (upstream w r) = true ->
  outcome (CaminoApiService.calculateSpatialRelationship w this request)
  = Normal
      (JObj [("success", JBool false);
             ("error",
              match upstream w r with
              | BadStatus m body => js_or (optget body "detail") (JStr m)
              | NoResponse m => JStr m
              | Fulfilled _ => JUndefined
              end);
             ("data",
              JObj [("start_location",
                     JObj [("lat", get request "start_latitude");
                           ("lon", get request "start_longitude")]);
                    ("end_location",
                     JObj [("lat", get request "end_latitude");
                           ("lon", get request "end_longitude")])])]).
Proof.
  intros r. subst r. unfold issued.
  split_on_answer; cbn; intros Hf; [discriminate|reflexivity|reflexivity].
Qed.

Lemma getPlaceContext_unreachable request :
  unreachable w ->
  outcome (CaminoApiService.getPlaceContext w this request) = Throw Logger_unbound.
Proof.
  intros H. split_on_answer;
    match goal with
    | E : upstream w ?r = _ |- _ => specialize (H r); rewrite E in H
    end; [discriminate|reflexivity|reflexivity].
Qed.

Lemma planRoute_unreachable request :
  unreachable w ->
  outcome (CaminoApiService.planRoute w this request) = Throw Logger_unbound.
Proof.
  intros H. split_on_answer;
    match goal with
    | E : upstream w ?r = _ |- _ => specialize (H r); rewrite E in H
    end; [discriminate|reflexivity|reflexivity].
Qed.

Lemma planJourney_unreachable request :
  unreachable w ->
  outcome (CaminoApiService.planJourney w this request) = Throw Logger_unbound.
Proof.
  intros H. unfold CaminoApiService.planJourney.
  apply (@catch_with_unbound_Logger w _ "Journey planning failed"
           (fun error =>
              ret (CaminoApiService.failure_envelope error
                     (JObj [("waypoints", get request "waypoints");
                            ("feasible", JBool false)])))).
  apply throws_bind_r. intros waypoints.
  apply throws_bind_l. now apply send_failing.
Qed.
End ClientFailurePaths.

(** C1 (as the code behaves, against the claim): when the remote service
    cannot be reached, [getPlaceContext], [planJourney] and [planRoute] do
    not return an envelope.  Their [catch] blocks call [Logger.error], but
    [camino-api.ts] never imports [Logger], so each of them completes by
    throwing a ReferenceError to its caller. *)
Theorem failed_call_raises_in_Logger_operations
  (w : World) (this : CaminoApiService.t) (request : JsValue) :
  unreachable w ->
  outcome (CaminoApiService.getPlaceContext w this request) = Throw Logger_unbound
  /\ outcome (CaminoApiService.planJourney w this request) = Throw Logger_unbound
  /\ outcome (CaminoApiService.planRoute w this request) = Throw Logger_unbound.
Proof.
  intros H. repeat split.
  - now apply getPlaceContext_unreachable.
  - now apply planJourney_unreachable.
  - now apply planRoute_unreachable.
Qed.

Lemma offline_unreachable : unreachable offline.
Proof. intros r. reflexivity. Qed.

Lemma failed_call_raises_in_Logger_operations_witness :
  unreachable offline
  /\ outcome (CaminoApiService.getPlaceContext offline sample_api
                (JObj [("latitude", JNum 40.75); ("longitude", JNum (-73.5))]))
     = Throw (JErr "ReferenceError" [("message", JStr "Logger is not defined")]).
Proof.
  split; [exact offline_unreachable|].
  exact (proj1 (failed_call_raises_in_Logger_operations
                  offline sample_api
                  (JObj [("latitude", JNum 40.75); ("longitude", JNum (-73.5))])
                  offline_unreachable)).
Defined.

(* ------------------------------------------------------------------ *)
(** ** Construction of the client: timeout, headers, API key *)

(** Replaces the calls of an operation by their explicit list. *)
Ltac calls_known :=
  first [ rewrite !executeQuery_calls
        | rewrite !executeSearch_calls
        | rewrite !calculateSpatialRelationship_calls
        | rewrite !getPlaceContext_calls
        | rewrite !planRoute_calls
        | rewrite !planJourney_calls;
          match goal with
          | |- context [CaminoApiService.array_map ?f ?v] =>
              destruct (CaminoApiService.array_map f v) as [? [?|?]]
          end ].

(** C9: a client built without a timeout waits 30000 ms per call; every
    call any of the six operations issues carries exactly the headers
    Content-Type and Accept [application/json] and X-API-Key with the
    configured key, and the configured timeout; and the method, URL, query
    parameters and body of the calls do not depend on the API key (nor on
    what the remote service answers), so the key travels in the header
    only. *)
Theorem client_timeout_headers_and_key :
  (forall base key,
      defaults_timeout
        (CaminoApiService.client
           (CaminoApiService.new {| baseUrl := base; apiKey := key; timeout := None |}))
      = 30000%float)
  /\ Forall (fun op =>
       forall w config request,
         Forall (fun r =>
                   req_headers r = [("Content-Type", "application/json");
                                    ("Accept", "application/json");
                                    ("X-API-Key", apiKey config)]
                   /\ req_timeout r = CaminoApiService.timeout_or_default config
                   /\ (timeout config = None -> req_timeout r = 30000%float))
                (http_calls (trace (op w (CaminoApiService.new config) request))))
       operations
  /\ Forall (fun op =>
       forall w w' base key key' ms request,
         map url_and_body
             (http_calls (trace (op w (CaminoApiService.new
                  {| baseUrl := base; apiKey := key; timeout := ms |}) request)))
         = map url_and_body
             (http_calls (trace (op w' (CaminoApiService.new
                  {| baseUrl := base; apiKey := key'; timeout := ms |}) request))))
       operations.
Proof.
  split; [reflexivity|]. split.
  - unfold operations.
    repeat (apply Forall_cons;
            [ intros w config request; calls_known; cbn;
              repeat first [ apply Forall_nil | apply Forall_cons | split ];
              intros Hnone; cbn; unfold CaminoApiService.timeout_or_default;
              rewrite Hnone; reflexivity
            | ]).
    apply Forall_nil.
  - unfold operations.
    repeat (apply Forall_cons;
            [ intros w w' base key key' ms request; calls_known; reflexivity | ]).
    apply Forall_nil.
Qed.

Lemma client_timeout_headers_and_key_witness :
  req_timeout
    (issued (CaminoApiService.new
               {| baseUrl := "https://api.getcamino.ai"; apiKey := "k-123";
                  timeout := None |})
            GET "/route" JUndefined JUndefined)
  = 30000%float.
Proof.
  pose proof client_timeout_headers_and_key as [_ [H _]].
  unfold operations in H.
  do 5 apply Forall_inv_tail in H. apply Forall_inv in H.
  specialize (H offline
                {| baseUrl := "https://api.getcamino.ai"; apiKey := "k-123";
                   timeout := None |}
                (JObj [])).
  rewrite planRoute_calls in H. apply Forall_inv in H.
  destruct H as [_ [_ H]]. specialize (H eq_refl).
  exact H.
Defined.

(* ------------------------------------------------------------------ *)
(** ** The stdio-bound server: from the request handler to the client *)

Lemma trace_bind_unit {B} (m : Eff unit) (k : Eff B) :
  outcome m = Normal tt ->
  trace (m ;;; k) = (trace m ++ trace k)%list /\ outcome (m ;;; k) = outcome k.
Proof.
  destruct m as [t [[]|e]]; cbn; [intros _|discriminate].
  destruct k as [t' r]. now cbn.
Qed.

Lemma trace_bind_ret {A B} (m : Eff A) (f : A -> B) :
  trace (x <- m ;; ret (f x)) = trace m
  /\ outcome (x <- m ;; ret (f x))
     = match outcome m with
       | Normal a => Normal (f a)
       | Throw e => Throw e
       end.
Proof.
  destruct m as [t [a|e]]; cbn; [|now split].
  now rewrite app_nil_r.
Qed.

Section StdioServer.
Variable w : World.
Variable this : CaminoMCPServer.t.

(** [Logger] is imported by [server.ts]: the debug line is written to the
    log file or not at all, and the handler goes on. *)
Lemma server_Logger_debug message data :
  outcome (CaminoMCPServer.Logger_debug w message data) = Normal tt
  /\ http_calls (trace (CaminoMCPServer.Logger_debug w message data)) = []
  /\ written Stdout (trace (CaminoMCPServer.Logger_debug w message data)) = []
  /\ written Stderr (trace (CaminoMCPServer.Logger_debug w message data)) = [].
Proof.
  unfold CaminoMCPServer.Logger_debug, Logger.debug, Logger.writeToFile.
  cbn. destruct (debugMode w); [destruct (append_ok w)|]; cbn; auto.
Qed.

(** What the request handler adds to [executeTool]: the text block around a
    normal result, the protocol error around a thrown one. *)
Lemma callTool_spec name args :
  trace (CaminoMCPServer.callTool w this name args)
  = trace (CaminoMCPServer.executeTool w this name (js_or args (JObj [])))
  /\ outcome (CaminoMCPServer.callTool w this name args)
     = match outcome (CaminoMCPServer.executeTool w this name (js_or args (JObj []))) with
       | Normal result => Normal (host_result w result)
       | Throw error =>
           Throw (McpError InternalError
                    ("Tool execution failed: "
                     ++ js_String w (if instanceof_Error error
                                     then get error "message"
                                     else JStr (js_String w error))))
       end.
Proof.
  unfold CaminoMCPServer.callTool.
  destruct (CaminoMCPServer.executeTool w this name (js_or args (JObj [])))
    as [t [result|error]]; cbn; [|now rewrite app_nil_r].
  now rewrite app_nil_r.
Qed.

(** [executeTool] is the debug line followed by the matching [case]. *)
Lemma executeTool_after_debug name args (body : Eff JsValue) :
  CaminoMCPServer.executeTool w this name args
  = (CaminoMCPServer.Logger_debug w "Executing tool"
       (JObj [("name", JStr name); ("args", args)]) ;;; body) ->
  http_calls (trace (CaminoMCPServer.executeTool w this name args))
  = http_calls (trace body)
  /\ written Stdout (trace (CaminoMCPServer.executeTool w this name args))
     = written Stdout (trace body)
  /\ written Stderr (trace (CaminoMCPServer.executeTool w this name args))
     = written Stderr (trace body)
  /\ outcome (CaminoMCPServer.executeTool w this name args) = outcome body.
Proof.
  intros ->.
  destruct (server_Logger_debug "Executing tool"
              (JObj [("name", JStr name); ("args", args)])) as (Hn & Hc & Ho & He).
  destruct (trace_bind_unit
              (CaminoMCPServer.Logger_debug w "Executing tool"
                 (JObj [("name", JStr name); ("args", args)])) body Hn) as [-> ->].
  rewrite http_calls_app, !written_app, Hc, Ho, He. auto.
Qed.

(** A name that is none of the six labels falls to [default]. *)
Lemma executeTool_default name args :
  ~ In name registered_names ->
  CaminoMCPServer.executeTool w this name args
  = (CaminoMCPServer.Logger_debug w "Executing tool"
       (JObj [("name", JStr name); ("args", args)]) ;;;
     throw (new_Error "Error" ("Unknown tool: " ++ name))).
Proof.
  intros Hnot. unfold CaminoMCPServer.executeTool.
  repeat match goal with
         | |- context [String.eqb name ?label] =>
             destruct (String.eqb_spec name label) as [->|_];
             [exfalso; apply Hnot; cbn; tauto|]
         end.
  reflexivity.
Qed.
End StdioServer.

(* ------------------------------------------------------------------ *)
(** ** Unknown tool names *)

Lemma session_unknown_name w config name :
  ~ In name registered_names ->
  find_tool (StatelessServer.createStatelessServer w config) name = None.
Proof.
  intros Hnot. unfold StatelessServer.createStatelessServer. cbn [find_tool].
  repeat match goal with
         | |- context [String.eqb name ?label] =>
             destruct (String.eqb_spec name label) as [->|_];
             [exfalso; apply Hnot; cbn; tauto|]
         end.
  reflexivity.
Qed.

(** C6: an invocation whose name is not, character for character, one of
    the six registered names fails with an [McpError] of code
    [InternalError] whose message embeds the cause, [Unknown tool: <name>];
    no handler runs, no upstream call is made and no result, fallback or
    other, is returned.  The server of the session factory finds no tool
    under such a name either. *)
Theorem unknown_tool_is_internal_error
  (w : World) (this : CaminoMCPServer.t) (config : SessionConfig)
  (name : string) (args : JsValue) :
  ~ In name registered_names ->
  outcome (CaminoMCPServer.callTool w this name args)
  = Throw (McpError InternalError ("Tool execution failed: Unknown tool: " ++ name))
  /\ http_calls (trace (CaminoMCPServer.callTool w this name args)) = []
  /\ stdio_envelope w this name (js_or args (JObj [])) = None
  /\ StatelessServer.invoke w config name args = NoSuchTool.
Proof.
  intros Hnot.
  destruct (callTool_spec w this name args) as [Ht Ho].
  pose proof (executeTool_default w this name (js_or args (JObj [])) Hnot) as Hd.
  destruct (executeTool_after_debug w this name _ _ Hd) as (Hc & _ & _ & Hout).
  repeat split.
  - rewrite Ho, Hout. reflexivity.
  - rewrite Ht, Hc. reflexivity.
  - unfold stdio_envelope.
    repeat match goal with
           | |- context [String.eqb name ?label] =>
               destruct (String.eqb_spec name label) as [->|_];
               [exfalso; apply Hnot; cbn; tauto|]
           end.
    reflexivity.
  - unfold StatelessServer.invoke, tools_call.
    now rewrite session_unknown_name.
Qed.

Lemma not_registered_Camino_Query : ~ In "Camino_Query" registered_names.
Proof. cbn. intros H. repeat destruct H as [H|H]; try discriminate H; exact H. Qed.

Lemma unknown_tool_is_internal_error_witness :
  ~ In "Camino_Query" registered_names
  /\ outcome (CaminoMCPServer.callTool offline sample_server "Camino_Query"
                (JObj [("query", JStr "cafes")]))
     = Throw (JErr "McpError"
                [("code", JNum (-32603));
                 ("message",
                  JStr "Tool execution failed: Unknown tool: Camino_Query")]).
Proof.
  split; [exact not_registered_Camino_Query|].
  exact (proj1 (unknown_tool_is_internal_error
                  offline sample_server sample_config "Camino_Query"
                  (JObj [("query", JStr "cafes")])
                  not_registered_Camino_Query)).
Defined.

(* ------------------------------------------------------------------ *)
(** ** camino_query and camino_route_planning: the constructed call *)

Section ConstructedCalls.
Variable w : World.
Variable this : CaminoMCPServer.t.

(** The one call a [camino_query] invocation of the stdio-bound server
    issues, for arbitrary arguments. *)
Lemma stdio_query_call args :
  http_calls (trace (CaminoMCPServer.callTool w this "camino_query" args))
  = [issued (CaminoMCPServer.caminoApi this) GET "/query"
       (JObj [("q", get (js_or args (JObj [])) "query");
              ("lat", get (js_or args (JObj [])) "latitude");
              ("lon", get (js_or args (JObj [])) "longitude");
              ("radius", js_or (get (js_or args (JObj [])) "radius") (JNum 1000));
              ("rank", JBool (not_false (get (js_or args (JObj [])) "rank")));
              ("limit", js_or (get (js_or args (JObj [])) "limit") (JNum 20));
              ("answer",
               JBool (not_false (get (js_or args (JObj [])) "generate_answer")))])
       JUndefined].
Proof.
  destruct (callTool_spec w this "camino_query" args) as [-> _].
  destruct (executeTool_after_debug w this "camino_query" (js_or args (JObj []))
              (CaminoMCPServer.executeQueryTool w this (js_or args (JObj [])))
              eq_refl) as (-> & _).
  unfold CaminoMCPServer.executeQueryTool.
  destruct (trace_bind_ret
              (CaminoApiService.executeQuery w (CaminoMCPServer.caminoApi this)
                 (CaminoMCPServer.queryRequest (js_or args (JObj []))))
              unwrap) as [-> _].
  rewrite executeQuery_calls. reflexivity.
Qed.

(** The one call a [camino_route_planning] invocation of the stdio-bound
    server issues. *)
Lemma stdio_route_call args :
  http_calls (trace (CaminoMCPServer.callTool w this "camino_route_planning" args))
  = [issued (CaminoMCPServer.caminoApi this) GET "/route"
       (JObj [("start_lat", get (js_or args (JObj [])) "start_latitude");
              ("start_lon", get (js_or args (JObj [])) "start_longitude");
              ("end_lat", get (js_or args (JObj [])) "end_latitude");
              ("end_lon", get (js_or args (JObj [])) "end_longitude");
              ("mode", js_or (get (js_or args (JObj [])) "mode") (JStr "car"));
              ("include_geometry",
               js_or (get (js_or args (JObj [])) "include_geometry") (JBool false))])
       JUndefined].
Proof.
  destruct (callTool_spec w this "camino_route_planning" args) as [-> _].
  destruct (executeTool_after_debug w this "camino_route_planning"
              (js_or args (JObj []))
              (CaminoMCPServer.executeRoutePlanningTool w this (js_or args (JObj [])))
              eq_refl) as (-> & _).
  unfold CaminoMCPServer.executeRoutePlanningTool.
  destruct (trace_bind_ret
              (CaminoApiService.planRoute w (CaminoMCPServer.caminoApi this)
                 (CaminoMCPServer.routePlanningRequest (js_or args (JObj []))))
              unwrap) as [-> _].
  rewrite planRoute_calls. reflexivity.
Qed.
End ConstructedCalls.

(** C7: a [camino_query] invocation that supplies only [query] results in
    exactly one upstream call, a GET of [/query], whose parameters are
    [q] (the query), [lat] and [lon] (undefined), [radius] 1000, [rank]
    true, [limit] 20 and [answer] true; this holds in the stdio-bound
    server, where the handler substitutes the defaults, and in the server
    of the session factory, where the parameter schema does. *)
Theorem query_only_uses_defaults
  (w : World) (this : CaminoMCPServer.t) (config : SessionConfig) (query : string) :
  let params :=
    JObj [("q", JStr query);
          ("lat", JUndefined);
          ("lon", JUndefined);
          ("radius", JNum 1000);
          ("rank", JBool true);
          ("limit", JNum 20);
          ("answer", JBool true)] in
  http_calls (trace (CaminoMCPServer.callTool w this "camino_query"
                       (JObj [("query", JStr query)])))
  = [issued (CaminoMCPServer.caminoApi this) GET "/query" params JUndefined]
  /\ handled_calls (StatelessServer.invoke w config "camino_query"
                      (JObj [("query", JStr query)]))
     = Some [issued (StatelessServer.caminoApi config) GET "/query" params JUndefined].
Proof.
  intros params. split.
  - rewrite stdio_query_call. reflexivity.
  - unfold StatelessServer.invoke, tools_call. cbn.
    rewrite (proj1 (trace_bind_ret _ (StatelessServer.reply w))).
    rewrite executeQuery_calls. reflexivity.
Qed.

(** C10: in the stdio-bound server a falsy argument is replaced like an
    omitted one, in the call the invocation issues.  The one call of a
    [camino_query] invocation is a GET of [/query] whose [radius] is 1000
    whenever the supplied radius is falsy (such as 0) and whose [limit] is
    20 whenever the supplied limit is falsy, and whose [rank] and [answer]
    are true for every supplied value other than the boolean [false] (and
    false for that one).  The one call of a [camino_route_planning]
    invocation is a GET of [/route] whose [mode] is [car] whenever the
    supplied mode is falsy and whose [include_geometry] is [false] whenever
    the supplied one is falsy.  As an instance, the invocation with radius
    0, limit 0 and rank 0 issues the call with radius 1000, limit 20 and
    rank true. *)
Theorem falsy_arguments_take_defaults
  (w : World) (this : CaminoMCPServer.t) (args : JsValue) :
  (exists r,
      http_calls (trace (CaminoMCPServer.callTool w this "camino_query" args)) = [r]
      /\ req_method r = GET
      /\ req_url r = "/query"
      /\ (falsy (get (js_or args (JObj [])) "radius") = true ->
          get (req_params r) "radius" = JNum 1000)
      /\ (falsy (get (js_or args (JObj [])) "limit") = true ->
          get (req_params r) "limit" = JNum 20)
      /\ (get (js_or args (JObj [])) "rank" <> JBool false ->
          get (req_params r) "rank" = JBool true)
      /\ (get (js_or args (JObj [])) "rank" = JBool false ->
          get (req_params r) "rank" = JBool false)
      /\ (get (js_or args (JObj [])) "generate_answer" <> JBool false ->
          get (req_params r) "answer" = JBool true)
      /\ (get (js_or args (JObj [])) "generate_answer" = JBool false ->
          get (req_params r) "answer" = JBool false))
  /\ (exists r,
         http_calls
           (trace (CaminoMCPServer.callTool w this "camino_route_planning" args)) = [r]
         /\ req_method r = GET
         /\ req_url r = "/route"
         /\ (falsy (get (js_or args (JObj [])) "mode") = true ->
             get (req_params r) "mode" = JStr "car")
         /\ (falsy (get (js_or args (JObj [])) "include_geometry") = true ->
             get (req_params r) "include_geometry" = JBool false))
  /\ http_calls
       (trace (CaminoMCPServer.callTool w this "camino_query"
                 (JObj [("query", JStr "cafes");
                        ("radius", JNum 0);
                        ("limit", JNum 0);
                        ("rank", JNum 0)])))
     = [issued (CaminoMCPServer.caminoApi this) GET "/query"
          (JObj [("q", JStr "cafes");
                 ("lat", JUndefined);
                 ("lon", JUndefined);
                 ("radius", JNum 1000);
                 ("rank", JBool true);
                 ("limit", JNum 20);
                 ("answer", JBool true)])
          JUndefined]
  /\ http_calls
       (trace (CaminoMCPServer.callTool w this "camino_route_planning"
                 (JObj [("start_latitude", JNum 40.75);
                        ("start_longitude", JNum (-73.5));
                        ("end_latitude", JNum 40.5);
                        ("end_longitude", JNum (-73.75));
                        ("mode", JStr "");
                        ("include_geometry", JNum 0)])))
     = [issued (CaminoMCPServer.caminoApi this) GET "/route"
          (JObj [("start_lat", JNum 40.75);
                 ("start_lon", JNum (-73.5));
                 ("end_lat", JNum 40.5);
                 ("end_lon", JNum (-73.75));
                 ("mode", JStr "car");
                 ("include_geometry", JBool false)])
          JUndefined].
Proof.
  split; [|split; [|split]].
  - eexists. split; [apply stdio_query_call|].
    cbn [issued req_method req_url req_params get assoc
         String.eqb Ascii.eqb Bool.eqb].
    repeat split.
    + intros H%negb_true_iff. unfold js_or at 1. now rewrite H.
    + intros H%negb_true_iff. unfold js_or at 1. now rewrite H.
    + intros H. f_equal.
      destruct (get (js_or args (JObj [])) "rank") as [| |[|]| | | | |];
        try reflexivity. now elim H.
    + intros ->. reflexivity.
    + intros H. f_equal.
      destruct (get (js_or args (JObj [])) "generate_answer") as [| |[|]| | | | |];
        try reflexivity. now elim H.
    + intros ->. reflexivity.
  - eexists. split; [apply stdio_route_call|].
    cbn [issued req_method req_url req_params get assoc
         String.eqb Ascii.eqb Bool.eqb].
    repeat split.
    + intros H%negb_true_iff. unfold js_or at 1. now rewrite H.
    + intros H%negb_true_iff. unfold js_or at 1. now rewrite H.
  - rewrite stdio_query_call. reflexivity.
  - rewrite stdio_route_call. reflexivity.
Qed.

Lemma falsy_arguments_take_defaults_witness :
  (exists r,
      http_calls
        (trace (CaminoMCPServer.callTool offline sample_server "camino_query"
                  (JObj [("query", JStr "cafes"); ("radius", JNum 0)]))) = [r]
      /\ get (req_params r) "radius" = JNum 1000)
  /\ (exists r,
         http_calls
           (trace (CaminoMCPServer.callTool offline sample_server
                     "camino_route_planning" (JObj [("mode", JStr "")]))) = [r]
         /\ get (req_params r) "mode" = JStr "car").
Proof.
  split.
  - destruct (proj1 (falsy_arguments_take_defaults offline sample_server
                       (JObj [("query", JStr "cafes"); ("radius", JNum 0)])))
      as (r & Hc & _ & _ & Hr & _).
    exists r. split; [exact Hc|exact (Hr eq_refl)].
  - destruct (proj1 (proj2 (falsy_arguments_take_defaults offline sample_server
                              (JObj [("mode", JStr "")]))))
      as (r & Hc & _ & _ & Hm & _).
    exists r. split; [exact Hc|exact (Hm eq_refl)].
Defined.

(* ------------------------------------------------------------------ *)
(** ** camino_journey_planning: waypoints *)

Lemma js_or_idempotent a b : js_or (js_or a b) b = js_or a b.
Proof. unfold js_or. destruct (truthy a) eqn:E; [now rewrite E|]. now destruct (truthy b). Qed.

(** Mapping waypoints of the tool surface never throws; every mapped
    waypoint has lost its coordinates. *)
Lemma mapM_surface_waypoints wps :
  mapM CaminoApiService.wire_waypoint (map surface_waypoint wps)
  = ([], Normal (map coordinate_less_waypoint wps)).
Proof.
  induction wps as [|[[latitude longitude] purpose] wps IH]; [reflexivity|].
  cbn [map mapM]. rewrite IH. reflexivity.
Qed.

Section JourneyCalls.
Variable w : World.
Variable this : CaminoMCPServer.t.

(** The calls of a journey invocation of the stdio-bound server are those
    of [planJourney] on the request the handler builds. *)
Lemma stdio_journey_calls args :
  http_calls (trace (CaminoMCPServer.callTool w this "camino_journey_planning" args))
  = http_calls
      (trace (CaminoApiService.planJourney w (CaminoMCPServer.caminoApi this)
                (CaminoMCPServer.journeyPlanningRequest (js_or args (JObj []))))).
Proof.
  destruct (callTool_spec w this "camino_journey_planning" args) as [-> _].
  destruct (executeTool_after_debug w this "camino_journey_planning"
              (js_or args (JObj []))
              (CaminoMCPServer.executeJourneyPlanningTool w this (js_or args (JObj [])))
              eq_refl) as (-> & _).
  unfold CaminoMCPServer.executeJourneyPlanningTool.
  now rewrite (proj1 (trace_bind_ret _ unwrap)).
Qed.

(** With waypoints of the tool surface, the stdio-bound server posts the
    journey with every coordinate undefined. *)
Lemma stdio_journey_call wps transport_mode time_budget :
  http_calls
    (trace (CaminoMCPServer.callTool w this "camino_journey_planning"
              (journey_args (map surface_waypoint wps) transport_mode time_budget)))
  = [issued (CaminoMCPServer.caminoApi this) POST "/journey" JUndefined
       (JObj [("waypoints", JArr (map coordinate_less_waypoint wps));
              ("constraints",
               JObj [("transport", js_or transport_mode (JStr "walking"));
                     ("time_budget", time_budget)])])].
Proof.
  rewrite stdio_journey_calls, planJourney_calls.
  change (js_or (journey_args (map surface_waypoint wps) transport_mode time_budget)
                (JObj []))
    with (journey_args (map surface_waypoint wps) transport_mode time_budget).
  cbn [journey_args CaminoMCPServer.journeyPlanningRequest
       get assoc String.eqb Ascii.eqb Bool.eqb CaminoApiService.array_map].
  rewrite mapM_surface_waypoints. cbn [bind ret app].
  unfold journey_body, CaminoMCPServer.journeyPlanningRequest, journey_args.
  cbn [get assoc String.eqb Ascii.eqb Bool.eqb].
  now rewrite js_or_idempotent.
Qed.
End JourneyCalls.

(** In the server of the session factory the parameter schema asks every
    waypoint for [lat] and [lon]: waypoints of the documented tool surface
    never reach the callback. *)
Lemma session_rejects_surface_waypoints w config wps transport_mode time_budget :
  StatelessServer.invoke w config "camino_journey_planning"
    (journey_args (map surface_waypoint wps) transport_mode time_budget)
  = InvalidArguments.
Proof.
  unfold StatelessServer.invoke, tools_call, journey_args.
  destruct wps as [|[[latitude longitude] purpose] wps]; reflexivity.
Qed.

(** C2 (as the code behaves, against the claim): for waypoints of the tool
    surface [{latitude, longitude, purpose}], the stdio-bound server posts
    to [/journey] a body whose waypoints keep the order, the length and the
    purposes, and whose constraints carry the transport mode (defaulting to
    walking) and the time budget, but whose [lat] and [lon] are undefined:
    [planJourney] reads [wp.lat] and [wp.lon] instead of [wp.latitude] and
    [wp.longitude], so no coordinate reaches the upstream service. *)
Theorem journey_waypoints_lose_coordinates
  (w : World) (this : CaminoMCPServer.t)
  (wps : list (float * float * string)) (transport_mode time_budget : JsValue) :
  http_calls
    (trace (CaminoMCPServer.callTool w this "camino_journey_planning"
              (journey_args (map surface_waypoint wps) transport_mode time_budget)))
  = [issued (CaminoMCPServer.caminoApi this) POST "/journey" JUndefined
       (JObj [("waypoints", JArr (map coordinate_less_waypoint wps));
              ("constraints",
               JObj [("transport", js_or transport_mode (JStr "walking"));
                     ("time_budget", time_budget)])])]
  /\ length (map coordinate_less_waypoint wps) = length wps
  /\ map (fun wp => get wp "purpose") (map coordinate_less_waypoint wps)
     = map (fun wp => get wp "purpose") (map surface_waypoint wps)
  /\ map (fun wp => get wp "lat") (map coordinate_less_waypoint wps)
     = map (fun _ => JUndefined) wps
  /\ map (fun wp => get wp "lon") (map coordinate_less_waypoint wps)
     = map (fun _ => JUndefined) wps.
Proof.
  split; [apply stdio_journey_call|].
  split; [apply length_map|].
  rewrite !map_map.
  repeat split; apply map_ext; now intros [[latitude longitude] purpose].
Qed.

(** The journey of the README, sent through the stdio-bound server: the
    posted waypoints are not the wire form of the supplied ones. *)
Lemma journey_example_differs :
  let wps := [(40.75, -73.5, "pickup coffee"); (40.5, -73.75, "business meeting")]%float in
  http_calls
    (trace (CaminoMCPServer.callTool offline sample_server "camino_journey_planning"
              (journey_args (map surface_waypoint wps) (JStr "walking") (JStr "2 hours"))))
  = [issued sample_api POST "/journey" JUndefined
       (JObj [("waypoints",
               JArr [JObj [("lat", JUndefined); ("lon", JUndefined);
                           ("purpose", JStr "pickup coffee")];
                     JObj [("lat", JUndefined); ("lon", JUndefined);
                           ("purpose", JStr "business meeting")]]);
              ("constraints",
               JObj [("transport", JStr "walking");
                     ("time_budget", JStr "2 hours")])])]
  /\ map coordinate_less_waypoint wps <> map upstream_waypoint wps.
Proof.
  split; [reflexivity|].
  cbn. intros H.
  apply (f_equal (fun l => match l with
                           | JObj (("lat", JNum _) :: _) :: _ => true
                           | _ => false
                           end)) in H.
  discriminate H.
Qed.

(** An array shorter than the schema's minimum does not parse. *)
Lemma safeParse_array_too_short item n items :
  Nat.leb n (length items) = false ->
  safeParse (z_array item n) (JArr items) = None.
Proof.
  intros H. cbn [safeParse]. rewrite H.
  match goal with
  | |- match ?e with _ => _ end = _ => destruct e
  end; reflexivity.
Qed.

(** An object whose first declared property does not parse does not parse. *)
Lemma safeParse_object_field_fails k s rest fs :
  safeParse s (assoc k fs) = None ->
  safeParse (z_object ((k, s) :: rest)) (JObj fs) = None.
Proof. intros H. cbn [safeParse]. now rewrite H. Qed.

(** C3 (as the code behaves, against the claim): in the stdio-bound server
    nothing checks the arguments against the declared schema, so a journey
    with a single waypoint, or with none, reaches [planJourney] and is
    posted to [/journey].  In the server of the session factory the
    parameter schema turns both away before the callback runs. *)
Theorem short_journey_reaches_upstream_on_stdio
  (w : World) (this : CaminoMCPServer.t) (config : SessionConfig)
  (p : float * float * string) (transport_mode time_budget : JsValue) :
  http_calls
    (trace (CaminoMCPServer.callTool w this "camino_journey_planning"
              (journey_args [surface_waypoint p] transport_mode time_budget)))
  = [issued (CaminoMCPServer.caminoApi this) POST "/journey" JUndefined
       (JObj [("waypoints", JArr [coordinate_less_waypoint p]);
              ("constraints",
               JObj [("transport", js_or transport_mode (JStr "walking"));
                     ("time_budget", time_budget)])])]
  /\ http_calls
       (trace (CaminoMCPServer.callTool w this "camino_journey_planning"
                 (journey_args [] transport_mode time_budget)))
     = [issued (CaminoMCPServer.caminoApi this) POST "/journey" JUndefined
          (JObj [("waypoints", JArr []);
                 ("constraints",
                  JObj [("transport", js_or transport_mode (JStr "walking"));
                        ("time_budget", time_budget)])])]
  /\ (forall wp,
        StatelessServer.invoke w config "camino_journey_planning"
          (journey_args [wp] transport_mode time_budget)
        = InvalidArguments)
  /\ StatelessServer.invoke w config "camino_journey_planning"
       (journey_args [] transport_mode time_budget)
     = InvalidArguments.
Proof.
  split; [exact (stdio_journey_call w this [p] transport_mode time_budget)|].
  split; [exact (stdio_journey_call w this [] transport_mode time_budget)|].
  split; [|reflexivity].
  intros wp. unfold StatelessServer.invoke, tools_call, journey_args.
  cbn [find_tool StatelessServer.createStatelessServer tool_name
       StatelessServer.camino_query StatelessServer.camino_search
       StatelessServer.camino_spatial_relationship StatelessServer.camino_place_context
       StatelessServer.camino_journey_planning String.eqb Ascii.eqb Bool.eqb
       paramsSchema].
  rewrite safeParse_object_field_fails; [reflexivity|].
  cbn [assoc String.eqb Ascii.eqb Bool.eqb].
  apply safeParse_array_too_short. reflexivity.
Qed.

(* ------------------------------------------------------------------ *)
(** ** From the envelope to the tool result *)

(** A handler that awaits an envelope and unwraps it. *)
Lemma unwrapping_handler (w : World) (m : Eff JsValue) (finish : JsValue -> JsValue)
      t env :
  m = (t, Normal env) ->
  outcome (response <- m ;; ret (finish response)) = Normal (finish env).
Proof. intros ->. reflexivity. Qed.

Section StdioResults.
Variable w : World.
Variable this : CaminoMCPServer.t.

(** For each registered name, [executeTool] returns the unwrapped envelope
    of the operation behind the name. *)
Lemma executeTool_unwraps name args t env :
  stdio_envelope w this name args = Some (t, Normal env) ->
  outcome (CaminoMCPServer.executeTool w this name args) = Normal (unwrap env).
Proof.
  unfold stdio_envelope. intros H.
  assert (Hbody : forall body,
             CaminoMCPServer.executeTool w this name args
             = (CaminoMCPServer.Logger_debug w "Executing tool"
                  (JObj [("name", JStr name); ("args", args)]) ;;; body) ->
             outcome (CaminoMCPServer.executeTool w this name args) = outcome body).
  { intros body Hb. now destruct (executeTool_after_debug w this name args body Hb)
      as (_ & _ & _ & ->). }
  repeat match type of H with
         | context [String.eqb name ?label] =>
             destruct (String.eqb_spec name label) as [->|_];
             [ injection H as H; erewrite Hbody by reflexivity;
               exact (unwrapping_handler w _ unwrap t env H) | ]
         end.
  discriminate H.
Qed.
End StdioResults.

Section SessionResults.
Variable w : World.
Variable config : SessionConfig.

(** Each callback of the session factory replies with the unwrapped
    envelope of the operation behind its name. *)
Lemma callback_unwraps name tl parsed t env :
  find_tool (StatelessServer.createStatelessServer w config) name = Some tl ->
  session_envelope w config name parsed = Some (t, Normal env) ->
  outcome (callback tl parsed) = Normal (host_result w (unwrap env)).
Proof.
  unfold StatelessServer.createStatelessServer, session_envelope.
  cbn [find_tool tool_name StatelessServer.camino_query StatelessServer.camino_search
       StatelessServer.camino_spatial_relationship StatelessServer.camino_place_context
       StatelessServer.camino_journey_planning StatelessServer.camino_route_planning].
  intros Hfind H.
  repeat match type of H with
         | context [String.eqb name ?label] =>
             destruct (String.eqb_spec name label) as [->|_];
             [ injection H as H; injection Hfind as <-;
               exact (unwrapping_handler w _ (StatelessServer.reply w) t env H) | ]
         end.
  discriminate H.
Qed.
End SessionResults.

(** C4: in both servers, when the operation behind an invocation returns an
    envelope whose [success] is true, the tool result handed to the host is
    the text block of the envelope's [data] alone; when the envelope's
    [success] is false, it is the text block of the whole envelope; in both
    cases the invocation completes normally, nothing is thrown. *)
Theorem result_is_data_on_success_envelope_on_failure
  (w : World) (this : CaminoMCPServer.t) (config : SessionConfig)
  (name : string) (args : JsValue) (t : list Event) (env : JsValue) :
  (stdio_envelope w this name (js_or args (JObj [])) = Some (t, Normal env) ->
     (get env "success" = JBool true ->
        outcome (CaminoMCPServer.callTool w this name args)
        = Normal (text_content (JSON_stringify w true (get env "data"))))
     /\ (get env "success" = JBool false ->
        outcome (CaminoMCPServer.callTool w this name args)
        = Normal (text_content (JSON_stringify w true env))))
  /\ (forall tl parsed,
        find_tool (StatelessServer.createStatelessServer w config) name = Some tl ->
        safeParse (z_object (paramsSchema tl)) args = Some parsed ->
        session_envelope w config name parsed = Some (t, Normal env) ->
        (get env "success" = JBool true ->
           handled_outcome (StatelessServer.invoke w config name args)
           = Some (Normal (text_content (JSON_stringify w true (get env "data")))))
        /\ (get env "success" = JBool false ->
           handled_outcome (StatelessServer.invoke w config name args)
           = Some (Normal (text_content (JSON_stringify w true env))))).
Proof.
  split.
  - intros H.
    destruct (callTool_spec w this name args) as [_ ->].
    rewrite (executeTool_unwraps w this name _ t env H).
    unfold host_result, unwrap. split; intros ->; reflexivity.
  - intros tl parsed Hfind Hparse H.
    unfold StatelessServer.invoke, tools_call. rewrite Hfind, Hparse.
    cbn [handled_outcome].
    rewrite (callback_unwraps w config name tl parsed t env Hfind H).
    unfold host_result, unwrap. split; intros ->; reflexivity.
Qed.

(* ------------------------------------------------------------------ *)
(** ** What is written where *)

Create HintDb quiet.

Lemma quiet_ret c {A} (a : A) : quiet c (ret a).
Proof. reflexivity. Qed.

Lemma quiet_throw c {A} e : quiet c (@throw A e).
Proof. reflexivity. Qed.

Lemma quiet_emit_http c r : quiet c (emit (EvHttp r)).
Proof. reflexivity. Qed.

Lemma quiet_emit_other c c' s : c <> c' -> quiet c (emit (EvWrite c' s)).
Proof. intros H. unfold quiet. cbn. destruct c, c'; try reflexivity; now elim H. Qed.

Lemma quiet_bind c {A B} (m : Eff A) (k : A -> Eff B) :
  quiet c m -> (forall a, quiet c (k a)) -> quiet c (bind m k).
Proof.
  unfold quiet. destruct m as [t [a|e]]; cbn; intros Hm Hk; [|assumption].
  specialize (Hk a). destruct (k a) as [t' r]. cbn in *.
  now rewrite written_app, Hm, Hk.
Qed.

Lemma quiet_try_catch c {A} (m : Eff A) (h : JsValue -> Eff A) :
  quiet c m -> (forall e, quiet c (h e)) -> quiet c (try_catch m h).
Proof.
  unfold quiet. destruct m as [t [a|e]]; cbn; intros Hm Hh; [assumption|].
  specialize (Hh e). destruct (h e) as [t' r]. cbn in *.
  now rewrite written_app, Hm, Hh.
Qed.

Lemma quiet_mapM c {A B} (f : A -> Eff B) (l : list A) :
  (forall a, quiet c (f a)) -> quiet c (mapM f l).
Proof.
  intros Hf. induction l as [|a l IH]; cbn [mapM]; [apply quiet_ret|].
  apply quiet_bind; [apply Hf|]. intros b.
  apply quiet_bind; [apply IH|]. intros bs. apply quiet_ret.
Qed.

#[local] Hint Resolve quiet_ret quiet_throw quiet_emit_http quiet_bind
  quiet_try_catch quiet_mapM : quiet.
#[local] Hint Extern 1 (quiet _ (emit (EvWrite _ _))) =>
  apply quiet_emit_other; discriminate : quiet.
#[local] Hint Extern 2 (quiet _ (if ?b then _ else _)) => destruct b : quiet.
#[local] Hint Extern 2 (quiet _ (match ?o with Fulfilled _ => _ | _ => _ end)) =>
  destruct o : quiet.

(** The logger writes to its file, and to the standard error stream only
    from [error] and only in debug mode; never to the standard output. *)
Lemma quiet_writeToFile c w level message data :
  c <> LogFile -> quiet c (Logger.writeToFile w level message data).
Proof.
  intros H. unfold Logger.writeToFile.
  apply quiet_try_catch; [|auto with quiet].
  destruct (append_ok w); [apply quiet_emit_other; exact H|apply quiet_throw].
Qed.

Lemma quiet_Logger_debug c w message data :
  c <> LogFile -> quiet c (Logger.debug w message data).
Proof.
  intros H. unfold Logger.debug.
  destruct (debugMode w); [now apply quiet_writeToFile|apply quiet_ret].
Qed.

Lemma quiet_Logger_error_stdout w message err :
  quiet Stdout (Logger.error w message err).
Proof.
  unfold Logger.error. apply quiet_bind.
  - apply quiet_writeToFile. discriminate.
  - intros _. auto with quiet.
Qed.

(** With the debug flag off, [Logger.error] leaves the standard error
    stream alone. *)
Lemma quiet_Logger_error_stderr w message err :
  debugMode w = false -> quiet Stderr (Logger.error w message err).
Proof.
  intros H. unfold Logger.error. rewrite H. cbn [andb].
  apply quiet_bind; [apply quiet_writeToFile; discriminate|auto with quiet].
Qed.

Lemma quiet_ident c scope x : quiet c (ident scope x).
Proof. unfold ident. auto with quiet. Qed.

Lemma quiet_send c w this m path params data :
  quiet c (CaminoApiService.send w this m path params data).
Proof. unfold CaminoApiService.send. auto with quiet. Qed.

Lemma quiet_console_error_stdout w label arg :
  quiet Stdout (console_error w label arg).
Proof. unfold console_error. auto with quiet. Qed.

Lemma quiet_client_Logger_error w message err :
  quiet Stdout (CaminoApiService.Logger_error w message err).
Proof.
  unfold CaminoApiService.Logger_error.
  apply quiet_bind; [apply quiet_ident|]. intros _. apply quiet_Logger_error_stdout.
Qed.

Lemma quiet_wire_waypoint c wp : quiet c (CaminoApiService.wire_waypoint wp).
Proof. destruct wp; cbn; auto with quiet. Qed.

Lemma quiet_array_map c f v :
  (forall x, quiet c (f x)) -> quiet c (CaminoApiService.array_map f v).
Proof. intros Hf. destruct v; cbn; auto with quiet. Qed.

#[local] Hint Resolve quiet_send quiet_console_error_stdout quiet_client_Logger_error
  quiet_wire_waypoint quiet_array_map quiet_ident : quiet.

(** No operation of the client writes to the standard output. *)
Lemma operations_quiet_on_stdout w this request :
  Forall (fun op => quiet Stdout (op w this request)) operations.
Proof.
  unfold operations.
  repeat (apply Forall_cons; [|]); try apply Forall_nil;
    unfold CaminoApiService.executeQuery, CaminoApiService.executeSearch,
           CaminoApiService.calculateSpatialRelationship,
           CaminoApiService.getPlaceContext, CaminoApiService.planJourney,
           CaminoApiService.planRoute,
           CaminoApiService.client_get, CaminoApiService.client_post;
    auto 10 with quiet.
Qed.

(** No invocation of the stdio-bound server writes to the standard output:
    that stream carries only what the transport itself sends. *)
Lemma stdio_quiet_on_stdout w this name args :
  quiet Stdout (CaminoMCPServer.callTool w this name args).
Proof.
  pose proof (operations_quiet_on_stdout w (CaminoMCPServer.caminoApi this)) as Hops.
  unfold operations in Hops.
  assert (Hq : forall request,
             quiet Stdout (CaminoApiService.executeQuery w (CaminoMCPServer.caminoApi this) request)
             /\ quiet Stdout (CaminoApiService.executeSearch w (CaminoMCPServer.caminoApi this) request)
             /\ quiet Stdout (CaminoApiService.calculateSpatialRelationship w (CaminoMCPServer.caminoApi this) request)
             /\ quiet Stdout (CaminoApiService.getPlaceContext w (CaminoMCPServer.caminoApi this) request)
             /\ quiet Stdout (CaminoApiService.planJourney w (CaminoMCPServer.caminoApi this) request)
             /\ quiet Stdout (CaminoApiService.planRoute w (CaminoMCPServer.caminoApi this) request)).
  { intros request. specialize (Hops request).
    repeat match goal with
           | H : Forall _ (_ :: _) |- _ =>
               let H1 := fresh in
               pose proof (Forall_inv H) as H1; apply Forall_inv_tail in H
           end.
    cbn beta in *. tauto. }
  unfold CaminoMCPServer.callTool.
  apply quiet_try_catch; [|auto with quiet].
  apply quiet_bind; [|auto with quiet].
  unfold CaminoMCPServer.executeTool.
  apply quiet_bind.
  { unfold CaminoMCPServer.Logger_debug.
    apply quiet_bind; [apply quiet_ident|].
    intros _. apply quiet_Logger_debug. discriminate. }
  intros _.
  unfold CaminoMCPServer.executeQueryTool, CaminoMCPServer.executeSearchTool,
         CaminoMCPServer.executeSpatialRelationshipTool,
         CaminoMCPServer.executePlaceContextTool,
         CaminoMCPServer.executeJourneyPlanningTool,
         CaminoMCPServer.executeRoutePlanningTool.
  repeat match goal with
         | |- quiet _ (if ?b then _ else _) => destruct b
         end;
    try apply quiet_throw;
    (apply quiet_bind; [apply Hq|auto with quiet]).
Qed.

(* ------------------------------------------------------------------ *)
(** ** Failing calls, seen from the host *)

Section FailuresAtTheHost.
Variable w : World.
Variable this : CaminoMCPServer.t.

(** A failing [camino_query] gives the host the failure envelope. *)
Lemma stdio_query_failure_result args :
  unreachable w ->
  outcome (CaminoMCPServer.callTool w this "camino_query" args)
  = Normal
      (host_result w
         (JObj [("success", JBool false);
                ("error",
                 match upstream w
                         (issued (CaminoMCPServer.caminoApi this) GET "/query"
                            (JObj [("q", get (js_or args (JObj [])) "query");
                                   ("lat", get (js_or args (JObj [])) "latitude");
                                   ("lon", get (js_or args (JObj [])) "longitude");
                                   ("radius", js_or (get (js_or args (JObj [])) "radius") (JNum 1000));
                                   ("rank", JBool (not_false (get (js_or args (JObj [])) "rank")));
                                   ("limit", js_or (get (js_or args (JObj [])) "limit") (JNum 20));
                                   ("answer", JBool (not_false (get (js_or args (JObj [])) "generate_answer")))])
                            JUndefined) with
                 | BadStatus m body => js_or (optget body "detail") (JStr m)
                 | NoResponse m => JStr m
                 | Fulfilled _ => JUndefined
                 end);
                ("data", JObj [("query", get (js_or args (JObj [])) "query");
                               ("results", JArr []);
                               ("total_found", JNum 0);
                               ("ai_ranked", JBool false)])])).
Proof.
  intros Hdown.
  destruct (callTool_spec w this "camino_query" args) as [_ ->].
  destruct (executeTool_after_debug w this "camino_query" (js_or args (JObj []))
              (CaminoMCPServer.executeQueryTool w this (js_or args (JObj [])))
              eq_refl) as (_ & _ & _ & ->).
  unfold CaminoMCPServer.executeQueryTool.
  rewrite (proj2 (trace_bind_ret _ unwrap)).
  rewrite executeQuery_failure_envelope by apply Hdown.
  reflexivity.
Qed.

(** A failing [camino_query] writes its report to the standard error
    stream through [console.error], whatever the debug flag says. *)
Lemma stdio_query_failure_stderr args m :
  (forall r, upstream w r = NoResponse m) ->
  debugMode w = false ->
  written Stderr (trace (CaminoMCPServer.callTool w this "camino_query" args))
  = ["Query execution failed:" ++ " " ++ m ++ newline].
Proof.
  intros Hdown Hdebug.
  destruct (callTool_spec w this "camino_query" args) as [-> _].
  destruct (executeTool_after_debug w this "camino_query" (js_or args (JObj []))
              (CaminoMCPServer.executeQueryTool w this (js_or args (JObj [])))
              eq_refl) as (_ & _ & -> & _).
  unfold CaminoMCPServer.executeQueryTool.
  rewrite (proj1 (trace_bind_ret _ unwrap)).
  unfold CaminoApiService.executeQuery, CaminoApiService.client_get,
         CaminoApiService.send, console_error.
  cbn [bind emit try_catch ret app]. rewrite Hdown. reflexivity.
Qed.

(** A failing [camino_route_planning] gives the host no envelope: the
    ReferenceError of the unbound [Logger] leaves the handler and comes
    back as a protocol error. *)
Lemma stdio_route_failure_result args :
  unreachable w ->
  outcome (CaminoMCPServer.callTool w this "camino_route_planning" args)
  = Throw (McpError InternalError "Tool execution failed: Logger is not defined").
Proof.
  intros Hdown.
  destruct (callTool_spec w this "camino_route_planning" args) as [_ ->].
  destruct (executeTool_after_debug w this "camino_route_planning"
              (js_or args (JObj []))
              (CaminoMCPServer.executeRoutePlanningTool w this (js_or args (JObj [])))
              eq_refl) as (_ & _ & _ & ->).
  unfold CaminoMCPServer.executeRoutePlanningTool.
  rewrite (proj2 (trace_bind_ret _ unwrap)).
  rewrite planRoute_unreachable by exact Hdown.
  reflexivity.
Qed.
End FailuresAtTheHost.

Lemma result_is_data_on_success_envelope_on_failure_witness :
  outcome (CaminoMCPServer.callTool
             (online (JObj [("results", JArr []); ("total_found", JNum 0)]))
             sample_server "camino_search" (JObj [("query", JStr "Eiffel Tower")]))
  = Normal (text_content (JStr "{results,total_found}"))
  /\ outcome (CaminoMCPServer.callTool offline sample_server "camino_search"
                (JObj [("query", JStr "Eiffel Tower")]))
     = Normal (text_content (JStr "{success,error,data}")).
Proof.
  split.
  - exact (proj1 (proj1 (result_is_data_on_success_envelope_on_failure
             (online (JObj [("results", JArr []); ("total_found", JNum 0)]))
             sample_server sample_config "camino_search"
             (JObj [("query", JStr "Eiffel Tower")])
             [EvHttp (issued sample_api POST "/search"
                        (JObj [("q", JStr "Eiffel Tower")]) JNull)]
             (JObj [("success", JBool true);
                    ("data", JObj [("results", JArr []); ("total_found", JNum 0)])]))
             eq_refl) eq_refl).
  - exact (proj2 (proj1 (result_is_data_on_success_envelope_on_failure
             offline sample_server sample_config "camino_search"
             (JObj [("query", JStr "Eiffel Tower")])
             [EvHttp (issued sample_api POST "/search"
                        (JObj [("q", JStr "Eiffel Tower")]) JNull);
              EvWrite Stderr ("Search execution failed: Network Error" ++ newline)]
             (JObj [("success", JBool false);
                    ("error", JStr "Network Error");
                    ("data", JObj [("query", JStr "Eiffel Tower");
                                   ("results", JArr []);
                                   ("total_found", JNum 0);
                                   ("source", JStr "nominatim")])]))
             eq_refl) eq_refl).
Defined.

(** C5 (as the code behaves, against the claim): when the remote service
    cannot be reached, a [camino_route_planning] invocation returns no
    envelope at all.  In the stdio-bound server it fails with the protocol
    error [Tool execution failed: Logger is not defined]; in the server of
    the session factory the callback throws the ReferenceError.  The cause
    is the one of C1: [planRoute] calls [Logger.error] in its [catch] block
    without [Logger] being imported. *)
Theorem route_failure_returns_no_envelope
  (w : World) (this : CaminoMCPServer.t) (config : SessionConfig)
  (args parsed : JsValue) :
  unreachable w ->
  outcome (CaminoMCPServer.callTool w this "camino_route_planning" args)
  = Throw (McpError InternalError "Tool execution failed: Logger is not defined")
  /\ outcome (callback (StatelessServer.camino_route_planning w config) parsed)
     = Throw Logger_unbound.
Proof.
  intros Hdown. split.
  - now apply stdio_route_failure_result.
  - cbn [callback StatelessServer.camino_route_planning].
    rewrite (proj2 (trace_bind_ret _ (StatelessServer.reply w))).
    now rewrite planRoute_unreachable.
Qed.

Lemma route_failure_returns_no_envelope_witness :
  unreachable offline
  /\ outcome (CaminoMCPServer.callTool offline sample_server "camino_route_planning"
                (JObj [("start_latitude", JNum 40.75);
                       ("start_longitude", JNum (-73.5));
                       ("end_latitude", JNum 40.5);
                       ("end_longitude", JNum (-73.75));
                       ("mode", JStr "bike")]))
     = Throw (JErr "McpError"
                [("code", JNum (-32603));
                 ("message", JStr "Tool execution failed: Logger is not defined")]).
Proof.
  split; [exact offline_unreachable|].
  exact (proj1 (route_failure_returns_no_envelope
                  offline sample_server sample_config
                  (JObj [("start_latitude", JNum 40.75);
                         ("start_longitude", JNum (-73.5));
                         ("end_latitude", JNum 40.5);
                         ("end_longitude", JNum (-73.75));
                         ("mode", JStr "bike")])
                  JUndefined
                  offline_unreachable)).
Defined.

(** C8 (as the code behaves, against the claim): with the debug flag off, a
    [camino_query] invocation whose upstream call fails writes one line,
    [Query execution failed: <message>], to the standard error stream:
    [executeQuery] reports through [console.error], not through the
    logger.  Nothing is written to the standard output. *)
Theorem query_failure_writes_stderr_without_debug
  (w : World) (this : CaminoMCPServer.t) (args : JsValue) (m : string) :
  debugMode w = false ->
  (forall r, upstream w r = NoResponse m) ->
  written Stderr (trace (CaminoMCPServer.callTool w this "camino_query" args))
  = ["Query execution failed:" ++ " " ++ m ++ newline]
  /\ written Stdout (trace (CaminoMCPServer.callTool w this "camino_query" args)) = [].
Proof.
  intros Hdebug Hdown. split.
  - now apply stdio_query_failure_stderr.
  - apply stdio_quiet_on_stdout.
Qed.

Lemma query_failure_writes_stderr_without_debug_witness :
  debugMode offline = false
  /\ written Stderr
       (trace (CaminoMCPServer.callTool offline sample_server "camino_query"
                 (JObj [("query", JStr "cafes")])))
     = ["Query execution failed: Network Error" ++ newline].
Proof.
  split; [reflexivity|].
  exact (proj1 (query_failure_writes_stderr_without_debug
                  offline sample_server (JObj [("query", JStr "cafes")])
                  "Network Error" eq_refl (fun _ => eq_refl))).
Defined.

(* ------------------------------------------------------------------ *)
(** ** Worked invocations *)

(** A successful search through the stdio-bound server: one POST, and the
    body of the response as the result. *)
Example stdio_search_success :
  CaminoMCPServer.callTool
    (online (JObj [("results", JArr []); ("total_found", JNum 0)]))
    sample_server "camino_search" (JObj [("query", JStr "Eiffel Tower")])
  = ([EvHttp (issued sample_api POST "/search"
                (JObj [("q", JStr "Eiffel Tower")]) JNull)],
     Normal (text_content (JStr "{results,total_found}"))).
Proof. reflexivity. Qed.

(** The same search with the remote service down: the report on the
    standard error stream and the failure envelope as the result. *)
Example stdio_search_failure :
  CaminoMCPServer.callTool offline sample_server "camino_search"
    (JObj [("query", JStr "Eiffel Tower")])
  = ([EvHttp (issued sample_api POST "/search"
                (JObj [("q", JStr "Eiffel Tower")]) JNull);
      EvWrite Stderr ("Search execution failed: Network Error" ++ newline)],
     Normal (text_content (JStr "{success,error,data}"))).
Proof. reflexivity. Qed.

(** A non-2xx answer with a [detail]: the detail becomes the error. *)
Example query_error_detail :
  outcome (CaminoApiService.executeQuery
             {| upstream := fun _ =>
                  BadStatus "Request failed with status code 401"
                            (JObj [("detail", JStr "Invalid API key")]);
                debugMode := false;
                now_iso := "2025-01-01T00:00:00.000Z";
                append_ok := true;
                render := sample_render;
                to_text := fun _ => "[object Object]";
                inspect := fun _ => "{}" |}
             sample_api (JObj [("query", JStr "cafes")]))
  = Normal (JObj [("success", JBool false);
                  ("error", JStr "Invalid API key");
                  ("data", JObj [("query", JStr "cafes");
                                 ("results", JArr []);
                                 ("total_found", JNum 0);
                                 ("ai_ranked", JBool false)])]).
Proof. reflexivity. Qed.

(** The session factory's schema turns a radius below 100 away. *)
Example session_query_radius_out_of_range :
  StatelessServer.invoke offline sample_config "camino_query"
    (JObj [("query", JStr "cafes"); ("radius", JNum 50)])
  = InvalidArguments.
Proof. reflexivity. Qed.

(** Waypoints in the wire shape pass the session factory's schema and are
    posted as they are. *)
Example session_journey_wire_waypoints :
  handled_calls
    (StatelessServer.invoke offline sample_config "camino_journey_planning"
       (JObj [("waypoints",
               JArr [upstream_waypoint (40.75, -73.5, "pickup coffee")%float;
                     upstream_waypoint (40.5, -73.75, "business meeting")%float])]))
  = Some [issued sample_api POST "/journey" JUndefined
            (JObj [("waypoints",
                    JArr [upstream_waypoint (40.75, -73.5, "pickup coffee")%float;
                          upstream_waypoint (40.5, -73.75, "business meeting")%float]);
                   ("constraints",
                    JObj [("transport", JStr "walking");
                          ("time_budget", JUndefined)])])].
Proof. reflexivity. Qed.

(** With the remote service down, place context through the stdio-bound
    server ends in a protocol error, not in a fallback. *)
Example stdio_place_context_failure :
  outcome (CaminoMCPServer.callTool offline sample_server "camino_place_context"
             (JObj [("latitude", JNum 40.75); ("longitude", JNum (-73.5))]))
  = Throw (McpError InternalError "Tool execution failed: Logger is not defined").
Proof. reflexivity. Qed.

(** The six advertised names. *)
Example registered_names_listed :
  registered_names
  = ["camino_query"; "camino_search"; "camino_spatial_relationship";
     "camino_place_context"; "camino_journey_planning"; "camino_route_planning"].
Proof. reflexivity. Qed.

(* ================================================================== *)
(** * Further properties of the code *)

(* ------------------------------------------------------------------ *)
(** ** The upstream client: one attempt, and what a result means *)

(** Each of the three operations that call [Logger.error] either returns
    normally or throws the ReferenceError of the unbound [Logger]. *)
Lemma Logger_operation_outcomes w this request :
  (exists env, outcome (CaminoApiService.getPlaceContext w this request) = Normal env)
  \/ outcome (CaminoApiService.getPlaceContext w this request) = Throw Logger_unbound.
Proof.
  unfold CaminoApiService.getPlaceContext, CaminoApiService.client_post,
         CaminoApiService.send.
  cbn [bind emit try_catch ret app].
  match goal with |- context [upstream w ?r] => destruct (upstream w r) end;
    cbn; eauto.
Qed.

Lemma planRoute_outcomes w this request :
  (exists env, outcome (CaminoApiService.planRoute w this request) = Normal env)
  \/ outcome (CaminoApiService.planRoute w this request) = Throw Logger_unbound.
Proof.
  unfold CaminoApiService.planRoute, CaminoApiService.client_get,
         CaminoApiService.send.
  cbn [bind emit try_catch ret app].
  match goal with |- context [upstream w ?r] => destruct (upstream w r) end;
    cbn; eauto.
Qed.

Lemma planJourney_outcomes w this request :
  (exists env, outcome (CaminoApiService.planJourney w this request) = Normal env)
  \/ outcome (CaminoApiService.planJourney w this request) = Throw Logger_unbound.
Proof.
  unfold CaminoApiService.planJourney.
  destruct (CaminoApiService.array_map CaminoApiService.wire_waypoint
              (get request "waypoints")) as [t [wps|e]]; [|right; reflexivity].
  unfold CaminoApiService.client_post, CaminoApiService.send.
  cbn [bind emit try_catch ret app].
  match goal with |- context [upstream w ?r] => destruct (upstream w r) end;
    cbn; eauto.
Qed.

(** X1: no operation of the client retries: whatever the request and
    whatever the remote service answers, each of the six operations issues
    at most one upstream call. *)
Theorem operations_single_attempt :
  Forall (fun op =>
            forall w this request,
              length (http_calls (trace (op w this request))) <= 1)
         operations.
Proof.
  unfold operations.
  repeat (apply Forall_cons;
          [ intros w this request; calls_known; cbn; lia | ]).
  apply Forall_nil.
Qed.

(** Unfolds an operation, splits on the answer of the remote service and
    simplifies both the trace and the outcome. *)
Ltac run_and_split w :=
  unfold CaminoApiService.executeQuery, CaminoApiService.executeSearch,
         CaminoApiService.calculateSpatialRelationship,
         CaminoApiService.getPlaceContext, CaminoApiService.planRoute,
         CaminoApiService.client_get, CaminoApiService.client_post,
         CaminoApiService.send, console_error;
  cbn [bind emit try_catch ret app];
  match goal with
  | |- context [upstream w ?r] => destruct (upstream w r) eqn:?
  end;
  cbn.

(** The shape of every envelope: after its one call, an operation that
    returns has either wrapped the payload of a fulfilled call or described
    a failed one. *)
Ltac settle_envelope :=
  intros [= <-]; eexists; split; [reflexivity|];
  match goal with
  | E : upstream _ _ = _ |- _ => rewrite E
  end;
  cbn; auto.

(** X2: an envelope means what it says.  Whenever one of the six operations
    returns an envelope, exactly one upstream call was made; [success] is
    true exactly when that call was fulfilled, and then [data] is the
    response body verbatim; otherwise [success] is false and [error] is the
    detail-or-message text of the rejection. *)
Theorem envelope_reflects_the_call :
  Forall (fun op =>
            forall w this request env,
              outcome (op w this request) = Normal env ->
              exists r,
                http_calls (trace (op w this request)) = [r]
                /\ match upstream w r with
                   | Fulfilled body =>
                       get env "success" = JBool true /\ get env "data" = body
                   | o =>
                       get env "success" = JBool false
                       /\ get env "error" = CaminoApiService.error_text (axios_error o)
                   end)
         operations.
Proof.
  unfold operations.
  repeat (apply Forall_cons; [intros w this request env|]); try apply Forall_nil.
  - run_and_split w; settle_envelope.
  - run_and_split w; settle_envelope.
  - run_and_split w; settle_envelope.
  - run_and_split w; try discriminate; settle_envelope.
  - unfold CaminoApiService.planJourney.
    pose proof (planJourney_calls w this request) as Hc.
    unfold CaminoApiService.planJourney in Hc. rewrite Hc. clear Hc.
    destruct (CaminoApiService.array_map CaminoApiService.wire_waypoint
                (get request "waypoints")) as [t [wps|e]]; [|discriminate].
    unfold CaminoApiService.client_post, CaminoApiService.send, issued.
    cbn [bind emit try_catch ret app].
    match goal with
    | |- context [upstream w ?r] => destruct (upstream w r) eqn:?
    end; cbn; try discriminate.
    unfold journey_body. settle_envelope.
  - run_and_split w; try discriminate; settle_envelope.
Qed.

Lemma envelope_reflects_the_call_witness :
  exists r,
    http_calls (trace (CaminoApiService.executeSearch offline sample_api
                         (JObj [("query", JStr "Eiffel Tower")]))) = [r]
    /\ upstream offline r = NoResponse "Network Error".
Proof.
  pose proof envelope_reflects_the_call as H. unfold operations in H.
  apply Forall_inv_tail in H. apply Forall_inv in H.
  destruct (H offline sample_api (JObj [("query", JStr "Eiffel Tower")]) _ eq_refl)
    as [r [Hr _]].
  exists r. split; [exact Hr|reflexivity].
Defined.

(* ------------------------------------------------------------------ *)
(** ** planJourney on malformed waypoints *)

Lemma mapM_wire_waypoint_trace l :
  trace (mapM CaminoApiService.wire_waypoint l) = [].
Proof.
  induction l as [|wp l IH]; [reflexivity|].
  cbn [mapM]. unfold trace in *.
  destruct (mapM CaminoApiService.wire_waypoint l) as [t [bs|e]];
    cbn in IH; subst t; destruct wp; reflexivity.
Qed.

(** A [null] or [undefined] element makes the mapping throw. *)
Lemma mapM_wire_waypoint_nullish l :
  In JNull l \/ In JUndefined l ->
  throws (mapM CaminoApiService.wire_waypoint l) = true.
Proof.
  induction l as [|wp l IH]; [intros [[]|[]]|].
  intros H. cbn [mapM].
  destruct wp; try reflexivity;
    (assert (Hl : In JNull l \/ In JUndefined l)
       by (destruct H as [[H|H]|[H|H]]; try discriminate H; auto);
     specialize (IH Hl); unfold throws, outcome in *;
     destruct (mapM CaminoApiService.wire_waypoint l) as [t [bs|e]];
     [discriminate IH|reflexivity]).
Qed.

(** X3: [planJourney] never reaches the remote service with malformed
    waypoints.  When [request.waypoints] is not an array (missing, null, a
    string, an object, ...) or is an array holding [null] or [undefined],
    reading it throws a TypeError inside the [try]; the [catch] block then
    fails on the unbound [Logger], so the operation makes no upstream call,
    writes nothing, and throws the ReferenceError, even with the remote
    service up. *)
Theorem planJourney_malformed_waypoints
  (w : World) (this : CaminoApiService.t) (request : JsValue) :
  (forall items, get request "waypoints" = JArr items ->
                 In JNull items \/ In JUndefined items) ->
  CaminoApiService.planJourney w this request = ([], Throw Logger_unbound).
Proof.
  intros H. unfold CaminoApiService.planJourney.
  destruct (get request "waypoints") as [| | | | |items| |] eqn:E;
    try reflexivity.
  specialize (H items eq_refl).
  pose proof (mapM_wire_waypoint_nullish items H) as Ht.
  pose proof (mapM_wire_waypoint_trace items) as Hn.
  cbn [CaminoApiService.array_map].
  unfold throws, outcome, trace in *.
  destruct (mapM CaminoApiService.wire_waypoint items) as [t [bs|e]];
    [discriminate Ht|]. cbn in Hn. subst t. reflexivity.
Qed.

Lemma planJourney_malformed_waypoints_witness :
  CaminoApiService.planJourney (online (JObj [])) sample_api
    (JObj [("transport_mode", JStr "walking")])
  = ([], Throw (JErr "ReferenceError" [("message", JStr "Logger is not defined")])).
Proof.
  apply (planJourney_malformed_waypoints (online (JObj [])) sample_api
           (JObj [("transport_mode", JStr "walking")])).
  intros items H. discriminate H.
Defined.

(** X4: a failure envelope always names a cause.  For the three operations
    that report through [console.error], when the one call fails with a
    non-empty transport message, the operation returns an envelope with
    [success] false whose [error] is truthy (so never empty, undefined or
    null) and whose [data] is an object. *)
Theorem failure_envelope_names_a_cause :
  Forall (fun op =>
            forall w this request r,
              http_calls (trace (op w this request)) = [r] ->
              failing (upstream w r) = true ->
              failure_message (upstream w r) <> "" ->
              exists env fallback,
                outcome (op w this request) = Normal env
                /\ get env "success" = JBool false
                /\ truthy (get env "error") = true
                /\ get env "data" = JObj fallback)
         console_operations.
Proof.
  assert (Htruthy : forall o,
             failing o = true -> failure_message o <> "" ->
             truthy (CaminoApiService.error_text (axios_error o)) = true).
  { intros [body|m|m body] Hf Hm; [discriminate Hf| |].
    - cbn in *. destruct (String.eqb_spec m ""); [contradiction|reflexivity].
    - cbn in Hm. unfold CaminoApiService.error_text, js_or. cbn [axios_error get assoc
        String.eqb Ascii.eqb Bool.eqb optget].
      destruct (truthy (optget (JObj [("data", body)]) "data")) eqn:E.
      + cbn [optget get assoc String.eqb Ascii.eqb Bool.eqb] in *.
        destruct (truthy (optget body "detail")) eqn:E'; [exact E'|].
        cbn. destruct (String.eqb_spec m ""); [contradiction|reflexivity].
      + cbn [optget get assoc String.eqb Ascii.eqb Bool.eqb] in *.
        destruct (truthy (optget body "detail")) eqn:E'; [exact E'|].
        cbn. destruct (String.eqb_spec m ""); [contradiction|reflexivity]. }
  unfold console_operations.
  repeat (apply Forall_cons; [intros w this request r|]); try apply Forall_nil.
  all: first [rewrite executeQuery_calls | rewrite executeSearch_calls
             | rewrite calculateSpatialRelationship_calls];
    intros [= <-] Hf Hm;
    specialize (Htruthy _ Hf Hm); revert Hf Hm Htruthy; unfold issued;
    run_and_split w; intros Hf Hm Htruthy; try discriminate Hf;
    eexists; eexists; repeat split; exact Htruthy.
Qed.

Lemma failure_envelope_names_a_cause_witness :
  exists env fallback,
    outcome (CaminoApiService.executeQuery offline sample_api
               (JObj [("query", JStr "cafes")])) = Normal env
    /\ get env "success" = JBool false
    /\ truthy (get env "error") = true
    /\ get env "data" = JObj fallback.
Proof.
  pose proof failure_envelope_names_a_cause as H. unfold console_operations in H.
  apply Forall_inv in H.
  refine (H offline sample_api (JObj [("query", JStr "cafes")]) _ eq_refl eq_refl _).
  cbn. discriminate.
Defined.

(* ------------------------------------------------------------------ *)
(** ** The logger *)

Lemma writeToFile_trace w level message data :
  http_calls (trace (Logger.writeToFile w level message data)) = []
  /\ written Stdout (trace (Logger.writeToFile w level message data)) = []
  /\ written Stderr (trace (Logger.writeToFile w level message data)) = []
  /\ length (written LogFile (trace (Logger.writeToFile w level message data))) <= 1.
Proof.
  unfold Logger.writeToFile. destruct (append_ok w); cbn; repeat split; lia.
Qed.

(** X5: logging cannot disturb a request.  Whatever the file system does
    and whatever the debug flag says, [debug], [info] and [error] complete
    normally, make no upstream call, write nothing to the standard output
    and append at most one line to the log file. *)
Theorem logger_never_interferes (w : World) (message : string) (data : JsValue) :
  Forall (fun log : World -> string -> JsValue -> Eff unit =>
            outcome (log w message data) = Normal tt
            /\ http_calls (trace (log w message data)) = []
            /\ written Stdout (trace (log w message data)) = []
            /\ length (written LogFile (trace (log w message data))) <= 1)
         [Logger.debug; Logger.info; Logger.error].
Proof.
  destruct (writeToFile_trace w "DEBUG" message data) as (Dc & Do & De & Dl).
  destruct (writeToFile_trace w "INFO" message data) as (Ic & Io & Ie & Il).
  destruct (writeToFile_trace w "ERROR" message data) as (Ec & Eo & Ee & El).
  repeat apply Forall_cons; try apply Forall_nil.
  - split; [apply Logger_debug_normal|].
    unfold Logger.debug. destruct (debugMode w); [auto|cbn; repeat split; lia].
  - split; [apply writeToFile_normal|]. unfold Logger.info. auto.
  - split; [apply Logger_error_normal|].
    unfold Logger.error.
    pose proof (writeToFile_normal w "ERROR" message data) as Hn.
    destruct (Logger.writeToFile w "ERROR" message data) as [t [[]|e]];
      [|discriminate Hn].
    cbn in *. destruct (debugMode w && truthy data); cbn;
      rewrite ?http_calls_app, ?written_app, ?app_nil_r; cbn;
      rewrite ?app_nil_r; auto.
Qed.

(** X6: [Logger.error] reaches the standard error stream only in debug mode
    and only with a truthy error argument: without one (or with [null], 0,
    the empty string) nothing is written there even in debug mode, and with
    the debug flag off nothing is written there at all.  For an [Error]
    instance in debug mode the line is [[MCP Error] <message>: <the error's
    message>]. *)
Theorem Logger_error_stderr_line
  (w : World) (message : string) (err : JsValue) :
  (truthy err = false ->
   written Stderr (trace (Logger.error w message err)) = [])
  /\ (debugMode w = false ->
      written Stderr (trace (Logger.error w message err)) = [])
  /\ (debugMode w = true ->
      forall cls fields,
        err = JErr cls fields ->
        written Stderr (trace (Logger.error w message err))
        = ["[MCP Error] " ++ message ++ ": "
           ++ js_String w (assoc "message" fields) ++ newline]).
Proof.
  destruct (writeToFile_trace w "ERROR" message err) as (_ & _ & He & _).
  pose proof (writeToFile_normal w "ERROR" message err) as Hn.
  unfold Logger.error.
  destruct (Logger.writeToFile w "ERROR" message err) as [t [[]|e]];
    [|discriminate Hn].
  cbn in He. repeat split.
  - intros ->. rewrite andb_false_r. cbn. now rewrite app_nil_r.
  - intros ->. cbn. now rewrite app_nil_r.
  - intros -> cls fields ->. cbn. now rewrite written_app, He.
Qed.

Lemma Logger_error_stderr_line_witness :
  written Stderr (trace (Logger.error offline "MCP Server Error" JUndefined)) = [].
Proof.
  exact (proj1 (Logger_error_stderr_line offline "MCP Server Error" JUndefined)
               eq_refl).
Defined.

(** X7: a falsy payload is logged as no payload.  [writeToFile] stores
    [data || undefined], so [info] and [debug] called with 0, [false],
    the empty string or [null] behave exactly as when called without
    data. *)
Theorem falsy_payload_is_not_logged (w : World) (message : string) (data : JsValue) :
  falsy data = true ->
  Logger.info w message data = Logger.info w message JUndefined
  /\ Logger.debug w message data = Logger.debug w message JUndefined.
Proof.
  intros H%negb_true_iff.
  unfold Logger.debug, Logger.info, Logger.writeToFile, js_or.
  rewrite H. cbn [truthy]. split; reflexivity.
Qed.

Lemma falsy_payload_is_not_logged_witness :
  Logger.info offline "count" (JNum 0) = Logger.info offline "count" JUndefined.
Proof.
  exact (proj1 (falsy_payload_is_not_logged offline "count" (JNum 0) eq_refl)).
Defined.

(* ------------------------------------------------------------------ *)
(** ** The stdio-bound server: dispatch as a whole *)

Section StdioDispatch.
Variable w : World.
Variable this : CaminoMCPServer.t.

(** For a registered name, [executeTool] is the debug line followed by the
    handler: await the envelope, unwrap it. *)
Lemma executeTool_of_envelope tool args m :
  stdio_envelope w this tool args = Some m ->
  CaminoMCPServer.executeTool w this tool args
  = (CaminoMCPServer.Logger_debug w "Executing tool"
       (JObj [("name", JStr tool); ("args", args)]) ;;;
     (response <- m ;; ret (unwrap response))).
Proof.
  unfold stdio_envelope, CaminoMCPServer.executeTool. intros H.
  repeat match type of H with
         | context [String.eqb tool ?label] =>
             destruct (String.eqb_spec tool label) as [->|_];
             [injection H as <-; reflexivity|]
         end.
  discriminate H.
Qed.

Lemma stdio_envelope_registered tool args :
  In tool registered_names <-> stdio_envelope w this tool args <> None.
Proof.
  unfold stdio_envelope. split.
  - cbn. intros H.
    repeat destruct H as [<-|H]; try discriminate; contradiction.
  - intros H.
    repeat match type of H with
           | context [String.eqb tool ?label] =>
               destruct (String.eqb_spec tool label) as [->|_];
               [cbn; tauto|]
           end.
    now elim H.
Qed.

(** What the operation behind a registered name can end with. *)
Lemma stdio_envelope_outcomes tool args m :
  stdio_envelope w this tool args = Some m ->
  (exists env, outcome m = Normal env)
  \/ (outcome m = Throw Logger_unbound
      /\ In tool ["camino_place_context"; "camino_journey_planning";
                  "camino_route_planning"]).
Proof.
  unfold stdio_envelope. intros H.
  assert (Hno : forall (m' : Eff JsValue), throws m' = false ->
                                           exists env, outcome m' = Normal env).
  { intros [t [env|e]]; unfold throws; cbn; [eauto|discriminate]. }
  repeat match type of H with
         | context [String.eqb tool ?label] =>
             destruct (String.eqb_spec tool label) as [->|_];
             [injection H as <-|]
         end; try discriminate H.
  - left. apply Hno, executeQuery_never_throws.
  - left. apply Hno, executeSearch_never_throws.
  - left. apply Hno, calculateSpatialRelationship_never_throws.
  - destruct (Logger_operation_outcomes w (CaminoMCPServer.caminoApi this)
                (CaminoMCPServer.placeContextRequest args)) as [?|?];
      [left; assumption|right; split; [assumption|cbn; tauto]].
  - destruct (planJourney_outcomes w (CaminoMCPServer.caminoApi this)
                (CaminoMCPServer.journeyPlanningRequest args)) as [?|?];
      [left; assumption|right; split; [assumption|cbn; tauto]].
  - destruct (planRoute_outcomes w (CaminoMCPServer.caminoApi this)
                (CaminoMCPServer.routePlanningRequest args)) as [?|?];
      [left; assumption|right; split; [assumption|cbn; tauto]].
Qed.

(** The outcome of [executeTool] for a registered name, from the outcome
    of the operation behind it. *)
Lemma executeTool_outcome_of_envelope tool args m :
  stdio_envelope w this tool args = Some m ->
  outcome (CaminoMCPServer.executeTool w this tool args)
  = match outcome m with
    | Normal env => Normal (unwrap env)
    | Throw e => Throw e
    end.
Proof.
  intros H.
  destruct (executeTool_after_debug w this tool args _
              (executeTool_of_envelope tool args m H)) as (_ & _ & _ & ->).
  apply (proj2 (trace_bind_ret m unwrap)).
Qed.
End StdioDispatch.

(** X8: the tools a server advertises are the tools it dispatches.  For
    every name: it is among the names of [getTools] exactly when
    [executeTool] does not end in [Unknown tool: <name>], and exactly when
    the session factory has registered a tool under it; so both servers
    serve the same six names. *)
Theorem advertised_tools_are_dispatched
  (w : World) (this : CaminoMCPServer.t) (config : SessionConfig)
  (tool : string) (args : JsValue) :
  (In tool registered_names
   <-> outcome (CaminoMCPServer.executeTool w this tool args)
       <> Throw (new_Error "Error" ("Unknown tool: " ++ tool)))
  /\ (In tool registered_names
      <-> find_tool (StatelessServer.createStatelessServer w config) tool <> None).
Proof.
  split; split.
  - intros Hin Hout.
    apply (stdio_envelope_registered w this tool args) in Hin.
    destruct (stdio_envelope w this tool args) as [m|] eqn:E; [|now elim Hin].
    rewrite (executeTool_outcome_of_envelope w this tool args m E) in Hout.
    destruct (stdio_envelope_outcomes w this tool args m E) as [[env He]|[He _]];
      rewrite He in Hout; [discriminate Hout|].
    apply (f_equal (fun c => match c with
                             | Throw (JErr cls _) => String.eqb cls "Error"
                             | _ => false
                             end)) in Hout.
    discriminate Hout.
  - intros Hout.
    destruct (in_dec string_dec tool registered_names) as [Hin|Hnot]; [exact Hin|].
    exfalso. apply Hout.
    destruct (executeTool_after_debug w this tool args _
                (executeTool_default w this tool args Hnot)) as (_ & _ & _ & ->).
    reflexivity.
  - cbn. intros H.
    repeat destruct H as [<-|H]; try discriminate; contradiction.
  - intros H.
    destruct (in_dec string_dec tool registered_names) as [Hin|Hnot]; [exact Hin|].
    now rewrite (session_unknown_name w config tool Hnot) in H.
Qed.

(** X9: every way a stdio invocation can end.  For a name that is not
    registered the invocation fails with the protocol error of code
    [InternalError] and message [Tool execution failed: Unknown tool:
    <name>], and it never returns a result.  For a registered name it
    returns a text block, or, only for the place-context, journey and route
    tools, fails with [Tool execution failed: Logger is not defined].  So
    the unknown-tool error is raised exactly for the unregistered names, a
    result is returned only for registered ones, and nothing else is ever
    thrown to the SDK. *)
Theorem stdio_invocation_outcomes
  (w : World) (this : CaminoMCPServer.t) (tool : string) (args : JsValue) :
  (~ In tool registered_names ->
   outcome (CaminoMCPServer.callTool w this tool args)
   = Throw (McpError InternalError
              ("Tool execution failed: Unknown tool: " ++ tool)))
  /\ (In tool registered_names ->
      (exists v, outcome (CaminoMCPServer.callTool w this tool args)
                 = Normal (text_content (JSON_stringify w true v)))
      \/ (In tool ["camino_place_context"; "camino_journey_planning";
                   "camino_route_planning"]
          /\ outcome (CaminoMCPServer.callTool w this tool args)
             = Throw (McpError InternalError
                        "Tool execution failed: Logger is not defined")))
  /\ (outcome (CaminoMCPServer.callTool w this tool args)
      = Throw (McpError InternalError
                 ("Tool execution failed: Unknown tool: " ++ tool))
      <-> ~ In tool registered_names)
  /\ (forall v, outcome (CaminoMCPServer.callTool w this tool args) = Normal v ->
                In tool registered_names).
Proof.
  assert (Hunknown :
            ~ In tool registered_names ->
            outcome (CaminoMCPServer.callTool w this tool args)
            = Throw (McpError InternalError
                       ("Tool execution failed: Unknown tool: " ++ tool))).
  { intros Hnot.
    destruct (callTool_spec w this tool args) as [_ ->].
    destruct (executeTool_after_debug w this tool _ _
                (executeTool_default w this tool (js_or args (JObj [])) Hnot))
      as (_ & _ & _ & ->).
    reflexivity. }
  assert (Hknown :
            In tool registered_names ->
            (exists v, outcome (CaminoMCPServer.callTool w this tool args)
                       = Normal (text_content (JSON_stringify w true v)))
            \/ (In tool ["camino_place_context"; "camino_journey_planning";
                         "camino_route_planning"]
                /\ outcome (CaminoMCPServer.callTool w this tool args)
                   = Throw (McpError InternalError
                              "Tool execution failed: Logger is not defined"))).
  { intros Hin.
    destruct (callTool_spec w this tool args) as [_ ->].
    apply (stdio_envelope_registered w this tool (js_or args (JObj []))) in Hin.
    destruct (stdio_envelope w this tool (js_or args (JObj []))) as [m|] eqn:E;
      [|now elim Hin].
    rewrite (executeTool_outcome_of_envelope w this tool _ m E).
    destruct (stdio_envelope_outcomes w this tool _ m E) as [[env He]|[He Hin3]];
      rewrite He.
    - left. exists (unwrap env). reflexivity.
    - right. split; [exact Hin3|reflexivity]. }
  split; [exact Hunknown|]. split; [exact Hknown|]. split; [split|].
  - intros Hout Hin.
    destruct (Hknown Hin) as [[v Hv]|[_ Hl]].
    + rewrite Hv in Hout. discriminate Hout.
    + rewrite Hl in Hout.
      apply (f_equal (fun c => match c with
                               | Throw (JErr _ [_; (_, JStr m)]) =>
                                   match String.get 23 m with
                                   | Some ch => Ascii.eqb ch "L"%char
                                   | None => false
                                   end
                               | _ => false
                               end)) in Hout.
      discriminate Hout.
  - exact Hunknown.
  - intros v Hv.
    destruct (in_dec string_dec tool registered_names) as [Hin|Hnot]; [exact Hin|].
    rewrite (Hunknown Hnot) in Hv. discriminate Hv.
Qed.

Lemma stdio_invocation_outcomes_witness :
  outcome (CaminoMCPServer.callTool offline sample_server "camino_weather"
             (JObj [("query", JStr "cafes")]))
  = Throw (JErr "McpError"
             [("code", JNum (-32603));
              ("message", JStr "Tool execution failed: Unknown tool: camino_weather")]).
Proof.
  apply (proj1 (stdio_invocation_outcomes offline sample_server "camino_weather"
                  (JObj [("query", JStr "cafes")]))).
  cbn. intros H. repeat destruct H as [H|H]; try discriminate H; exact H.
Defined.

(* ------------------------------------------------------------------ *)
(** ** The log file during an invocation *)

Lemma quiet_console_error c w label arg :
  c <> Stderr -> quiet c (console_error w label arg).
Proof. intros H. unfold console_error. now apply quiet_emit_other. Qed.

(** [Logger.error] as written in [camino-api.ts] stops at the unbound
    identifier: it writes nowhere. *)
Lemma quiet_unbound_Logger_error c w message err :
  quiet c (CaminoApiService.Logger_error w message err).
Proof. reflexivity. Qed.

(** No operation of the client ever writes to the log file. *)
Lemma operations_quiet_on_log w this request :
  quiet LogFile (CaminoApiService.executeQuery w this request)
  /\ quiet LogFile (CaminoApiService.executeSearch w this request)
  /\ quiet LogFile (CaminoApiService.calculateSpatialRelationship w this request)
  /\ quiet LogFile (CaminoApiService.getPlaceContext w this request)
  /\ quiet LogFile (CaminoApiService.planJourney w this request)
  /\ quiet LogFile (CaminoApiService.planRoute w this request).
Proof.
  assert (Hc : forall label arg, quiet LogFile (console_error w label arg))
    by (intros; apply quiet_console_error; discriminate).
  assert (Hl : forall message err,
             quiet LogFile (CaminoApiService.Logger_error w message err))
    by (intros; apply quiet_unbound_Logger_error).
  unfold CaminoApiService.executeQuery, CaminoApiService.executeSearch,
         CaminoApiService.calculateSpatialRelationship,
         CaminoApiService.getPlaceContext, CaminoApiService.planJourney,
         CaminoApiService.planRoute,
         CaminoApiService.client_get, CaminoApiService.client_post.
  repeat split;
    (apply quiet_try_catch;
     [ auto 10 using quiet_bind, quiet_send, quiet_ret, quiet_array_map,
                     quiet_wire_waypoint
     | intros e; apply quiet_bind; [auto|intros; apply quiet_ret] ]).
Qed.

Lemma stdio_handlers_quiet_on_log w this tool args m :
  stdio_envelope w this tool args = Some m -> quiet LogFile m.
Proof.
  unfold stdio_envelope. intros H.
  repeat match type of H with
         | context [String.eqb tool ?label] =>
             destruct (String.eqb_spec tool label) as [->|_];
             [injection H as <-|]
         end; try discriminate H;
    match goal with
    | |- quiet LogFile (_ _ ?api ?request) =>
        pose proof (operations_quiet_on_log w api request); tauto
    end.
Qed.

(** X10: the log file sees tool invocations only in debug mode.  With the
    debug flag off no stdio invocation appends anything to the log file,
    not even when the upstream call fails.  With the debug flag on and a
    writable file, the invocation first appends one DEBUG line,
    [Executing tool] with the name and the arguments, before anything else
    happens, and appends nothing after it. *)
Theorem stdio_log_file_only_in_debug_mode
  (w : World) (this : CaminoMCPServer.t) (tool : string) (args : JsValue) :
  (debugMode w = false ->
   written LogFile (trace (CaminoMCPServer.callTool w this tool args)) = [])
  /\ (debugMode w = true -> append_ok w = true ->
      exists rest,
        trace (CaminoMCPServer.callTool w this tool args)
        = EvWrite LogFile
            (render w false
               (JObj [("timestamp", JStr (now_iso w));
                      ("level", JStr "DEBUG");
                      ("message", JStr "Executing tool");
                      ("data", JObj [("name", JStr tool);
                                     ("args", js_or args (JObj []))])])
             ++ newline)
          :: rest
        /\ written LogFile rest = []).
Proof.
  destruct (callTool_spec w this tool args) as [-> _].
  set (a := js_or args (JObj [])).
  assert (Hbody : exists body,
             CaminoMCPServer.executeTool w this tool a
             = (CaminoMCPServer.Logger_debug w "Executing tool"
                  (JObj [("name", JStr tool); ("args", a)]) ;;; body)
             /\ written LogFile (trace body) = []).
  { destruct (stdio_envelope w this tool a) as [m|] eqn:E.
    - eexists. split; [exact (executeTool_of_envelope w this tool a m E)|].
      apply (quiet_bind LogFile m (fun response => ret (unwrap response))).
      + exact (stdio_handlers_quiet_on_log w this tool a m E).
      + intros. apply quiet_ret.
    - eexists. split.
      + apply executeTool_default. intros Hin.
        apply (stdio_envelope_registered w this tool a) in Hin. now elim Hin.
      + reflexivity. }
  destruct Hbody as (body & -> & Hq).
  unfold CaminoMCPServer.Logger_debug, Logger.debug, Logger.writeToFile.
  cbn [ident existsb String.eqb Ascii.eqb Bool.eqb CaminoMCPServer.module_scope orb].
  split.
  - intros ->. cbn. destruct body as [t r]. exact Hq.
  - intros -> ->. cbn. destruct body as [t r]. cbn in *.
    exists t. split; [reflexivity|exact Hq].
Qed.

Lemma stdio_log_file_only_in_debug_mode_witness :
  written LogFile
    (trace (CaminoMCPServer.callTool offline sample_server "camino_query"
              (JObj [("query", JStr "cafes")])))
  = [].
Proof.
  exact (proj1 (stdio_log_file_only_in_debug_mode
                  offline sample_server "camino_query"
                  (JObj [("query", JStr "cafes")])) eq_refl).
Defined.

(* ------------------------------------------------------------------ *)
(** ** camino_spatial_relationship: the include list *)

(** X11: the default of [include] replaces falsy values only.  The
    stdio-bound server posts to [/relationship] the caller's [include] list
    whenever one is given, even the empty list (an array is truthy), and
    the four kinds [distance, direction, travel_time, description] when
    [include] is omitted, null or otherwise falsy. *)
Theorem spatial_include_default
  (w : World) (this : CaminoMCPServer.t) (args : JsValue) :
  exists include,
    http_calls
      (trace (CaminoMCPServer.callTool w this "camino_spatial_relationship" args))
    = [issued (CaminoMCPServer.caminoApi this) POST "/relationship" JUndefined
         (JObj [("start",
                 JObj [("lat", get (js_or args (JObj [])) "start_latitude");
                       ("lon", get (js_or args (JObj [])) "start_longitude")]);
                ("end",
                 JObj [("lat", get (js_or args (JObj [])) "end_latitude");
                       ("lon", get (js_or args (JObj [])) "end_longitude")]);
                ("include", include)])]
    /\ (forall items,
          get (js_or args (JObj [])) "include" = JArr items -> include = JArr items)
    /\ (falsy (get (js_or args (JObj [])) "include") = true ->
        include = JArr [JStr "distance"; JStr "direction";
                        JStr "travel_time"; JStr "description"]).
Proof.
  exists (js_or (get (js_or args (JObj [])) "include")
                (JArr [JStr "distance"; JStr "direction";
                       JStr "travel_time"; JStr "description"])).
  split; [|split].
  - destruct (callTool_spec w this "camino_spatial_relationship" args) as [-> _].
    destruct (executeTool_after_debug w this "camino_spatial_relationship"
                (js_or args (JObj []))
                (CaminoMCPServer.executeSpatialRelationshipTool w this
                   (js_or args (JObj [])))
                eq_refl) as (-> & _).
    unfold CaminoMCPServer.executeSpatialRelationshipTool.
    rewrite (proj1 (trace_bind_ret _ unwrap)).
    rewrite calculateSpatialRelationship_calls. reflexivity.
  - intros items ->. reflexivity.
  - intros H%negb_true_iff. unfold js_or at 1. now rewrite H.
Qed.

Lemma spatial_include_default_witness :
  exists include,
    http_calls
      (trace (CaminoMCPServer.callTool offline sample_server
                "camino_spatial_relationship"
                (JObj [("start_latitude", JNum 40.75); ("include", JArr [])])))
    = [issued sample_api POST "/relationship" JUndefined
         (JObj [("start", JObj [("lat", JNum 40.75); ("lon", JUndefined)]);
                ("end", JObj [("lat", JUndefined); ("lon", JUndefined)]);
                ("include", include)])]
    /\ include = JArr [].
Proof.
  destruct (spatial_include_default offline sample_server
              (JObj [("start_latitude", JNum 40.75); ("include", JArr [])]))
    as (include & Hc & Hi & _).
  exists include. split; [exact Hc|exact (Hi [] eq_refl)].
Defined.

(* ------------------------------------------------------------------ *)
(** ** Parameter schemas: what a parsed value is *)

Lemma safeParse_object_unfold fs shape :
  safeParse (z_object shape) (JObj fs) = option_map JObj (parse_fields fs shape).
Proof.
  induction shape as [|[k s] shape IH]; [reflexivity|].
  cbn [safeParse parse_fields] in *.
  match type of IH with
  | match ?e with _ => _ end = _ =>
      assert (He : e = parse_fields fs shape)
        by (destruct e, (parse_fields fs shape); cbn in IH; congruence);
      rewrite He
  end.
  destruct (safeParse s (assoc k fs)) as [[]|], (parse_fields fs shape); reflexivity.
Qed.

Lemma safeParse_array_unfold item n l :
  safeParse (z_array item n) (JArr l)
  = match parse_items item l with
    | Some l' => if Nat.leb n (length l) then Some (JArr l') else None
    | None => None
    end.
Proof.
  cbn [safeParse].
  match goal with
  | |- match ?e with _ => _ end = _ =>
      assert (He : e = parse_items item l);
      [|rewrite He; reflexivity]
  end.
  induction l as [|x l IH]; [reflexivity|].
  cbn [parse_items]. now rewrite IH.
Qed.

(** Only objects pass an object schema, only arrays an array schema. *)
Lemma safeParse_object_inv shape v parsed :
  safeParse (z_object shape) v = Some parsed ->
  exists fs out, v = JObj fs /\ parsed = JObj out /\ parse_fields fs shape = Some out.
Proof.
  destruct v; try (cbn [safeParse]; discriminate). rewrite safeParse_object_unfold.
  destruct (parse_fields fields shape) as [out|] eqn:E; [|discriminate].
  intros [= <-]. exists fields, out. auto.
Qed.

Lemma safeParse_array_inv item n v parsed :
  safeParse (z_array item n) v = Some parsed ->
  exists l l', v = JArr l /\ parsed = JArr l'
               /\ parse_items item l = Some l' /\ n <= length l.
Proof.
  destruct v; try (cbn [safeParse]; discriminate). rewrite safeParse_array_unfold.
  destruct (parse_items item items) as [l'|] eqn:E; [|discriminate].
  destruct (Nat.leb_spec n (length items)); [|discriminate].
  intros [= <-]. exists items, l'. auto.
Qed.

(** A key the shape does not declare is absent from the parsed object. *)
Lemma parse_fields_undeclared fs shape out k :
  parse_fields fs shape = Some out ->
  ~ In k (map fst shape) ->
  assoc k out = JUndefined.
Proof.
  revert out. induction shape as [|[k0 s0] shape IH]; intros out.
  - intros [= <-] _. reflexivity.
  - cbn [parse_fields map fst In].
    destruct (safeParse s0 (assoc k0 fs)) as [x|]; [|discriminate].
    destruct (parse_fields fs shape) as [rest|]; [|now destruct x].
    intros H Hk.
    assert (Hne : String.eqb k k0 = false)
      by (apply String.eqb_neq; intros ->; apply Hk; now left).
    assert (Hrest : assoc k rest = JUndefined) by (apply IH; [reflexivity|tauto]).
    destruct x; injection H as <-; cbn [assoc]; rewrite ?Hne; exact Hrest.
Qed.

(** Every declared property parses, and the parsed object holds the parsed
    value under its key. *)
Lemma parse_fields_get fs shape out k s :
  NoDup (map fst shape) ->
  parse_fields fs shape = Some out ->
  In (k, s) shape ->
  exists v, safeParse s (assoc k fs) = Some v /\ assoc k out = v.
Proof.
  revert out. induction shape as [|[k0 s0] shape IH]; intros out Hnd H Hin.
  - destruct Hin.
  - cbn [parse_fields] in H. cbn [map fst] in Hnd.
    apply NoDup_cons_iff in Hnd. destruct Hnd as [Hk0 Hnd].
    destruct (safeParse s0 (assoc k0 fs)) as [x|] eqn:Ex; [|discriminate].
    destruct (parse_fields fs shape) as [rest|] eqn:Er; [|now destruct x].
    destruct Hin as [[= <- <-]|Hin].
    + exists x. split; [exact Ex|].
      pose proof (parse_fields_undeclared fs shape rest k0 Er Hk0) as Hu.
      destruct x; injection H as <-; cbn [assoc]; rewrite ?String.eqb_refl;
        try reflexivity; exact Hu.
    + destruct (IH rest Hnd eq_refl Hin) as (v & Hv & Hget).
      exists v. split; [exact Hv|].
      assert (Hne : String.eqb k k0 = false).
      { apply String.eqb_neq. intros ->. apply Hk0.
        change k0 with (fst (k0, s)). now apply in_map. }
      destruct x; injection H as <-; cbn [assoc]; rewrite ?Hne; exact Hget.
Qed.

(** What the schemas of [index.ts] let through. *)
Lemma safeParse_string_inv v v' :
  safeParse z_string v = Some v' -> exists s, v' = JStr s.
Proof. destruct v; try discriminate. intros [= <-]. eauto. Qed.

Lemma safeParse_boolean_default_inv d v v' :
  safeParse (z_default z_boolean (JBool d)) v = Some v' -> exists b, v' = JBool b.
Proof. destruct v; try discriminate; intros [= <-]; eauto. Qed.

Lemma safeParse_number_inv lo hi v v' :
  safeParse (z_number lo hi) v = Some v' ->
  exists x, v' = JNum x /\ PrimFloat.eqb x x = true
            /\ at_least lo x = true /\ at_most hi x = true.
Proof.
  destruct v; try discriminate. cbn [safeParse].
  destruct (PrimFloat.eqb x x) eqn:E1; [|discriminate].
  destruct (at_least lo x) eqn:E2; [|discriminate].
  destruct (at_most hi x) eqn:E3; [|discriminate].
  intros [= <-]. eauto.
Qed.

Lemma safeParse_number_default_inv lo hi d v v' :
  PrimFloat.eqb d d = true -> at_least lo d = true -> at_most hi d = true ->
  safeParse (z_default (z_number lo hi) (JNum d)) v = Some v' ->
  exists x, v' = JNum x /\ PrimFloat.eqb x x = true
            /\ at_least lo x = true /\ at_most hi x = true.
Proof.
  intros Hd Hlo Hhi. destruct v;
    try (cbn [safeParse]; discriminate).
  - intros [= <-]. eauto.
  - intros H. exact (safeParse_number_inv lo hi (JNum x) v' H).
Qed.

Lemma safeParse_enum_default_inv values d v v' :
  In d values ->
  safeParse (z_default (z_enum values) (JStr d)) v = Some v' ->
  exists s, v' = JStr s /\ In s values.
Proof.
  intros Hd. destruct v; try (cbn [safeParse]; discriminate).
  - intros [= <-]. eauto.
  - cbn [safeParse]. destruct (existsb (String.eqb s) values) eqn:E; [|discriminate].
    intros [= <-]. exists s. split; [reflexivity|].
    apply existsb_exists in E. destruct E as (s' & Hin & He).
    apply String.eqb_eq in He. now subst.
Qed.

Lemma safeParse_optional_string_inv v v' :
  safeParse (z_optional z_string) v = Some v' ->
  v' = JUndefined \/ exists s, v' = JStr s.
Proof. destruct v; try discriminate; intros [= <-]; eauto. Qed.

Lemma safeParse_optional_number_inv v v' :
  safeParse (z_optional (z_number None None)) v = Some v' ->
  v' = JUndefined \/ exists x, v' = JNum x /\ PrimFloat.eqb x x = true.
Proof.
  destruct v; try discriminate; try (intros [= <-]; eauto).
  intros H. destruct (safeParse_number_inv None None (JNum x) v' H) as (y & -> & Hy & _).
  eauto.
Qed.

Lemma parse_fields_fails fs shape k s :
  In (k, s) shape ->
  safeParse s (assoc k fs) = None ->
  parse_fields fs shape = None.
Proof.
  induction shape as [|[k0 s0] shape IH]; [intros []|].
  intros Hin Hnone. destruct Hin as [Heq|Hin]; cbn [parse_fields].
  - injection Heq as -> ->. now rewrite Hnone.
  - rewrite (IH Hin Hnone). now destruct (safeParse s0 (assoc k0 fs)) as [[]|].
Qed.

(** Proves that the keys of a literal shape are pairwise distinct. *)
Ltac distinct_keys :=
  cbn [map fst];
  repeat (apply NoDup_cons;
          [cbn; intros H; repeat destruct H as [H|H]; try discriminate H; exact H|]);
  apply NoDup_nil.

(* ------------------------------------------------------------------ *)
(** ** The session factory: what reaches the remote service *)

(** X12: every [/query] call of the session factory is within bounds.
    Whatever arguments arrive, if the callback of [camino_query] runs, the
    one call it issues is a GET of [/query] whose [q] is a string, whose
    [radius] is a number in [100, 50000], whose [limit] is a number in
    [1, 100] and whose [rank] and [answer] are booleans. *)
Theorem session_query_call_is_within_bounds
  (w : World) (config : SessionConfig) (args : JsValue) (run : Eff JsValue) :
  StatelessServer.invoke w config "camino_query" args = Handled run ->
  exists query lat lon radius limit rank answer,
    http_calls (trace run)
    = [issued (StatelessServer.caminoApi config) GET "/query"
         (JObj [("q", JStr query);
                ("lat", lat);
                ("lon", lon);
                ("radius", JNum radius);
                ("rank", JBool rank);
                ("limit", JNum limit);
                ("answer", JBool answer)])
         JUndefined]
    /\ PrimFloat.leb 100 radius = true /\ PrimFloat.leb radius 50000 = true
    /\ PrimFloat.leb 1 limit = true /\ PrimFloat.leb limit 100 = true.
Proof.
  unfold StatelessServer.invoke, tools_call.
  cbn [find_tool StatelessServer.createStatelessServer tool_name
       StatelessServer.camino_query String.eqb Ascii.eqb Bool.eqb].
  destruct (safeParse (z_object (paramsSchema (StatelessServer.camino_query w config)))
              args) as [parsed|] eqn:E; [|discriminate].
  intros [= <-].
  apply safeParse_object_inv in E. destruct E as (fs & out & -> & -> & Hpf).
  cbn [paramsSchema StatelessServer.camino_query] in Hpf.
  assert (Hnd : NoDup (map fst
            [("query", z_string);
             ("latitude", z_optional (z_number None None));
             ("longitude", z_optional (z_number None None));
             ("radius", z_default (z_number (Some 100%float) (Some 50000%float)) (JNum 1000));
             ("limit", z_default (z_number (Some 1%float) (Some 100%float)) (JNum 20));
             ("rank", z_default z_boolean (JBool true));
             ("generate_answer", z_default z_boolean (JBool true))]))
    by distinct_keys.
  destruct (parse_fields_get fs _ out "query" _ Hnd Hpf ltac:(cbn; tauto))
    as (vq & Hq & Gq).
  destruct (parse_fields_get fs _ out "radius" _ Hnd Hpf ltac:(cbn; tauto))
    as (vr & Hr & Gr).
  destruct (parse_fields_get fs _ out "limit" _ Hnd Hpf ltac:(cbn; tauto))
    as (vl & Hl & Gl).
  destruct (parse_fields_get fs _ out "rank" _ Hnd Hpf ltac:(cbn; tauto))
    as (vk & Hk & Gk).
  destruct (parse_fields_get fs _ out "generate_answer" _ Hnd Hpf ltac:(cbn; tauto))
    as (va & Ha & Ga).
  apply safeParse_string_inv in Hq. destruct Hq as (query & ->).
  apply safeParse_number_default_inv in Hr; [|reflexivity..].
  destruct Hr as (radius & -> & _ & Hr1 & Hr2).
  apply safeParse_number_default_inv in Hl; [|reflexivity..].
  destruct Hl as (limit & -> & _ & Hl1 & Hl2).
  apply safeParse_boolean_default_inv in Hk. destruct Hk as (rank & ->).
  apply safeParse_boolean_default_inv in Ha. destruct Ha as (answer & ->).
  exists query, (assoc "latitude" out), (assoc "longitude" out),
         radius, limit, rank, answer.
  split; [|cbn in Hr1, Hr2, Hl1, Hl2; auto].
  cbn [callback StatelessServer.camino_query].
  rewrite (proj1 (trace_bind_ret _ (StatelessServer.reply w))).
  rewrite executeQuery_calls.
  cbn [get assoc String.eqb Ascii.eqb Bool.eqb].
  cbn [get] in Gq, Gr, Gl, Gk, Ga.
  now rewrite Gq, Gr, Gl, Gk, Ga.
Qed.

Lemma session_query_call_is_within_bounds_witness :
  exists query lat lon radius limit rank answer,
    http_calls
      (trace (callback (StatelessServer.camino_query offline sample_config)
                (JObj [("query", JStr "cafes"); ("radius", JNum 250);
                       ("limit", JNum 20); ("rank", JBool true);
                       ("generate_answer", JBool true)])))
    = [issued sample_api GET "/query"
         (JObj [("q", JStr query); ("lat", lat); ("lon", lon);
                ("radius", JNum radius); ("rank", JBool rank);
                ("limit", JNum limit); ("answer", JBool answer)])
         JUndefined]
    /\ PrimFloat.leb 100 radius = true /\ PrimFloat.leb radius 50000 = true
    /\ PrimFloat.leb 1 limit = true /\ PrimFloat.leb limit 100 = true.
Proof.
  exact (session_query_call_is_within_bounds offline sample_config
           (JObj [("query", JStr "cafes"); ("radius", JNum 250)]) _ eq_refl).
Defined.

(** A waypoint that passes the schema comes out as exactly its three
    properties, with the coordinates and the purpose it came in with. *)
Lemma safeParse_waypoint_inv x x' :
  safeParse waypoint_schema x = Some x' ->
  exists p, x' = upstream_waypoint p
            /\ (get x "lat", get x "lon", get x "purpose")
               = (JNum (fst (fst p)), JNum (snd (fst p)), JStr (snd p)).
Proof.
  intros H. apply safeParse_object_inv in H.
  destruct H as (fs & out & -> & -> & H).
  cbn [parse_fields] in H.
  destruct (safeParse (z_number None None) (assoc "lat" fs)) as [a|] eqn:Ea;
    [|discriminate].
  destruct (safeParse_number_inv None None _ a Ea) as (lat & -> & _).
  destruct (safeParse (z_number None None) (assoc "lon" fs)) as [b|] eqn:Eb;
    [|discriminate].
  destruct (safeParse_number_inv None None _ b Eb) as (lon & -> & _).
  destruct (safeParse z_string (assoc "purpose" fs)) as [c|] eqn:Ec;
    [|discriminate].
  destruct (safeParse_string_inv _ c Ec) as (purpose & ->).
  injection H as <-.
  exists (lat, lon, purpose). split; [reflexivity|].
  cbn [get fst snd].
  destruct (assoc "lat" fs); try discriminate Ea.
  destruct (assoc "lon" fs); try discriminate Eb.
  destruct (assoc "purpose" fs); try discriminate Ec.
  cbn [safeParse] in Ea, Eb.
  destruct (PrimFloat.eqb x x && at_least None x && at_most None x);
    [|discriminate Ea].
  destruct (PrimFloat.eqb x0 x0 && at_least None x0 && at_most None x0);
    [|discriminate Eb].
  injection Ea as ->. injection Eb as ->. injection Ec as ->. reflexivity.
Qed.

Lemma parse_items_waypoints_inv l l' :
  parse_items waypoint_schema l = Some l' ->
  exists wps,
    l' = map upstream_waypoint wps
    /\ map (fun x => (get x "lat", get x "lon", get x "purpose")) l
       = map (fun p => (JNum (fst (fst p)), JNum (snd (fst p)), JStr (snd p))) wps.
Proof.
  revert l'. induction l as [|x l IH]; intros l'.
  - intros [= <-]. exists []. split; reflexivity.
  - cbn [parse_items].
    destruct (safeParse waypoint_schema x) as [x'|] eqn:Ex; [|discriminate].
    destruct (parse_items waypoint_schema l) as [rest|]; [|discriminate].
    intros [= <-].
    destruct (safeParse_waypoint_inv x x' Ex) as (p & -> & Hp).
    destruct (IH rest eq_refl) as (wps & -> & Hw).
    exists (p :: wps). split; [reflexivity|].
    cbn [map]. now rewrite Hp, Hw.
Qed.

(** Waypoints in the wire shape go through [planJourney]'s mapping
    unchanged. *)
Lemma mapM_upstream_waypoints wps :
  mapM CaminoApiService.wire_waypoint (map upstream_waypoint wps)
  = ([], Normal (map upstream_waypoint wps)).
Proof.
  induction wps as [|[[latitude longitude] purpose] wps IH]; [reflexivity|].
  cbn [map mapM]. rewrite IH. reflexivity.
Qed.

(** X13: what the session factory sends to [/journey] is what the caller
    supplied.  Whatever arguments arrive, if the callback of
    [camino_journey_planning] runs, the supplied [waypoints] were an array
    of at least two items with numeric [lat] and [lon] and a string
    [purpose]; the one call is a POST of [/journey] whose waypoints are
    those items, in order, with exactly these three properties, whose
    [transport] is one of walking, driving, cycling, and whose
    [time_budget] is a string or undefined. *)
Theorem session_journey_posts_supplied_waypoints
  (w : World) (config : SessionConfig) (args : JsValue) (run : Eff JsValue) :
  StatelessServer.invoke w config "camino_journey_planning" args = Handled run ->
  exists items wps transport time_budget,
    get args "waypoints" = JArr items
    /\ 2 <= length items
    /\ map (fun x => (get x "lat", get x "lon", get x "purpose")) items
       = map (fun p => (JNum (fst (fst p)), JNum (snd (fst p)), JStr (snd p))) wps
    /\ In transport ["walking"; "driving"; "cycling"]
    /\ (time_budget = JUndefined \/ exists s, time_budget = JStr s)
    /\ http_calls (trace run)
       = [issued (StatelessServer.caminoApi config) POST "/journey" JUndefined
            (JObj [("waypoints", JArr (map upstream_waypoint wps));
                   ("constraints",
                    JObj [("transport", JStr transport);
                          ("time_budget", time_budget)])])].
Proof.
  unfold StatelessServer.invoke, tools_call.
  cbn [find_tool StatelessServer.createStatelessServer tool_name
       StatelessServer.camino_query StatelessServer.camino_search
       StatelessServer.camino_spatial_relationship StatelessServer.camino_place_context
       StatelessServer.camino_journey_planning String.eqb Ascii.eqb Bool.eqb].
  destruct (safeParse
              (z_object (paramsSchema (StatelessServer.camino_journey_planning w config)))
              args) as [parsed|] eqn:E; [|discriminate].
  intros [= <-].
  apply safeParse_object_inv in E. destruct E as (fs & out & -> & -> & Hpf).
  cbn [paramsSchema StatelessServer.camino_journey_planning] in Hpf.
  change (z_object [("lat", z_number None None); ("lon", z_number None None);
                    ("purpose", z_string)])
    with waypoint_schema in Hpf.
  assert (Hnd : NoDup (map fst
            [("waypoints", z_array waypoint_schema 2);
             ("transport_mode",
              z_default (z_enum ["walking"; "driving"; "cycling"]) (JStr "walking"));
             ("time_budget", z_optional z_string)]))
    by distinct_keys.
  destruct (parse_fields_get fs _ out "waypoints" _ Hnd Hpf ltac:(cbn; tauto))
    as (vw & Hw & Gw).
  destruct (parse_fields_get fs _ out "transport_mode" _ Hnd Hpf ltac:(cbn; tauto))
    as (vt & Ht & Gt).
  destruct (parse_fields_get fs _ out "time_budget" _ Hnd Hpf ltac:(cbn; tauto))
    as (vb & Hb & Gb).
  apply safeParse_array_inv in Hw.
  destruct Hw as (items & items' & Hitems & -> & Hparse & Hlen).
  destruct (parse_items_waypoints_inv items items' Hparse) as (wps & -> & Hsame).
  apply safeParse_enum_default_inv in Ht; [|cbn; tauto].
  destruct Ht as (transport & -> & Hin).
  apply safeParse_optional_string_inv in Hb.
  exists items, wps, transport, vb.
  repeat split; try assumption.
  cbn [callback StatelessServer.camino_journey_planning].
  rewrite (proj1 (trace_bind_ret _ (StatelessServer.reply w))).
  rewrite planJourney_calls.
  cbn [get assoc String.eqb Ascii.eqb Bool.eqb].
  cbn [get] in Gw, Gt, Gb. rewrite Gw, Gt, Gb.
  cbn [CaminoApiService.array_map]. rewrite mapM_upstream_waypoints.
  cbn [bind ret app]. unfold journey_body.
  cbn [get assoc String.eqb Ascii.eqb Bool.eqb]. rewrite ?Gt, ?Gb.
  assert (Htruthy : js_or (JStr transport) (JStr "walking") = JStr transport).
  { cbn in Hin. destruct Hin as [<-|[<-|[<-|[]]]]; reflexivity. }
  now rewrite Htruthy.
Qed.

Lemma session_journey_posts_supplied_waypoints_witness :
  exists items wps transport time_budget,
    get (JObj [("waypoints",
                JArr [upstream_waypoint (40.75, -73.5, "pickup coffee")%float;
                      upstream_waypoint (40.5, -73.75, "business meeting")%float])])
        "waypoints" = JArr items
    /\ 2 <= length items
    /\ map (fun x => (get x "lat", get x "lon", get x "purpose")) items
       = map (fun p => (JNum (fst (fst p)), JNum (snd (fst p)), JStr (snd p))) wps
    /\ In transport ["walking"; "driving"; "cycling"]
    /\ (time_budget = JUndefined \/ exists s, time_budget = JStr s)
    /\ http_calls
         (trace (callback (StatelessServer.camino_journey_planning offline sample_config)
                   (JObj [("waypoints",
                           JArr [upstream_waypoint (40.75, -73.5, "pickup coffee")%float;
                                 upstream_waypoint (40.5, -73.75, "business meeting")%float]);
                          ("transport_mode", JStr "walking")])))
       = [issued sample_api POST "/journey" JUndefined
            (JObj [("waypoints", JArr (map upstream_waypoint wps));
                   ("constraints",
                    JObj [("transport", JStr transport);
                          ("time_budget", time_budget)])])].
Proof.
  exact (session_journey_posts_supplied_waypoints offline sample_config
           (JObj [("waypoints",
                   JArr [upstream_waypoint (40.75, -73.5, "pickup coffee")%float;
                         upstream_waypoint (40.5, -73.75, "business meeting")%float])])
           _ eq_refl).
Defined.

(** X14: only the session factory enforces the bounds of [radius].  The
    descriptor the stdio-bound server advertises for [camino_query] declares
    [radius] with minimum 100 and maximum 50000, the bounds of the session
    factory's schema.  Yet for a non-zero radius outside [100, 50000] the
    stdio-bound server still issues the [/query] call with that radius,
    while the session factory turns the invocation away before its callback
    runs. *)
Theorem radius_bounds_enforced_by_session_only
  (w : World) (this : CaminoMCPServer.t) (config : SessionConfig)
  (query : string) (x : float) :
  truthy (JNum x) = true ->
  PrimFloat.leb 100 x && PrimFloat.leb x 50000 = false ->
  declared "camino_query" "radius" "minimum" = JNum 100
  /\ declared "camino_query" "radius" "maximum" = JNum 50000
  /\ In ("radius",
         z_default (z_number (Some 100%float) (Some 50000%float)) (JNum 1000))
        (paramsSchema (StatelessServer.camino_query w config))
  /\ http_calls
       (trace (CaminoMCPServer.callTool w this "camino_query"
                 (JObj [("query", JStr query); ("radius", JNum x)])))
     = [issued (CaminoMCPServer.caminoApi this) GET "/query"
          (JObj [("q", JStr query);
                 ("lat", JUndefined);
                 ("lon", JUndefined);
                 ("radius", JNum x);
                 ("rank", JBool true);
                 ("limit", JNum 20);
                 ("answer", JBool true)])
          JUndefined]
  /\ StatelessServer.invoke w config "camino_query"
       (JObj [("query", JStr query); ("radius", JNum x)])
     = InvalidArguments.
Proof.
  intros Htruthy Hout.
  split; [reflexivity|]. split; [reflexivity|]. split; [cbn; tauto|]. split.
  - rewrite stdio_query_call.
    change (js_or (JObj [("query", JStr query); ("radius", JNum x)]) (JObj []))
      with (JObj [("query", JStr query); ("radius", JNum x)]).
    cbn [get assoc String.eqb Ascii.eqb Bool.eqb].
    unfold js_or at 1. rewrite Htruthy. reflexivity.
  - unfold StatelessServer.invoke, tools_call.
    cbn [find_tool StatelessServer.createStatelessServer tool_name
         StatelessServer.camino_query String.eqb Ascii.eqb Bool.eqb].
    rewrite safeParse_object_unfold.
    rewrite (parse_fields_fails _ _ "radius"
               (z_default (z_number (Some 100%float) (Some 50000%float)) (JNum 1000)));
      [reflexivity|cbn; tauto|].
    cbn [assoc String.eqb Ascii.eqb Bool.eqb safeParse at_least at_most].
    destruct (PrimFloat.eqb x x); cbn [andb]; [now rewrite Hout|reflexivity].
Qed.

Lemma radius_bounds_enforced_by_session_only_witness :
  declared "camino_query" "radius" "minimum" = JNum 100
  /\ StatelessServer.invoke offline sample_config "camino_query"
       (JObj [("query", JStr "cafes"); ("radius", JNum 50)])
     = InvalidArguments.
Proof.
  destruct (radius_bounds_enforced_by_session_only
              offline sample_server sample_config "cafes" 50%float
              eq_refl eq_refl) as (Hmin & _ & _ & _ & Hrej).
  split; [exact Hmin|exact Hrej].
Defined.

(** X15: the [debug] option of the session configuration is never read:
    two configurations that differ only in it give servers that treat every
    invocation alike. *)
Theorem session_debug_option_is_ignored
  (w : World) (key base : string) (debug debug' : bool)
  (tool : string) (args : JsValue) :
  StatelessServer.invoke w
    {| cfg_apiKey := key; cfg_baseUrl := base; cfg_debug := debug |} tool args
  = StatelessServer.invoke w
      {| cfg_apiKey := key; cfg_baseUrl := base; cfg_debug := debug' |} tool args.
Proof. reflexivity. Qed.

Lemma safeParse_number_same lo hi v v' :
  safeParse (z_number lo hi) v = Some v' -> v' = v.
Proof.
  destruct v; try discriminate. cbn [safeParse].
  destruct (PrimFloat.eqb x x && at_least lo x && at_most hi x); [|discriminate].
  now intros [= <-].
Qed.

(** X16: every [/route] call of the session factory carries checked
    values.  Whatever arguments arrive, if the callback of
    [camino_route_planning] runs, the four coordinates supplied were numbers
    (not NaN) and are sent unchanged as [start_lat], [start_lon], [end_lat],
    [end_lon]; [mode] is one of car, bike, foot and [include_geometry] is a
    boolean. *)
Theorem session_route_call_is_checked
  (w : World) (config : SessionConfig) (args : JsValue) (run : Eff JsValue) :
  StatelessServer.invoke w config "camino_route_planning" args = Handled run ->
  exists a b c d mode geometry,
    (get args "start_latitude", get args "start_longitude",
     get args "end_latitude", get args "end_longitude")
    = (JNum a, JNum b, JNum c, JNum d)
    /\ PrimFloat.eqb a a = true /\ PrimFloat.eqb b b = true
    /\ PrimFloat.eqb c c = true /\ PrimFloat.eqb d d = true
    /\ In mode ["car"; "bike"; "foot"]
    /\ http_calls (trace run)
       = [issued (StatelessServer.caminoApi config) GET "/route"
            (JObj [("start_lat", JNum a);
                   ("start_lon", JNum b);
                   ("end_lat", JNum c);
                   ("end_lon", JNum d);
                   ("mode", JStr mode);
                   ("include_geometry", JBool geometry)])
            JUndefined].
Proof.
  unfold StatelessServer.invoke, tools_call.
  cbn [find_tool StatelessServer.createStatelessServer tool_name
       StatelessServer.camino_query StatelessServer.camino_search
       StatelessServer.camino_spatial_relationship StatelessServer.camino_place_context
       StatelessServer.camino_journey_planning StatelessServer.camino_route_planning
       String.eqb Ascii.eqb Bool.eqb].
  destruct (safeParse
              (z_object (paramsSchema (StatelessServer.camino_route_planning w config)))
              args) as [parsed|] eqn:E; [|discriminate].
  intros [= <-].
  apply safeParse_object_inv in E. destruct E as (fs & out & -> & -> & Hpf).
  cbn [paramsSchema StatelessServer.camino_route_planning] in Hpf.
  assert (Hnd : NoDup (map fst
            [("start_latitude", z_number None None);
             ("start_longitude", z_number None None);
             ("end_latitude", z_number None None);
             ("end_longitude", z_number None None);
             ("mode", z_default (z_enum ["car"; "bike"; "foot"]) (JStr "car"));
             ("include_geometry", z_default z_boolean (JBool false))]))
    by distinct_keys.
  destruct (parse_fields_get fs _ out "start_latitude" _ Hnd Hpf ltac:(cbn; tauto))
    as (va & Ha & Ga).
  destruct (parse_fields_get fs _ out "start_longitude" _ Hnd Hpf ltac:(cbn; tauto))
    as (vb & Hb & Gb).
  destruct (parse_fields_get fs _ out "end_latitude" _ Hnd Hpf ltac:(cbn; tauto))
    as (vc & Hc & Gc).
  destruct (parse_fields_get fs _ out "end_longitude" _ Hnd Hpf ltac:(cbn; tauto))
    as (vd & Hd & Gd).
  destruct (parse_fields_get fs _ out "mode" _ Hnd Hpf ltac:(cbn; tauto))
    as (vm & Hm & Gm).
  destruct (parse_fields_get fs _ out "include_geometry" _ Hnd Hpf ltac:(cbn; tauto))
    as (vg & Hg & Gg).
  pose proof (safeParse_number_same _ _ _ _ Ha) as Sa.
  pose proof (safeParse_number_same _ _ _ _ Hb) as Sb.
  pose proof (safeParse_number_same _ _ _ _ Hc) as Sc.
  pose proof (safeParse_number_same _ _ _ _ Hd) as Sd.
  apply safeParse_number_inv in Ha. destruct Ha as (a & -> & Na & _).
  apply safeParse_number_inv in Hb. destruct Hb as (b & -> & Nb & _).
  apply safeParse_number_inv in Hc. destruct Hc as (c & -> & Nc & _).
  apply safeParse_number_inv in Hd. destruct Hd as (d & -> & Nd & _).
  apply safeParse_enum_default_inv in Hm; [|cbn; tauto].
  destruct Hm as (mode & -> & Hin).
  apply safeParse_boolean_default_inv in Hg. destruct Hg as (geometry & ->).
  exists a, b, c, d, mode, geometry.
  split; [cbn [get]; now rewrite <- Sa, <- Sb, <- Sc, <- Sd|].
  split; [exact Na|]. split; [exact Nb|]. split; [exact Nc|]. split; [exact Nd|].
  split; [exact Hin|].
  cbn [callback StatelessServer.camino_route_planning].
  rewrite (proj1 (trace_bind_ret _ (StatelessServer.reply w))).
  rewrite planRoute_calls.
  cbn [get assoc String.eqb Ascii.eqb Bool.eqb].
  cbn [get] in Ga, Gb, Gc, Gd, Gm, Gg.
  now rewrite Ga, Gb, Gc, Gd, Gm, Gg.
Qed.

Lemma session_route_call_is_checked_witness :
  exists a b c d mode geometry,
    (JNum 40.75, JNum (-73.5), JNum 40.5, JNum (-73.75)) = (JNum a, JNum b, JNum c, JNum d)
    /\ PrimFloat.eqb a a = true /\ PrimFloat.eqb b b = true
    /\ PrimFloat.eqb c c = true /\ PrimFloat.eqb d d = true
    /\ In mode ["car"; "bike"; "foot"]
    /\ http_calls
         (trace (callback (StatelessServer.camino_route_planning offline sample_config)
                   (JObj [("start_latitude", JNum 40.75);
                          ("start_longitude", JNum (-73.5));
                          ("end_latitude", JNum 40.5);
                          ("end_longitude", JNum (-73.75));
                          ("mode", JStr "car");
                          ("include_geometry", JBool false)])))
       = [issued sample_api GET "/route"
            (JObj [("start_lat", JNum a); ("start_lon", JNum b);
                   ("end_lat", JNum c); ("end_lon", JNum d);
                   ("mode", JStr mode); ("include_geometry", JBool geometry)])
            JUndefined].
Proof.
  exact (session_route_call_is_checked offline sample_config
           (JObj [("start_latitude", JNum 40.75);
                  ("start_longitude", JNum (-73.5));
                  ("end_latitude", JNum 40.5);
                  ("end_longitude", JNum (-73.75))])
           _ eq_refl).
Defined.

(* ------------------------------------------------------------------ *)
(** ** Process entry points *)

(** X17: both entry points refuse to start without an API key.  When
    CAMINO_API_KEY is unset or empty, the stdio entry point writes its two
    lines to the standard error stream and the Docker entry point its one
    line, each exits with code 1, and neither logs anything nor tries to
    connect a transport. *)
Theorem entry_points_require_api_key
  (w : World) (env : string -> option string) (connect : Eff unit) :
  env "CAMINO_API_KEY" = None \/ env "CAMINO_API_KEY" = Some "" ->
  StdioEntry.start w env connect
  = ([EvWrite Stderr ("CAMINO_API_KEY environment variable is required" ++ newline);
      EvWrite Stderr
        ("Set it in your .env file or environment: CAMINO_API_KEY=your_api_key_here"
         ++ newline)],
     Normal (Exited 1))
  /\ DockerEntry.start w env connect
     = ([EvWrite Stderr ("CAMINO_API_KEY environment variable is required" ++ newline)],
        Normal (Exited 1)).
Proof.
  intros H.
  unfold StdioEntry.start, StdioEntry.main, DockerEntry.start, DockerEntry.main.
  destruct H as [-> | ->]; split; reflexivity.
Qed.

Lemma entry_points_require_api_key_witness :
  outcome (StdioEntry.start offline (fun _ => None) (ret tt)) = Normal (Exited 1).
Proof.
  exact (f_equal snd
           (proj1 (entry_points_require_api_key offline (fun _ => None) (ret tt)
                     (or_introl eq_refl)))).
Defined.

(** X18: start-up of the stdio entry point with an API key.  It never
    throws.  It first logs an INFO record, then connects, then logs a second
    INFO record when connected or the ERROR report when connecting failed.
    The first record is appended to the log file whenever the file can be
    written, whatever the debug flag, and holds the base URL (the default
    when CAMINO_API_BASE_URL is unset or empty) and the first eight
    characters of the API key.  If the connection is established the
    process serves a server built from that base URL and key; if connecting
    fails it exits with code 1. *)
Theorem stdio_entry_start_up
  (w : World) (env : string -> option string) (connect : Eff unit) (key : string) :
  env "CAMINO_API_KEY" = Some key ->
  key <> "" ->
  let base := env_or (env "CAMINO_API_BASE_URL") "https://api.getcamino.ai" in
  trace (StdioEntry.start w env connect)
  = (trace (Logger.info w "Starting Camino MCP Server"
              (JObj [("apiBaseUrl", JStr base);
                     ("apiKeyPrefix", JStr (substring 0 8 key))]))
     ++ trace connect
     ++ match outcome connect with
        | Normal _ => trace (Logger.info w "Camino MCP Server started" JUndefined)
        | Throw error => trace (Logger.error w "Failed to start server" error)
        end)%list
  /\ written LogFile
       (trace (Logger.info w "Starting Camino MCP Server"
                 (JObj [("apiBaseUrl", JStr base);
                        ("apiKeyPrefix", JStr (substring 0 8 key))])))
     = (if append_ok w
        then [render w false
                (JObj [("timestamp", JStr (now_iso w));
                       ("level", JStr "INFO");
                       ("message", JStr "Starting Camino MCP Server");
                       ("data", JObj [("apiBaseUrl", JStr base);
                                      ("apiKeyPrefix", JStr (substring 0 8 key))])])
              ++ newline]
        else [])
  /\ outcome (StdioEntry.start w env connect)
     = Normal (match outcome connect with
               | Normal _ => Serving (CaminoMCPServer.new base key)
               | Throw _ => Exited 1
               end).
Proof.
  intros Hkey Hne base.
  apply String.eqb_neq in Hne.
  unfold StdioEntry.start, StdioEntry.main. rewrite Hkey.
  replace (env_or (Some key) "") with key by (cbn [env_or]; now rewrite Hne).
  cbv zeta. rewrite Hne.
  unfold StdioEntry.Logger_info, StdioEntry.Logger_error, CaminoMCPServer.run,
         CaminoMCPServer.Logger_info, Logger.info, Logger.error, Logger.writeToFile.
  cbn [ident existsb String.eqb Ascii.eqb Bool.eqb orb
       StdioEntry.module_scope CaminoMCPServer.module_scope].
  destruct connect as [tc [[]|e]]; destruct (append_ok w); cbn;
    try (destruct (debugMode w && truthy e); cbn);
    rewrite ?app_nil_r; repeat split; reflexivity.
Qed.

Lemma stdio_entry_start_up_witness :
  outcome (StdioEntry.start offline
             (fun v => if String.eqb v "CAMINO_API_KEY" then Some "k-123" else None)
             (ret tt))
  = Normal (Serving sample_server).
Proof.
  destruct (stdio_entry_start_up offline
              (fun v => if String.eqb v "CAMINO_API_KEY" then Some "k-123" else None)
              (ret tt) "k-123" eq_refl)
    as (_ & _ & H).
  - discriminate.
  - exact H.
Defined.

(** X19: start-up of the Docker entry point with an API key.  It never
    throws and never touches the log file.  It builds the session server
    from the key, the base URL (the default when CAMINO_API_BASE_URL is
    unset or empty) and the debug flag, which is set only when DEBUG is
    exactly [true]; it connects; with the debug flag set it then reports on
    the standard error stream, without it it stays silent.  If connecting
    fails it reports the failure on the standard error stream and exits
    with code 1. *)
Theorem docker_entry_start_up
  (w : World) (env : string -> option string) (connect : Eff unit) (key : string) :
  env "CAMINO_API_KEY" = Some key ->
  key <> "" ->
  let config :=
    {| cfg_apiKey := key;
       cfg_baseUrl := env_or (env "CAMINO_API_BASE_URL") "https://api.getcamino.ai";
       cfg_debug := DockerEntry.debug_flag env |} in
  trace (DockerEntry.start w env connect)
  = (trace connect
     ++ match outcome connect with
        | Normal _ =>
            if DockerEntry.debug_flag env
            then [EvWrite Stderr ("Camino MCP Server running in Docker" ++ newline)]
            else []
        | Throw error => trace (console_error w "Failed to start server:" error)
        end)%list
  /\ outcome (DockerEntry.start w env connect)
     = Normal (match outcome connect with
               | Normal _ => Serving (StatelessServer.createStatelessServer w config)
               | Throw _ => Exited 1
               end).
Proof.
  intros Hkey Hne config.
  apply String.eqb_neq in Hne.
  unfold DockerEntry.start, DockerEntry.main. rewrite Hkey.
  replace (env_or (Some key) "") with key by (cbn [env_or]; now rewrite Hne).
  cbv zeta. rewrite Hne.
  unfold configSchema. rewrite safeParse_object_unfold.
  cbn [parse_fields safeParse assoc String.eqb Ascii.eqb Bool.eqb option_map].
  unfold console_error, stderr_write.
  destruct connect as [tc [[]|e]]; cbn [bind try_catch ret emit app trace outcome fst snd].
  - destruct (DockerEntry.debug_flag env) eqn:Ed; cbn; rewrite ?app_nil_r;
      split; try reflexivity;
      unfold config; rewrite Ed; reflexivity.
  - cbn. split; reflexivity.
Qed.

Lemma docker_entry_start_up_witness :
  trace (DockerEntry.start offline
           (fun v => if String.eqb v "CAMINO_API_KEY" then Some "k-123"
                     else if String.eqb v "DEBUG" then Some "TRUE" else None)
           (ret tt))
  = [].
Proof.
  destruct (docker_entry_start_up offline
              (fun v => if String.eqb v "CAMINO_API_KEY" then Some "k-123"
                        else if String.eqb v "DEBUG" then Some "TRUE" else None)
              (ret tt) "k-123" eq_refl)
    as (H & _).
  - discriminate.
  - exact H.
Defined.

(** X20: the same [Logger.error] call that fails inside [camino-api.ts]
    works inside [server.ts], which imports [Logger].  The error hook of
    the stdio-bound server completes normally for every error, appends one
    ERROR line [MCP Server Error] to the log file whenever the file can be
    written, whatever the debug flag, and writes to the standard error
    stream only in debug mode; the client's call throws before logging
    anything. *)
Theorem server_error_hook_logs (w : World) (error : JsValue) :
  outcome (CaminoMCPServer.onerror w error) = Normal tt
  /\ written LogFile (trace (CaminoMCPServer.onerror w error))
     = (if append_ok w
        then [render w false
                (JObj [("timestamp", JStr (now_iso w));
                       ("level", JStr "ERROR");
                       ("message", JStr "MCP Server Error");
                       ("data", js_or error JUndefined)])
              ++ newline]
        else [])
  /\ (debugMode w = false ->
      written Stderr (trace (CaminoMCPServer.onerror w error)) = [])
  /\ CaminoApiService.Logger_error w "MCP Server Error" error
     = ([], Throw Logger_unbound).
Proof.
  unfold CaminoMCPServer.onerror, CaminoMCPServer.Logger_error, Logger.error,
         Logger.writeToFile.
  cbn [ident existsb String.eqb Ascii.eqb Bool.eqb orb CaminoMCPServer.module_scope].
  destruct (append_ok w); cbn;
    (destruct (debugMode w); cbn [andb];
     [destruct (truthy error); cbn|]);
    repeat split; try reflexivity; try discriminate.
Qed.

Lemma server_error_hook_logs_witness :
  written Stderr
    (trace (CaminoMCPServer.onerror offline (new_Error "Error" "transport closed")))
  = [].
Proof.
  exact (proj1 (proj2 (proj2 (server_error_hook_logs offline
                                (new_Error "Error" "transport closed"))))
               eq_refl).
Defined.

(* ------------------------------------------------------------------ *)
(** ** The standard error stream during an invocation *)

Lemma operations_quiet_on_stderr_when_up w this request :
  (forall r, failing (upstream w r) = false) ->
  quiet Stderr (CaminoApiService.executeQuery w this request)
  /\ quiet Stderr (CaminoApiService.executeSearch w this request)
  /\ quiet Stderr (CaminoApiService.calculateSpatialRelationship w this request)
  /\ quiet Stderr (CaminoApiService.getPlaceContext w this request)
  /\ quiet Stderr (CaminoApiService.planJourney w this request)
  /\ quiet Stderr (CaminoApiService.planRoute w this request).
Proof.
  intros Hup.
  assert (Hsend : forall m path params data (k : JsValue -> JsValue) h,
             quiet Stderr
               (try_catch
                  (response <- CaminoApiService.send w this m path params data ;;
                   ret (k response)) h)).
  { intros. unfold CaminoApiService.send, quiet.
    cbn [bind emit try_catch ret app].
    match goal with
    | |- context [upstream w ?r] =>
        specialize (Hup r); destruct (upstream w r); cbn in Hup
    end; try discriminate Hup. reflexivity. }
  unfold CaminoApiService.executeQuery, CaminoApiService.executeSearch,
         CaminoApiService.calculateSpatialRelationship,
         CaminoApiService.getPlaceContext, CaminoApiService.planRoute,
         CaminoApiService.client_get, CaminoApiService.client_post.
  repeat split; try apply Hsend.
  unfold CaminoApiService.planJourney.
  pose proof (quiet_array_map Stderr CaminoApiService.wire_waypoint
                (get request "waypoints") (quiet_wire_waypoint Stderr)) as Hmap.
  unfold quiet, trace in *.
  destruct (CaminoApiService.array_map CaminoApiService.wire_waypoint
              (get request "waypoints")) as [t [wps|e]]; cbn in Hmap.
  - unfold CaminoApiService.client_post, CaminoApiService.send.
    cbn [bind emit try_catch ret app].
    match goal with
    | |- context [upstream w ?r] =>
        specialize (Hup r); destruct (upstream w r); cbn in Hup
    end; try discriminate Hup.
    cbn. now rewrite written_app, Hmap.
  - cbn. now rewrite app_nil_r.
Qed.

(** X21: the standard error stream is written only when an upstream call
    fails.  While the remote service answers every call with a 2xx
    response, no stdio invocation writes anything to the standard error
    stream or to the standard output, whatever the tool, the arguments and
    the debug flag. *)
Theorem stdio_silent_while_upstream_answers
  (w : World) (this : CaminoMCPServer.t) (tool : string) (args : JsValue) :
  (forall r, failing (upstream w r) = false) ->
  written Stderr (trace (CaminoMCPServer.callTool w this tool args)) = []
  /\ written Stdout (trace (CaminoMCPServer.callTool w this tool args)) = [].
Proof.
  intros Hup. split; [|apply stdio_quiet_on_stdout].
  destruct (callTool_spec w this tool args) as [-> _].
  set (a := js_or args (JObj [])).
  destruct (stdio_envelope w this tool a) as [m|] eqn:E.
  - destruct (executeTool_after_debug w this tool a _
                (executeTool_of_envelope w this tool a m E)) as (_ & _ & -> & _).
    rewrite (proj1 (trace_bind_ret m unwrap)).
    revert E. unfold stdio_envelope. intros E.
    repeat match type of E with
           | context [String.eqb tool ?label] =>
               destruct (String.eqb_spec tool label) as [->|_];
               [injection E as <-|]
           end; try discriminate E;
      match goal with
      | |- written Stderr (trace (_ _ ?api ?request)) = [] =>
          pose proof (operations_quiet_on_stderr_when_up w api request Hup);
          unfold quiet in *; tauto
      end.
  - assert (Hnot : ~ In tool registered_names).
    { intros Hin. apply (stdio_envelope_registered w this tool a) in Hin.
      now elim Hin. }
    destruct (executeTool_after_debug w this tool a _
                (executeTool_default w this tool a Hnot)) as (_ & _ & -> & _).
    reflexivity.
Qed.

Lemma stdio_silent_while_upstream_answers_witness :
  written Stderr
    (trace (CaminoMCPServer.callTool (online (JObj [("results", JArr [])]))
              sample_server "camino_query" (JObj [("query", JStr "cafes")])))
  = [].
Proof.
  exact (proj1 (stdio_silent_while_upstream_answers
                  (online (JObj [("results", JArr [])])) sample_server
                  "camino_query" (JObj [("query", JStr "cafes")])
                  (fun _ => eq_refl))).
Defined.
